(** * Session discovery of gastown (internal/claude/sessions.go)

    A shallow embedding of the session-discovery pipeline: the path codec
    [decodePath], the beacon pattern [gasTownPattern], the tolerant message
    decoder [extractMessageContent], the per-file scanner [parseSession]
    and the directory walk [DiscoverSessions].

    Go strings are byte sequences: they are modelled by [string] (a list of
    8-bit characters).  Where the Go code looks at runes (the regexp engine,
    [strings.TrimSpace]) the bytes are decoded as UTF-8 the way package
    [unicode/utf8] does. *)

From Stdlib Require Import String Ascii List ZArith Lia Bool Arith.
From Stdlib Require Import Permutation Sorted.
Import ListNotations.

Set Warnings "-register-all".

Local Open Scope list_scope.
Local Open Scope string_scope.

(* ================================================================== *)
(** ** Bytes and UTF-8 (package unicode/utf8) *)

Module Utf8.

Definition rune := Z.

Definition RuneError : rune := 65533%Z.
Definition RuneSelf : Z := 128%Z.

Definition byteZ (c : ascii) : Z := Z.of_N (N_of_ascii c).

Definition between (lo hi x : Z) : bool := ((lo <=? x) && (x <=? hi))%Z.

(** Continuation bytes lie in 0x80..0xBF. *)
Definition isCont (b : Z) : bool := between 128%Z 191%Z b.


(** The table [first] together with [acceptRanges]: for a leading byte,
    the length of the sequence and the range accepted for the second
    byte; [None] for a byte that starts no multi-byte sequence. *)
Definition first (b0 : Z) : option (nat * Z * Z) :=
  (if between 194 223 b0 then Some (2%nat, 128, 191)
   else if b0 =? 224 then Some (3%nat, 160, 191)
   else if between 225 236 b0 then Some (3%nat, 128, 191)
   else if b0 =? 237 then Some (3%nat, 128, 159)
   else if between 238 239 b0 then Some (3%nat, 128, 191)
   else if b0 =? 240 then Some (4%nat, 144, 191)
   else if between 241 243 b0 then Some (4%nat, 128, 191)
   else if b0 =? 244 then Some (4%nat, 128, 143)
   else None)%Z.

Definition str1 (a : ascii) : string := String a "".
Definition str2 (a b : ascii) : string := String a (String b "").
Definition str3 (a b c : ascii) : string := String a (String b (String c "")).
Definition str4 (a b c d : ascii) : string :=
  String a (String b (String c (String d ""))).

(** [DecodeRuneInString]: the first rune of [s], the bytes that encode it
    and the rest of the string; [None] on the empty string.  An invalid or
    truncated sequence yields [RuneError] of width one. *)
Definition DecodeRuneInString (s : string) : option (rune * string * string) :=
  match s with
  | "" => None
  | String c0 t0 =>
    let b0 := byteZ c0 in
    let bad := Some (RuneError, str1 c0, t0) in
    if (b0 <? RuneSelf)%Z then Some (b0, str1 c0, t0)
    else
      match first b0 with
      | None => bad
      | Some (sz, lo, hi) =>
        match t0 with
        | "" => bad
        | String c1 t1 =>
          let b1 := byteZ c1 in
          if negb (between lo hi b1) then bad
          else
            match sz with
            | 2%nat =>
              Some (Z.lor (Z.shiftl (Z.land b0 31) 6) (Z.land b1 63),
                    str2 c0 c1, t1)
            | _ =>
              match t1 with
              | "" => bad
              | String c2 t2 =>
                let b2 := byteZ c2 in
                if negb (isCont b2) then bad
                else
                  match sz with
                  | 3%nat =>
                    Some (Z.lor (Z.shiftl (Z.land b0 15) 12)
                            (Z.lor (Z.shiftl (Z.land b1 63) 6) (Z.land b2 63)),
                          str3 c0 c1 c2, t2)
                  | _ =>
                    match t2 with
                    | "" => bad
                    | String c3 t3 =>
                      let b3 := byteZ c3 in
                      if negb (isCont b3) then bad
                      else
                        Some (Z.lor (Z.shiftl (Z.land b0 7) 18)
                                (Z.lor (Z.shiftl (Z.land b1 63) 12)
                                   (Z.lor (Z.shiftl (Z.land b2 63) 6)
                                          (Z.land b3 63))),
                              str4 c0 c1 c2 c3, t3)
                    end
                  end
              end
            end
        end
      end
  end.

(** The runes of a string in order, each with the bytes it was decoded
    from: what a [for range] loop over the string sees. *)
Fixpoint runesFuel (fuel : nat) (s : string) : list (rune * string) :=
  match fuel with
  | O => []
  | S fuel' =>
    match DecodeRuneInString s with
    | None => []
    | Some (r, chunk, rest) => (r, chunk) :: runesFuel fuel' rest
    end
  end.

Definition runes (s : string) : list (rune * string) :=
  runesFuel (String.length s) s.

(** The bytes of a sequence of decoded runes. *)
Fixpoint text (cs : list (rune * string)) : string :=
  match cs with
  | [] => ""
  | (_, chunk) :: cs' => chunk ++ text cs'
  end.

End Utf8.

(* ================================================================== *)
(** ** Package unicode *)

Module Unicode.

(** [unicode.IsSpace]: the Latin-1 spaces and the White_Space table. *)
Definition IsSpace (r : Utf8.rune) : bool :=
  (Utf8.between 9 13 r || (r =? 32) || (r =? 133) || (r =? 160)
   || (r =? 5760) || Utf8.between 8192 8202 r || Utf8.between 8232 8233 r
   || (r =? 8239) || (r =? 8287) || (r =? 12288))%Z.

End Unicode.

(* ================================================================== *)
(** ** Package strings *)

Module Strings.

Fixpoint HasPrefix (s prefix : string) {struct prefix} : bool :=
  match prefix with
  | "" => true
  | String p prefix' =>
    match s with
    | "" => false
    | String c s' => Ascii.eqb c p && HasPrefix s' prefix'
    end
  end.

Fixpoint Contains (s substr : string) : bool :=
  HasPrefix s substr ||
  match s with
  | "" => false
  | String _ s' => Contains s' substr
  end.

Fixpoint drop (n : nat) (s : string) : string :=
  match n, s with
  | O, _ => s
  | S _, "" => ""
  | S n', String _ s' => drop n' s'
  end.

Fixpoint take (n : nat) (s : string) : string :=
  match n, s with
  | O, _ => ""
  | S _, "" => ""
  | S n', String c s' => String c (take n' s')
  end.

Definition HasSuffix (s suffix : string) : bool :=
  (String.length suffix <=? String.length s)%nat &&
  String.eqb (drop (String.length s - String.length suffix) s) suffix.

Definition TrimSuffix (s suffix : string) : string :=
  if HasSuffix s suffix
  then take (String.length s - String.length suffix) s
  else s.

(** [ReplaceAll s old new] for a non-empty [old]: the non-overlapping
    occurrences of [old] are replaced from the left.  [skip] counts the
    bytes of an occurrence that are still to be passed over.  (With an
    empty [old] the library inserts [new] around every rune; no call of
    this program does that, and the model leaves [s] as it is.) *)
Fixpoint replaceFrom (skip : nat) (s old new : string) : string :=
  match s with
  | "" => ""
  | String c s' =>
    match skip with
    | S k => replaceFrom k s' old new
    | O =>
      if HasPrefix s old
      then new ++ replaceFrom (String.length old - 1) s' old new
      else String c (replaceFrom O s' old new)
    end
  end.

Definition ReplaceAll (s old new : string) : string :=
  match old with
  | "" => s
  | _ => replaceFrom O s old new
  end.

(** [TrimSpace]: the leading and the trailing runes that are white space
    by [unicode.IsSpace] are removed. *)
Fixpoint dropSpaces (cs : list (Utf8.rune * string)) : list (Utf8.rune * string) :=
  match cs with
  | [] => []
  | (r, chunk) :: cs' =>
    if Unicode.IsSpace r then dropSpaces cs' else cs
  end.

Definition TrimLeftSpace (cs : list (Utf8.rune * string)) := dropSpaces cs.
Definition TrimRightSpace (cs : list (Utf8.rune * string)) :=
  rev (dropSpaces (rev cs)).

Definition TrimSpace (s : string) : string :=
  Utf8.text (TrimRightSpace (TrimLeftSpace (Utf8.runes s))).

End Strings.

(* ================================================================== *)
(** ** Package regexp: the fragment [gasTownPattern] is written in *)

Module Regexp.

Import Utf8.

(** Perl character class [\s] of RE2: tab, newline, form feed, carriage
    return and space. *)
Definition perlSpace (r : rune) : bool :=
  ((r =? 9) || (r =? 10) || (r =? 12) || (r =? 13) || (r =? 32))%Z.

Inductive Regexp : Type :=
| Lit (rs : list rune)                       (* a literal *)
| Rep (cls : rune -> bool) (min : nat) (greedy : bool)
                                             (* cls* cls+ cls+? ... *)
| Cap (i : nat) (re : Regexp)                (* ( re ) *)
| Cat (re1 re2 : Regexp)                     (* re1 re2 *)
| Quest (re : Regexp)                        (* (?: re )? , prefers re *)
| EndText.                                   (* $ without flag m *)

Definition Input := list (rune * string).
Definition Caps := list (nat * string).

(** What a sub-match between two positions of the input spans. *)
Definition span (from to : Input) : string :=
  text (firstn (List.length from - List.length to) from).

Fixpoint matchLit (rs : list rune) (inp : Input) : option Input :=
  match rs with
  | [] => Some inp
  | r :: rs' =>
    match inp with
    | (x, _) :: inp' => if (x =? r)%Z then matchLit rs' inp' else None
    | [] => None
    end
  end.

Definition orElse {A} (x : option A) (y : option A) : option A :=
  match x with
  | Some _ => x
  | None => y
  end.

(** Repetition of a character class, with the preference order of a
    backtracking matcher (leftmost-first): a greedy repetition tries one
    more rune before it tries what follows, a lazy one the other way. *)
Fixpoint matchRep {R} (cls : rune -> bool) (min : nat) (greedy : bool)
         (inp : Input) (k : Input -> option R) : option R :=
  match inp with
  | [] => match min with O => k [] | S _ => None end
  | (x, _) :: inp' =>
    match min with
    | S m => if cls x then matchRep cls m greedy inp' k else None
    | O =>
      if greedy
      then orElse (if cls x then matchRep cls O greedy inp' k else None)
                  (k inp)
      else orElse (k inp)
                  (if cls x then matchRep cls O greedy inp' k else None)
    end
  end.

Fixpoint run (re : Regexp) (inp : Input) (caps : Caps)
         (k : Input -> Caps -> option Caps) : option Caps :=
  match re with
  | Lit rs =>
    match matchLit rs inp with
    | Some inp' => k inp' caps
    | None => None
    end
  | Rep cls min greedy =>
    matchRep cls min greedy inp (fun inp' => k inp' caps)
  | Cap i re' =>
    run re' inp caps (fun inp' caps' => k inp' ((i, span inp inp') :: caps'))
  | Cat re1 re2 =>
    run re1 inp caps (fun inp' caps' => run re2 inp' caps' k)
  | Quest re' =>
    orElse (run re' inp caps k) (k inp caps)
  | EndText =>
    match inp with
    | [] => k inp caps
    | _ :: _ => None
    end
  end.

(** The most recent value of group [i]; a group that took no part in the
    match reads as the empty string. *)
Fixpoint group (i : nat) (caps : Caps) : string :=
  match caps with
  | [] => ""
  | (j, s) :: caps' => if (i =? j)%nat then s else group i caps'
  end.

(** A match that starts at the first position of [inp]. *)
Definition matchHere (re : Regexp) (inp : Input) : option Caps :=
  run re inp [] (fun inp' caps => Some ((0%nat, span inp inp') :: caps)).

(** The leftmost match: start positions are tried from left to right. *)
Fixpoint search (re : Regexp) (inp : Input) : option Caps :=
  match matchHere re inp with
  | Some caps => Some caps
  | None =>
    match inp with
    | [] => None
    | _ :: inp' => search re inp'
    end
  end.

(** [FindStringSubmatch]: the text of the leftmost match and of its
    [n] groups, or [None] (Go's nil) when there is no match. *)
Definition FindStringSubmatch (re : Regexp) (n : nat) (s : string)
  : option (list string) :=
  match search re (runes s) with
  | None => None
  | Some caps => Some (map (fun i => group i caps) (seq 0 (S n)))
  end.

Definition litOf (s : string) : Regexp := Lit (map fst (runes s)).

End Regexp.

(* ================================================================== *)
(** ** sessions.go: the beacon pattern and the path codec *)

Definition bullet : Utf8.rune := 8226%Z.

(** [gasTownPattern], the beacon "[GAS TOWN] role • topic • timestamp".
    The source pattern, piece by piece as it is built below:
      - the tag, with its brackets escaped, and [\s+];
      - group 1, the role: [[^\s•]+], then [\s*];
      - an optional non-capturing group: a bullet, [\s*], group 2 (the
        topic, lazy: [[^•]+?]) and [\s*];
      - an optional non-capturing group: a bullet, [\s*] and group 3
        (the timestamp: [\S+]);
      - [\s*] and [$]. *)
Definition gasTownPattern : Regexp.Regexp :=
  let sp := Regexp.perlSpace in
  let Cat := Regexp.Cat in
  let Rep := Regexp.Rep in
  Cat (Regexp.litOf "[GAS TOWN]")
 (Cat (Rep sp 1 true)
 (Cat (Regexp.Cap 1 (Rep (fun r => negb (sp r || (r =? bullet)%Z)) 1 true))
 (Cat (Rep sp 0 true)
 (Cat (Regexp.Quest
         (Cat (Regexp.litOf "•")
         (Cat (Rep sp 0 true)
         (Cat (Regexp.Cap 2 (Rep (fun r => negb (r =? bullet)%Z) 1 false))
              (Rep sp 0 true)))))
 (Cat (Regexp.Quest
         (Cat (Regexp.litOf "•")
         (Cat (Rep sp 0 true)
              (Regexp.Cap 3 (Rep (fun r => negb (sp r)) 1 true)))))
 (Cat (Rep sp 0 true)
      Regexp.EndText)))))).

Definition gasTownPattern_FindStringSubmatch (s : string) : option (list string) :=
  Regexp.FindStringSubmatch gasTownPattern 3 s.

(** [decodePath]: a leading dash becomes the root slash, then every
    remaining dash becomes a slash. *)
Definition decodePath (encoded : string) : string :=
  let encoded :=
    if Strings.HasPrefix encoded "-"
    then "/" ++ Strings.drop 1 encoded
    else encoded in
  Strings.ReplaceAll encoded "-" "/".

(* ================================================================== *)
(** ** Package time *)

Module Time.

Local Open Scope Z_scope.

(** An instant: seconds since January 1 of year 1, 00:00:00 UTC, and
    nanoseconds within the second.  The location of a [time.Time] is left
    out: neither [IsZero] nor [After] looks at it. *)
Record Time := mkTime { sec : Z; nsec : Z }.

Definition zero : Time := mkTime 0 0.

Definition IsZero (t : Time) : bool := (sec t =? 0) && (nsec t =? 0).

Definition After (t u : Time) : bool :=
  (sec t >? sec u) || ((sec t =? sec u) && (nsec t >? nsec u)).

Definition RFC3339 : string := "2006-01-02T15:04:05Z07:00".

End Time.

(* ================================================================== *)
(** ** Package bufio: a Scanner with the ScanLines split function *)

Module Bufio.

Definition newline : ascii := "010"%char.
Definition carriageReturn : ascii := "013"%char.

(** The lines of the data: a final line needs no newline, and data that
    ends in a newline has no empty line after it. *)
Fixpoint rawLines (data : string) : list string :=
  match data with
  | "" => []
  | String c data' =>
    if Ascii.eqb c newline then "" :: rawLines data'
    else
      match rawLines data' with
      | [] => [String c ""]
      | l :: ls => String c l :: ls
      end
  end.

Fixpoint dropCR (l : string) : string :=
  match l with
  | "" => ""
  | String c "" => if Ascii.eqb c carriageReturn then "" else l
  | String c l' => String c (dropCR l')
  end.

Fixpoint takeWhile {A} (f : A -> bool) (l : list A) : list A :=
  match l with
  | [] => []
  | x :: l' => if f x then x :: takeWhile f l' else []
  end.

(** The tokens that successive calls of [Scan] deliver, for a scanner
    whose buffer may grow to [max] bytes: a line that does not fit (its
    bytes before the newline fill the buffer) ends the scan with
    [ErrTooLong], as a read error does; the caller here looks at neither
    error. *)
Definition Scan (max : Z) (data : string) : list string :=
  map dropCR
      (takeWhile (fun l => (Z.of_nat (String.length l) <? max)%Z)
                 (rawLines data)).

End Bufio.

(* ================================================================== *)
(** ** The operating system and the libraries the program calls *)

Inductive error : Type :=
| ErrNotExist
| ErrPermission
| ErrOther (msg : string).

(** [os.IsNotExist] on the error of a call that may have returned none. *)
Definition os_IsNotExist (err : option error) : bool :=
  match err with
  | Some ErrNotExist => true
  | _ => false
  end.

Inductive result (A : Type) : Type :=
| Ok (a : A)
| Err (e : error).
Arguments Ok {A} a.
Arguments Err {A} e.

Record DirEntry := mkDirEntry { Name : string; IsDir : bool }.

(** What the process sees of its environment: each operation is a function
    of the path it is called on.  [os_Open] gives the bytes that reading
    the file delivers until end of file or a read error. *)
Record World := mkWorld {
  os_ExpandEnv : string -> string;
  os_Stat : string -> option error;
  os_ReadDir : string -> result (list DirEntry);
  os_Open : string -> result string
}.

(** The file-system calls a run makes, in order. *)
Inductive Event : Type :=
| EvStat (path : string)
| EvReadDir (path : string)
| EvOpen (path : string).

(** The anonymous struct of the first line. *)
Record summaryLine := mkSummaryLine {
  sl_Type : string;
  sl_Summary : string
}.

(** The anonymous struct of every later line; [Message] is a
    [json.RawMessage], the bytes of the value as they stand in the line. *)
Record entryLine := mkEntryLine {
  el_Type : string;
  el_SessionID : string;
  el_Timestamp : string;
  el_Message : string
}.

(** The anonymous struct [extractMessageContent] decodes into. *)
Record messageObj := mkMessageObj {
  mo_Content : string;
  mo_Role : string
}.

(** The library functions whose behaviour the program takes as given:
    [json.Unmarshal] at the four types it is called at ([None] when it
    returns an error: the program never looks at a value decoded with an
    error), [time.Parse], [strings.ToLower], [filepath.Join],
    [filepath.Base] and [sort.Slice]. *)
Class Library := mkLibrary {
  json_Unmarshal_summaryLine : string -> option summaryLine;
  json_Unmarshal_entryLine : string -> option entryLine;
  json_Unmarshal_string : string -> option string;
  json_Unmarshal_messageObj : string -> option messageObj;
  time_Parse : string -> string -> option Time.Time;
  strings_ToLower : string -> string;
  filepath_Join : string -> string -> string;
  filepath_Base : string -> string;
  sort_Slice : forall A : Type, (A -> A -> bool) -> list A -> list A
}.

(* ================================================================== *)
(** ** sessions.go: the data model *)

Record SessionInfo := mkSessionInfo {
  ID : string;
  Path : string;
  Role : string;
  Topic : string;
  StartTime : Time.Time;
  Summary : string;
  IsGasTown : bool;
  FilePath : string
}.

(** [SessionFilter]; its fields [Role] and [Path] are [FilterRole] and
    [FilterPath] here, apart from those of [SessionInfo]. *)
Record SessionFilter := mkSessionFilter {
  GasTownOnly : bool;
  FilterRole : string;
  Rig : string;
  FilterPath : string;
  Limit : Z
}.

Definition set_ID (v : string) (s : SessionInfo) : SessionInfo :=
  mkSessionInfo v (Path s) (Role s) (Topic s) (StartTime s) (Summary s)
                (IsGasTown s) (FilePath s).

Definition set_StartTime (v : Time.Time) (s : SessionInfo) : SessionInfo :=
  mkSessionInfo (ID s) (Path s) (Role s) (Topic s) v (Summary s)
                (IsGasTown s) (FilePath s).

Definition set_Summary (v : string) (s : SessionInfo) : SessionInfo :=
  mkSessionInfo (ID s) (Path s) (Role s) (Topic s) (StartTime s) v
                (IsGasTown s) (FilePath s).

Definition set_beacon (role topic : string) (s : SessionInfo) : SessionInfo :=
  mkSessionInfo (ID s) (Path s) role topic (StartTime s) (Summary s)
                true (FilePath s).

(* ================================================================== *)
(** ** sessions.go: the scan of one file *)

Section Scan.

Context {L : Library}.

(** [extractMessageContent]. *)
Definition extractMessageContent (msg : string) : string :=
  if (String.length msg =? 0)%nat then ""
  else
    match json_Unmarshal_string msg with
    | Some str => str
    | None =>
      match json_Unmarshal_messageObj msg with
      | Some obj => mo_Content obj
      | None => ""
      end
    end.

(** What [parseSession] takes from a message that carries the beacon:
    the role is group 1, the topic is group 2 with its white space
    trimmed. *)
Definition matchBeacon (msgStr : string) : option (string * string) :=
  match gasTownPattern_FindStringSubmatch msgStr with
  | Some m =>
    Some (nth 1 m "",
          if (2 <? List.length m)%nat then Strings.TrimSpace (nth 2 m "") else "")
  | None => None
  end.

(** The body of [if entry.Type == "user"]. *)
Definition userEntry (entry : entryLine) (info : SessionInfo) : SessionInfo :=
  let info :=
    if negb (el_Timestamp entry =? "") && Time.IsZero (StartTime info)
    then
      match time_Parse Time.RFC3339 (el_Timestamp entry) with
      | Some t => set_StartTime t info
      | None => info
      end
    else info in
  let info :=
    if (ID info =? "") && negb (el_SessionID entry =? "")
    then set_ID (el_SessionID entry) info
    else info in
  if negb (IsGasTown info)
  then
    match gasTownPattern_FindStringSubmatch
            (extractMessageContent (el_Message entry)) with
    | Some m =>
      set_beacon (nth 1 m "")
                 (if (2 <? List.length m)%nat
                  then Strings.TrimSpace (nth 2 m "")
                  else Topic info)
                 info
    | None => info
    end
  else info.

(** How one turn of the loop ends: with the next call of [Scan], or with
    [break]. *)
Inductive Flow : Type := Continue | Break.

(** The body of the loop over the lines, [lineNum] already counted up. *)
Definition body (lineNum : Z) (line : string) (info : SessionInfo)
  : SessionInfo * Flow :=
  if (lineNum =? 1)%Z
  then
    match json_Unmarshal_summaryLine line with
    | Some entry =>
      if sl_Type entry =? "summary"
      then (set_Summary (sl_Summary entry) info, Continue)
      else (info, Continue)
    | None => (info, Continue)
    end
  else
    match json_Unmarshal_entryLine line with
    | None => (info, Continue)
    | Some entry =>
      let info :=
        if el_Type entry =? "user" then userEntry entry info else info in
      if IsGasTown info && negb (Time.IsZero (StartTime info))
         && (lineNum >? 20)%Z
      then (info, Break)
      else (info, Continue)
    end.

(** [for scanner.Scan() { lineNum++ ... }]: the descriptor and the value
    of [lineNum] when the loop is left, which is the number of lines the
    scanner was asked for and delivered.  [lineNum] is a Go [int]: it
    counts the lines of one file and cannot reach the end of its range, so
    it is an integer without wrap-around here. *)
Fixpoint scanLoop (lines : list string) (lineNum : Z) (info : SessionInfo)
  : SessionInfo * Z :=
  match lines with
  | [] => (info, lineNum)
  | line :: lines' =>
    let lineNum := (lineNum + 1)%Z in
    match body lineNum line info with
    | (info', Break) => (info', lineNum)
    | (info', Continue) => scanLoop lines' lineNum info'
    end
  end.

(** The descriptor before the first line is read. *)
Definition newSession (filePath projectPath : string) : SessionInfo :=
  mkSessionInfo (Strings.TrimSuffix (filepath_Base filePath) ".jsonl")
                projectPath "" "" Time.zero "" false filePath.

Definition maxTokenSize : Z := 1024 * 1024.

(** The lines the scanner of [parseSession] delivers for a file. *)
Definition sessionLines (data : string) : list string :=
  Bufio.Scan maxTokenSize data.

(** [parseSession], with the call of [os.Open] it makes. *)
Definition parseSession (w : World) (filePath projectPath : string)
  : result SessionInfo * list Event :=
  match os_Open w filePath with
  | Err e => (Err e, [EvOpen filePath])
  | Ok data =>
    (Ok (fst (scanLoop (sessionLines data) 0 (newSession filePath projectPath))),
     [EvOpen filePath])
  end.

(** The number of lines [parseSession] reads from a file. *)
Definition linesRead (filePath projectPath data : string) : Z :=
  snd (scanLoop (sessionLines data) 0 (newSession filePath projectPath)).

End Scan.

(* ================================================================== *)
(** ** sessions.go: the walk over the storage root *)

Section Discover.

Context {L : Library}.

(** The filters applied to a parsed session (beacon-only and role). *)
Definition keepSession (filter : SessionFilter) (info : SessionInfo) : bool :=
  if GasTownOnly filter && negb (IsGasTown info) then false
  else if negb (FilterRole filter =? "")
  then
    let roleMatch :=
      Strings.Contains (strings_ToLower (Role info))
                       (strings_ToLower (FilterRole filter)) in
    let pathMatch :=
      Strings.Contains (strings_ToLower (Path info))
                       (strings_ToLower (FilterRole filter)) in
    if negb roleMatch && negb pathMatch then false else true
  else true.

(** The filters applied to a project directory before it is read. *)
Definition keepProject (filter : SessionFilter) (projectPath : string) : bool :=
  if negb (Rig filter =? "")
     && negb (Strings.Contains projectPath ("/" ++ Rig filter ++ "/"))
  then false
  else if negb (FilterPath filter =? "")
          && negb (Strings.Contains projectPath (FilterPath filter))
  then false
  else true.

(** The files of a project directory the walk parses. *)
Definition isSessionFile (sf : DirEntry) : bool :=
  Strings.HasSuffix (Name sf) ".jsonl"
  && negb (Strings.HasPrefix (Name sf) "agent-").

(** The loop over the files of one project directory: the sessions it
    appends and the files it opens. *)
Fixpoint walkFiles (filter : SessionFilter) (w : World)
         (projectDir projectPath : string) (sessionFiles : list DirEntry)
  : list SessionInfo * list Event :=
  match sessionFiles with
  | [] => ([], [])
  | sf :: rest =>
    let next := walkFiles filter w projectDir projectPath rest in
    if negb (Strings.HasSuffix (Name sf) ".jsonl") then next
    else if Strings.HasPrefix (Name sf) "agent-" then next
    else
      let sessionPath := filepath_Join projectDir (Name sf) in
      match parseSession w sessionPath projectPath with
      | (Err _, evs) => (fst next, (evs ++ snd next)%list)
      | (Ok info, evs) =>
        if keepSession filter info
        then (info :: fst next, (evs ++ snd next)%list)
        else (fst next, (evs ++ snd next)%list)
      end
  end.

(** One turn of the loop over the entries of the storage root. *)
Definition walkProject (filter : SessionFilter) (w : World)
           (projectsDir : string) (entry : DirEntry)
  : list SessionInfo * list Event :=
  if negb (IsDir entry) then ([], [])
  else
    let projectPath := decodePath (Name entry) in
    if negb (keepProject filter projectPath) then ([], [])
    else
      let projectDir := filepath_Join projectsDir (Name entry) in
      match os_ReadDir w projectDir with
      | Err _ => ([], [EvReadDir projectDir])
      | Ok sessionFiles =>
        let r := walkFiles filter w projectDir projectPath sessionFiles in
        (fst r, EvReadDir projectDir :: snd r)
      end.

Fixpoint walkProjects (filter : SessionFilter) (w : World)
         (projectsDir : string) (entries : list DirEntry)
  : list SessionInfo * list Event :=
  match entries with
  | [] => ([], [])
  | entry :: rest =>
    let r := walkProject filter w projectsDir entry in
    let next := walkProjects filter w projectsDir rest in
    ((fst r ++ fst next)%list, (snd r ++ snd next)%list)
  end.

(** The comparison handed to [sort.Slice]: later start times first. *)
Definition byStartTimeDesc (a b : SessionInfo) : bool :=
  Time.After (StartTime a) (StartTime b).

(** [sort.Slice(sessions, ...)]. *)
Definition sortSessions (sessions : list SessionInfo) : list SessionInfo :=
  sort_Slice SessionInfo byStartTimeDesc sessions.

Definition applyLimit (filter : SessionFilter) (sessions : list SessionInfo)
  : list SessionInfo :=
  if ((Limit filter >? 0) && (Z.of_nat (List.length sessions) >? Limit filter))%Z
  then firstn (Z.to_nat (Limit filter)) sessions
  else sessions.

Definition projectsDirOf (w : World) : string :=
  filepath_Join (os_ExpandEnv w "$HOME/.claude") "projects".

(** [DiscoverSessions]: the sessions, the error, and the file-system
    calls made. *)
Definition DiscoverSessions (filter : SessionFilter) (w : World)
  : list SessionInfo * option error * list Event :=
  let projectsDir := projectsDirOf w in
  if os_IsNotExist (os_Stat w projectsDir)
  then ([], None, [EvStat projectsDir])
  else
    match os_ReadDir w projectsDir with
    | Err err => ([], Some err, [EvStat projectsDir; EvReadDir projectsDir])
    | Ok entries =>
      let r := walkProjects filter w projectsDir entries in
      let sessions := sortSessions (fst r) in
      (applyLimit filter sessions, None,
       EvStat projectsDir :: EvReadDir projectsDir :: snd r)
    end.

End Discover.
(* ================================================================== *)
(** ** A reference instance of the libraries

    The theorems below hold for every [Library].  To run the program on
    concrete files, this section gives one: a decoder for JSON texts that
    follows encoding/json, [time.Parse] for timestamps in the form
    RFC 3339 prescribes, [strings.ToLower] on ASCII letters, the Unix
    [filepath] functions and the pattern-defeating quicksort of package
    sort. *)

Module Json.

Import Utf8.
Local Open Scope Z_scope.

Definition quote : ascii := "034"%char.
Definition backslash : ascii := "092"%char.

Inductive Value : Type :=
| Null
| Bool (b : bool)
| Number (lit : string)
| Str (s : string)
| Array (vs : list Value)
| Object (members : list (string * string * Value)).
    (* key, the bytes of the value, the value *)

Definition isWS (c : ascii) : bool :=
  let b := byteZ c in (b =? 32) || (b =? 9) || (b =? 13) || (b =? 10).

Fixpoint skipWS (s : string) : string :=
  match s with
  | String c s' => if isWS c then skipWS s' else s
  | "" => ""
  end.

Definition asciiOf (x : Z) : ascii := ascii_of_N (Z.to_N x).

(** [utf8.EncodeRune]; surrogates and values out of range are written
    as U+FFFD. *)
Definition EncodeRune (r : rune) : string :=
  if between 0 127 r then str1 (asciiOf r)
  else if between 128 2047 r then
    str2 (asciiOf (Z.lor 192 (Z.shiftr r 6)))
         (asciiOf (Z.lor 128 (Z.land r 63)))
  else if between 2048 65535 r && negb (between 55296 57343 r) then
    str3 (asciiOf (Z.lor 224 (Z.shiftr r 12)))
         (asciiOf (Z.lor 128 (Z.land (Z.shiftr r 6) 63)))
         (asciiOf (Z.lor 128 (Z.land r 63)))
  else if between 65536 1114111 r then
    str4 (asciiOf (Z.lor 240 (Z.shiftr r 18)))
         (asciiOf (Z.lor 128 (Z.land (Z.shiftr r 12) 63)))
         (asciiOf (Z.lor 128 (Z.land (Z.shiftr r 6) 63)))
         (asciiOf (Z.lor 128 (Z.land r 63)))
  else str3 (asciiOf 239) (asciiOf 191) (asciiOf 189).

Definition hexVal (c : ascii) : option Z :=
  let b := byteZ c in
  if between 48 57 b then Some (b - 48)
  else if between 97 102 b then Some (b - 87)
  else if between 65 70 b then Some (b - 55)
  else None.

(** [getu4] on the four characters after a backslash and a u. *)
Definition getu4 (s : string) : option (Z * string) :=
  match s with
  | String h1 (String h2 (String h3 (String h4 rest))) =>
    match hexVal h1, hexVal h2, hexVal h3, hexVal h4 with
    | Some a, Some b, Some c, Some d =>
      Some (a * 4096 + b * 256 + c * 16 + d, rest)
    | _, _, _, _ => None
    end
  | _ => None
  end.

Definition isSurrogate (r : Z) : bool := between 55296 57343 r.

(** The second half of a surrogate pair, when an escaped low surrogate
    follows an escaped high one. *)
Definition lowSurrogate (hi : Z) (s : string) : option (Z * string) :=
  match s with
  | String b (String u s') =>
    if Ascii.eqb b backslash && Ascii.eqb u "u"%char then
      match getu4 s' with
      | Some (lo, rest) =>
        if between 55296 56319 hi && between 56320 57343 lo
        then Some ((hi - 55296) * 1024 + (lo - 56320) + 65536, rest)
        else None
      | None => None
      end
    else None
  | _ => None
  end.

(** A string literal after its opening quote: its value, with the
    escapes resolved and invalid UTF-8 replaced, and what follows the
    closing quote. *)
Fixpoint stringBody (fuel : nat) (s : string) : option (string * string) :=
  match fuel with
  | O => None
  | S fuel' =>
    match s with
    | "" => None
    | String c s' =>
      if Ascii.eqb c quote then Some ("", s')
      else if Ascii.eqb c backslash then
        match s' with
        | "" => None
        | String e s'' =>
          let plain (x : Z) :=
            match stringBody fuel' s'' with
            | Some (v, rest) => Some (String (asciiOf x) v, rest)
            | None => None
            end in
          let b := byteZ e in
          if (b =? 34) || (b =? 92) || (b =? 47) then plain b
          else if b =? 98 then plain 8
          else if b =? 102 then plain 12
          else if b =? 110 then plain 10
          else if b =? 114 then plain 13
          else if b =? 116 then plain 9
          else if b =? 117 then
            match getu4 s'' with
            | None => None
            | Some (r, rest) =>
              let '(r, rest) :=
                if isSurrogate r then
                  match lowSurrogate r rest with
                  | Some (r', rest') => (r', rest')
                  | None => (RuneError, rest)
                  end
                else (r, rest) in
              match stringBody fuel' rest with
              | Some (v, rest') => Some ((EncodeRune r ++ v)%string, rest')
              | None => None
              end
            end
          else None
        end
      else if byteZ c <? 32 then None
      else if byteZ c <? 128 then
        match stringBody fuel' s' with
        | Some (v, rest) => Some (String c v, rest)
        | None => None
        end
      else
        match DecodeRuneInString s with
        | Some (r, _, rest) =>
          match stringBody fuel' rest with
          | Some (v, rest') => Some ((EncodeRune r ++ v)%string, rest')
          | None => None
          end
        | None => None
        end
    end
  end.

Definition isDigit (c : ascii) : bool := between 48 57 (byteZ c).

Fixpoint digits (s : string) : string * string :=
  match s with
  | String c s' =>
    if isDigit c then let (d, r) := digits s' in (String c d, r)
    else ("", s)
  | "" => ("", "")
  end.

(** A number literal: sign, integer part, fraction, exponent. *)
Definition number (s : string) : option (string * string) :=
  let (sign, s1) :=
    match s with
    | String c s' => if Ascii.eqb c "-"%char then ("-"%string, s') else (""%string, s)
    | "" => (""%string, s)
    end in
  let intPart :=
    match s1 with
    | String c s' =>
      if Ascii.eqb c "0"%char then Some ("0"%string, s')
      else if isDigit c then Some (digits s1)
      else None
    | "" => None
    end in
  match intPart with
  | None => None
  | Some (i, s2) =>
    let frac :=
      match s2 with
      | String c s' =>
        if Ascii.eqb c "."%char then
          match digits s' with
          | (""%string, _) => None
          | (d, r) => Some (("." ++ d)%string, r)
          end
        else Some (""%string, s2)
      | "" => Some (""%string, s2)
      end in
    match frac with
    | None => None
    | Some (f, s3) =>
      let expo :=
        match s3 with
        | String c s' =>
          if Ascii.eqb c "e"%char || Ascii.eqb c "E"%char then
            let (sg, s'') :=
              match s' with
              | String g t =>
                if Ascii.eqb g "+"%char || Ascii.eqb g "-"%char
                then (str1 g, t) else (""%string, s')
              | "" => (""%string, s')
              end in
            match digits s'' with
            | (""%string, _) => None
            | (d, r) => Some ((str1 c ++ sg ++ d)%string, r)
            end
          else Some (""%string, s3)
        | "" => Some (""%string, s3)
        end in
      match expo with
      | None => None
      | Some (e, s4) => Some ((sign ++ i ++ f ++ e)%string, s4)
      end
    end
  end.

Definition maxNestingDepth : Z := 10000.

Definition consumed (before after : string) : string :=
  Strings.take (String.length before - String.length after) before.

(** A value at the head of [s] (white space already skipped), and what
    follows it. *)
Fixpoint value (fuel : nat) (depth : Z) (s : string) {struct fuel}
  : option (Value * string) :=
  match fuel with
  | O => None
  | S fuel' =>
    match s with
    | "" => None
    | String c s' =>
      if Ascii.eqb c "{"%char then
        if depth + 1 >? maxNestingDepth then None
        else
          let s1 := skipWS s' in
          match s1 with
          | String c1 s1' =>
            if Ascii.eqb c1 "}"%char then Some (Object [], s1')
            else
              match members fuel' (depth + 1) s1 with
              | Some (ms, rest) => Some (Object ms, rest)
              | None => None
              end
          | "" => None
          end
      else if Ascii.eqb c "["%char then
        if depth + 1 >? maxNestingDepth then None
        else
          let s1 := skipWS s' in
          match s1 with
          | String c1 s1' =>
            if Ascii.eqb c1 "]"%char then Some (Array [], s1')
            else
              match elements fuel' (depth + 1) s1 with
              | Some (vs, rest) => Some (Array vs, rest)
              | None => None
              end
          | "" => None
          end
      else if Ascii.eqb c quote then
        match stringBody (String.length s) s' with
        | Some (v, rest) => Some (Str v, rest)
        | None => None
        end
      else if Strings.HasPrefix s "true" then Some (Bool true, Strings.drop 4 s)
      else if Strings.HasPrefix s "false" then Some (Bool false, Strings.drop 5 s)
      else if Strings.HasPrefix s "null" then Some (Null, Strings.drop 4 s)
      else
        match number s with
        | Some (lit, rest) => Some (Number lit, rest)
        | None => None
        end
    end
  end

(** The members of an object from the first key on, up to and with the
    closing brace. *)
with members (fuel : nat) (depth : Z) (s : string) {struct fuel}
  : option (list (string * string * Value) * string) :=
  match fuel with
  | O => None
  | S fuel' =>
    match s with
    | String c s' =>
      if Ascii.eqb c quote then
        match stringBody (String.length s) s' with
        | None => None
        | Some (key, s1) =>
          match skipWS s1 with
          | String c1 s2 =>
            if Ascii.eqb c1 ":"%char then
              let s3 := skipWS s2 in
              match value fuel' depth s3 with
              | None => None
              | Some (v, s4) =>
                let member := (key, consumed s3 s4, v) in
                match skipWS s4 with
                | String c2 s5 =>
                  if Ascii.eqb c2 "}"%char then Some ([member], s5)
                  else if Ascii.eqb c2 ","%char then
                    match members fuel' depth (skipWS s5) with
                    | Some (ms, rest) => Some (member :: ms, rest)
                    | None => None
                    end
                  else None
                | "" => None
                end
              end
            else None
          | "" => None
          end
        end
      else None
    | "" => None
    end
  end

(** The elements of an array from the first one on, up to and with the
    closing bracket. *)
with elements (fuel : nat) (depth : Z) (s : string) {struct fuel}
  : option (list Value * string) :=
  match fuel with
  | O => None
  | S fuel' =>
    match value fuel' depth s with
    | None => None
    | Some (v, s1) =>
      match skipWS s1 with
      | String c s2 =>
        if Ascii.eqb c "]"%char then Some ([v], s2)
        else if Ascii.eqb c ","%char then
          match elements fuel' depth (skipWS s2) with
          | Some (vs, rest) => Some (v :: vs, rest)
          | None => None
          end
        else None
      | "" => None
      end
    end
  end.

(** A whole JSON text: one value, white space around it allowed. This is
    what [checkValid] accepts. *)
Definition parse (data : string) : option Value :=
  let s := skipWS data in
  match value (2 * String.length data + 2) 0 s with
  | Some (v, rest) =>
    match skipWS rest with
    | "" => Some v
    | _ => None
    end
  | None => None
  end.

(** An object key names a struct field when the two are equal under
    simple case folding; the field names here are ASCII, which the
    Kelvin sign and the long s fold into as well. *)
Definition lower (r : Z) : Z :=
  if between 65 90 r then r + 32
  else if r =? 8490 then 107
  else if r =? 383 then 115
  else r.

Definition foldEq (key field : string) : bool :=
  let k := map (fun p => lower (fst p)) (runes key) in
  let f := map (fun p => lower (fst p)) (runes field) in
  if list_eq_dec Z.eq_dec k f then true else false.

(** Storing a value in a string field: a string is stored, null leaves
    the field alone, anything else is an [UnmarshalTypeError]. *)
Definition storeString (v : Value) (old : string) : option string :=
  match v with
  | Str s => Some s
  | Null => Some old
  | _ => None
  end.

(** Decoding into a struct: [step] stores one member in the struct and
    reports a type error; decoding goes on after an error, and the call
    returns the first one. *)
Definition decodeStruct {T} (zero : T)
           (step : string -> string -> Value -> T -> T * bool)
           (data : string) : option T :=
  match parse data with
  | Some (Object ms) =>
    let '(t, ok) :=
      fold_left
        (fun acc m =>
           let '(key, raw, v) := m in
           let '(t, ok) := acc in
           let '(t', ok') := step key raw v t in
           (t', ok && ok'))
        ms (zero, true) in
    if ok then Some t else None
  | Some Null => Some zero
  | _ => None
  end.

Definition store {T} (v : Value) (old : string) (set : string -> T) (t : T)
  : T * bool :=
  match storeString v old with
  | Some s => (set s, true)
  | None => (t, false)
  end.

Definition Unmarshal_string (data : string) : option string :=
  match parse data with
  | Some v => storeString v ""
  | None => None
  end.

Definition Unmarshal_summaryLine : string -> option summaryLine :=
  decodeStruct (mkSummaryLine "" "")
    (fun key raw v t =>
       if foldEq key "type"
       then store v (sl_Type t) (fun s => mkSummaryLine s (sl_Summary t)) t
       else if foldEq key "summary"
       then store v (sl_Summary t) (fun s => mkSummaryLine (sl_Type t) s) t
       else (t, true)).

Definition Unmarshal_entryLine : string -> option entryLine :=
  decodeStruct (mkEntryLine "" "" "" "")
    (fun key raw v t =>
       if foldEq key "type"
       then store v (el_Type t)
              (fun s => mkEntryLine s (el_SessionID t) (el_Timestamp t) (el_Message t)) t
       else if foldEq key "sessionId"
       then store v (el_SessionID t)
              (fun s => mkEntryLine (el_Type t) s (el_Timestamp t) (el_Message t)) t
       else if foldEq key "timestamp"
       then store v (el_Timestamp t)
              (fun s => mkEntryLine (el_Type t) (el_SessionID t) s (el_Message t)) t
       else if foldEq key "message"
       then (mkEntryLine (el_Type t) (el_SessionID t) (el_Timestamp t) raw, true)
       else (t, true)).

Definition Unmarshal_messageObj : string -> option messageObj :=
  decodeStruct (mkMessageObj "" "")
    (fun key raw v t =>
       if foldEq key "content"
       then store v (mo_Content t) (fun s => mkMessageObj s (mo_Role t)) t
       else if foldEq key "role"
       then store v (mo_Role t) (fun s => mkMessageObj (mo_Content t) s) t
       else (t, true)).

End Json.

Module TimeParse.

Local Open Scope Z_scope.

Fixpoint number (n : nat) (acc : Z) (s : string) : option (Z * string) :=
  match n with
  | O => Some (acc, s)
  | S n' =>
    match s with
    | String c s' =>
      if Json.isDigit c
      then number n' (acc * 10 + (Utf8.byteZ c - 48)) s'
      else None
    | "" => None
    end
  end.

Definition expect (c : ascii) (s : string) : option string :=
  match s with
  | String c' s' => if Ascii.eqb c c' then Some s' else None
  | "" => None
  end.

Definition isLeap (y : Z) : bool :=
  (y mod 4 =? 0) && (negb (y mod 100 =? 0) || (y mod 400 =? 0)).

Definition daysIn (m y : Z) : Z :=
  if m =? 2 then (if isLeap y then 29 else 28)
  else if (m =? 4) || (m =? 6) || (m =? 9) || (m =? 11) then 30
  else 31.

Definition daysBeforeYear (y : Z) : Z :=
  365 * (y - 1) + (y - 1) / 4 - (y - 1) / 100 + (y - 1) / 400.

Definition daysBeforeMonth (m y : Z) : Z :=
  fold_left (fun acc k => acc + daysIn (Z.of_nat k) y)
            (seq 1 (Z.to_nat (m - 1))) 0.

(** Nanoseconds from the digits after the decimal point: the first nine
    count. *)
Definition nanos (digits : string) : Z :=
  let d := Strings.take 9 (digits ++ "000000000") in
  match number 9 0 d with
  | Some (n, _) => n
  | None => 0
  end.

(** A timestamp in the strict form of RFC 3339: YYYY-MM-DDTHH:MM:SS, an
    optional fraction (a point and at least one digit), then Z or a
    numeric offset.  This is the first attempt of [time.Parse] for the
    layout RFC3339; what Go's general parser accepts besides (an hour
    written with one digit, for instance) is refused here. *)
Definition parseRFC3339 (s : string) : option Time.Time :=
  match number 4 0 s with
  | None => None
  | Some (year, s) =>
  match expect "-" s with None => None | Some s =>
  match number 2 0 s with None => None | Some (month, s) =>
  match expect "-" s with None => None | Some s =>
  match number 2 0 s with None => None | Some (day, s) =>
  match expect "T" s with None => None | Some s =>
  match number 2 0 s with None => None | Some (hour, s) =>
  match expect ":" s with None => None | Some s =>
  match number 2 0 s with None => None | Some (minute, s) =>
  match expect ":" s with None => None | Some s =>
  match number 2 0 s with None => None | Some (second, s) =>
    let (frac, s) :=
      match s with
      | String c s' =>
        if Ascii.eqb c "."%char
        then match Json.digits s' with
             | (""%string, _) => (""%string, s)
             | found => found
             end
        else (""%string, s)
      | "" => (""%string, s)
      end in
    let zone :=
      match s with
      | String c s' =>
        if Ascii.eqb c "Z"%char then
          (match s' with "" => Some 0 | _ => None end)
        else if Ascii.eqb c "+"%char || Ascii.eqb c "-"%char then
          match number 2 0 s' with None => None | Some (zh, s'') =>
          match expect ":" s'' with None => None | Some s'' =>
          match number 2 0 s'' with
          | Some (zm, ""%string) =>
            if (zh <=? 24) && (zm <=? 60) then
              Some ((if Ascii.eqb c "-"%char then -1 else 1)
                    * (zh * 3600 + zm * 60))
            else None
          | _ => None
          end end end
        else None
      | "" => None
      end in
    match zone with
    | None => None
    | Some offset =>
      if (1 <=? month) && (month <=? 12) && (1 <=? day)
         && (day <=? daysIn month year)
         && (hour <? 24) && (minute <? 60) && (second <? 60)
      then
        Some (Time.mkTime
                ((daysBeforeYear year + daysBeforeMonth month year + (day - 1))
                 * 86400 + hour * 3600 + minute * 60 + second - offset)
                (nanos frac))
      else None
    end
  end end end end end end end end end end end.

Definition Parse (layout value : string) : option Time.Time :=
  if String.eqb layout Time.RFC3339 then parseRFC3339 value else None.

End TimeParse.

Module AsciiLower.

(** [strings.ToLower] on text whose letters are ASCII: the letters A to Z
    are lowered, every other byte is kept.  Go also lowers the letters
    outside ASCII and rewrites bytes that are not UTF-8; the example
    files hold ASCII roles and paths only. *)
Fixpoint ToLower (s : string) : string :=
  match s with
  | "" => ""
  | String c s' =>
    let b := Utf8.byteZ c in
    String (if Utf8.between 65 90 b then Json.asciiOf (b + 32) else c)
           (ToLower s')
  end.

End AsciiLower.

Module Filepath.

(** The elements of a path between its slashes. *)
Fixpoint split (path : string) : list string :=
  match path with
  | "" => [""]
  | String c path' =>
    if Ascii.eqb c "/"%char then "" :: split path'
    else
      match split path' with
      | [] => [String c ""]
      | e :: es => String c e :: es
      end
  end.

(** [Clean]: empty and dot elements go, a dot-dot element takes the
    element before it with it; [stack] holds the elements kept so far,
    last first. *)
Definition cleanStep (rooted : bool) (stack : list string) (e : string)
  : list string :=
  if (e =? "") || (e =? ".") then stack
  else if e =? ".." then
    match stack with
    | top :: below => if top =? ".." then e :: stack else below
    | [] => if rooted then [] else [e]
    end
  else e :: stack.

Definition Clean (path : string) : string :=
  match path with
  | "" => "."
  | String c _ =>
    let rooted := Ascii.eqb c "/"%char in
    let kept := rev (fold_left (cleanStep rooted) (split path) []) in
    let body := String.concat "/" kept in
    if rooted then "/" ++ body
    else if body =? "" then "." else body
  end.

Definition Join (a b : string) : string :=
  if negb (a =? "") then Clean (a ++ "/" ++ b)
  else if negb (b =? "") then Clean b
  else "".

Fixpoint stripSlashes (rev_path : list ascii) : list ascii :=
  match rev_path with
  | c :: rest => if Ascii.eqb c "/"%char then stripSlashes rest else rev_path
  | [] => []
  end.

Fixpoint lastElement (rev_path : list ascii) : list ascii :=
  match rev_path with
  | c :: rest => if Ascii.eqb c "/"%char then [] else c :: lastElement rest
  | [] => []
  end.

Definition Base (path : string) : string :=
  if path =? "" then "."
  else
    let stripped := stripSlashes (rev (list_ascii_of_string path)) in
    let base := string_of_list_ascii (rev (lastElement stripped)) in
    if base =? "" then "/" else base.

End Filepath.

(** Package sort: [sort.Slice] runs a pattern-defeating quicksort on the
    indices of the slice through [Less] and [Swap].  It is not a stable
    sort. *)
Module Sort.

Section Pdqsort.

Context {A : Type} (less : A -> A -> bool).

Definition Less (data : list A) (i j : nat) : bool :=
  match nth_error data i, nth_error data j with
  | Some x, Some y => less x y
  | _, _ => false
  end.

Fixpoint update (i : nat) (v : A) (data : list A) : list A :=
  match data, i with
  | [], _ => []
  | _ :: data', O => v :: data'
  | x :: data', S i' => x :: update i' v data'
  end.

Definition Swap (data : list A) (i j : nat) : list A :=
  match nth_error data i, nth_error data j with
  | Some x, Some y => update i y (update j x data)
  | _, _ => data
  end.

(** [for j := i; j > a && Less(j, j-1); j-- { Swap(j, j-1) }] *)
Fixpoint sink (a j : nat) (data : list A) : list A :=
  match j with
  | O => data
  | S j' =>
    if (a <? j)%nat && Less data j j' then sink a j' (Swap data j j')
    else data
  end.

Definition insertionSort (data : list A) (a b : nat) : list A :=
  fold_left (fun d i => sink a i d) (seq (a + 1) (b - a - 1)) data.

Fixpoint siftDown (fuel : nat) (data : list A) (root hi first : nat)
  : list A :=
  match fuel with
  | O => data
  | S fuel' =>
    let child := (2 * root + 1)%nat in
    if (hi <=? child)%nat then data
    else
      let child :=
        if (child + 1 <? hi)%nat
           && Less data (first + child) (first + child + 1)
        then (child + 1)%nat else child in
      if negb (Less data (first + root) (first + child)) then data
      else siftDown fuel' (Swap data (first + root) (first + child))
                    child hi first
  end.

Definition heapSort (data : list A) (a b : nat) : list A :=
  let first := a in
  let hi := (b - a)%nat in
  let data :=
    fold_left (fun d i => siftDown hi d i hi first)
              (rev (seq 0 ((hi - 1) / 2 + 1))) data in
  fold_left (fun d i => siftDown hi (Swap d first (first + i)) 0 i first)
            (rev (seq 0 hi)) data.

(** [for i <= j && Less(i, a) { i++ }] *)
Fixpoint upWhileLess (fuel : nat) (data : list A) (a i j : nat) : nat :=
  match fuel with
  | O => i
  | S fuel' =>
    if (i <=? j)%nat && Less data i a
    then upWhileLess fuel' data a (i + 1) j else i
  end.

(** [for i <= j && !Less(j, a) { j-- }] *)
Fixpoint downWhileNotLess (fuel : nat) (data : list A) (a i j : nat) : nat :=
  match fuel with
  | O => j
  | S fuel' =>
    if (i <=? j)%nat && negb (Less data j a)
    then downWhileNotLess fuel' data a i (j - 1) else j
  end.

Fixpoint partitionLoop (fuel : nat) (data : list A) (a i j : nat)
  : list A * nat :=
  match fuel with
  | O => (data, j)
  | S fuel' =>
    let n := List.length data in
    let i := upWhileLess n data a i j in
    let j := downWhileNotLess n data a i j in
    if (j <? i)%nat then (data, j)
    else partitionLoop fuel' (Swap data i j) a (i + 1) (j - 1)
  end.

Definition partition (data : list A) (a b pivot : nat)
  : list A * nat * bool :=
  let n := List.length data in
  let data := Swap data a pivot in
  let i := (a + 1)%nat in
  let j := (b - 1)%nat in
  let i := upWhileLess n data a i j in
  let j := downWhileNotLess n data a i j in
  if (j <? i)%nat then (Swap data j a, j, true)
  else
    let '(data, j) := partitionLoop n (Swap data i j) a (i + 1) (j - 1) in
    (Swap data j a, j, false).

(** [for i <= j && !Less(a, i) { i++ }] *)
Fixpoint upWhileNotGreater (fuel : nat) (data : list A) (a i j : nat) : nat :=
  match fuel with
  | O => i
  | S fuel' =>
    if (i <=? j)%nat && negb (Less data a i)
    then upWhileNotGreater fuel' data a (i + 1) j else i
  end.

(** [for i <= j && Less(a, j) { j-- }] *)
Fixpoint downWhileGreater (fuel : nat) (data : list A) (a i j : nat) : nat :=
  match fuel with
  | O => j
  | S fuel' =>
    if (i <=? j)%nat && Less data a j
    then downWhileGreater fuel' data a i (j - 1) else j
  end.

Fixpoint partitionEqualLoop (fuel : nat) (data : list A) (a i j : nat)
  : list A * nat :=
  match fuel with
  | O => (data, i)
  | S fuel' =>
    let n := List.length data in
    let i := upWhileNotGreater n data a i j in
    let j := downWhileGreater n data a i j in
    if (j <? i)%nat then (data, i)
    else partitionEqualLoop fuel' (Swap data i j) a (i + 1) (j - 1)
  end.

Definition partitionEqual (data : list A) (a b pivot : nat) : list A * nat :=
  partitionEqualLoop (List.length data) (Swap data a pivot) a (a + 1) (b - 1).

(** [for i < b && !Less(i, i-1) { i++ }] *)
Fixpoint upWhileOrdered (fuel : nat) (data : list A) (i b : nat) : nat :=
  match fuel with
  | O => i
  | S fuel' =>
    if (i <? b)%nat && negb (Less data i (i - 1))
    then upWhileOrdered fuel' data (i + 1) b else i
  end.

(** [for j := i - 1; j >= 1; j-- { if !Less(j, j-1) { break }; Swap(j, j-1) }] *)
Fixpoint shiftLeft (j : nat) (data : list A) : list A :=
  match j with
  | O => data
  | S j' => if Less data j j' then shiftLeft j' (Swap data j j') else data
  end.

(** [for j := i + 1; j < b; j++ { if !Less(j, j-1) { break }; Swap(j, j-1) }] *)
Fixpoint shiftRight (fuel : nat) (j b : nat) (data : list A) : list A :=
  match fuel with
  | O => data
  | S fuel' =>
    if (j <? b)%nat && Less data j (j - 1)
    then shiftRight fuel' (j + 1) b (Swap data j (j - 1)) else data
  end.

Definition maxSteps : nat := 5.
Definition shortestShifting : nat := 50.

Fixpoint partialInsertionSteps (steps : nat) (data : list A) (a b i : nat)
  : list A * bool :=
  match steps with
  | O => (data, false)
  | S steps' =>
    let n := List.length data in
    let i := upWhileOrdered n data i b in
    if (i =? b)%nat then (data, true)
    else if (b - a <? shortestShifting)%nat then (data, false)
    else
      let data := Swap data i (i - 1) in
      let data := if (2 <=? i - a)%nat then shiftLeft (i - 1) data else data in
      let data := if (2 <=? b - i)%nat then shiftRight n (i + 1) b data else data in
      partialInsertionSteps steps' data a b i
  end.

Definition partialInsertionSort (data : list A) (a b : nat) : list A * bool :=
  partialInsertionSteps maxSteps data a b (a + 1).

(** The generator [xorshift] on 64-bit words. *)
Definition xorshiftNext (r : Z) : Z :=
  let w := (2 ^ 64)%Z in
  let r := Z.lxor r (Z.shiftl r 13 mod w) in
  let r := Z.lxor r (Z.shiftr r 7) in
  Z.lxor r (Z.shiftl r 17 mod w).

(** [bits.Len]. *)
Definition bitsLen (n : nat) : nat :=
  match n with
  | O => O
  | _ => S (Nat.log2 n)
  end.

Definition breakPatterns (data : list A) (a b : nat) : list A :=
  let length := (b - a)%nat in
  if (8 <=? length)%nat then
    let modulus := (2 ^ Z.of_nat (bitsLen length))%Z in
    let idx := (a + (length / 4) * 2 - 1)%nat in
    let step (st : list A * Z) (i : nat) : list A * Z :=
      let '(data, random) := st in
      let random := xorshiftNext random in
      let other := Z.to_nat (Z.land random (modulus - 1)) in
      let other := if (length <=? other)%nat then (other - length)%nat else other in
      (Swap data (idx - 1 + i) (a + other), random) in
    fst (fold_left step (seq 0 3) (data, Z.of_nat length))
  else data.

Inductive sortedHint : Type := unknownHint | increasingHint | decreasingHint.

(** [order2]: the two indices in the order of their elements, and the
    count of swaps. *)
Definition order2 (data : list A) (a b swaps : nat) : nat * nat * nat :=
  if Less data b a then (b, a, S swaps) else (a, b, swaps).

Definition median (data : list A) (a b c swaps : nat) : nat * nat :=
  let '(a, b, swaps) := order2 data a b swaps in
  let '(b, c, swaps) := order2 data b c swaps in
  let '(a, b, swaps) := order2 data a b swaps in
  (b, swaps).

Definition medianAdjacent (data : list A) (a swaps : nat) : nat * nat :=
  median data (a - 1) a (a + 1) swaps.

Definition shortestNinther : nat := 50.
Definition maxSwaps : nat := 4 * 3.

Definition choosePivot (data : list A) (a b : nat) : nat * sortedHint :=
  let l := (b - a)%nat in
  let i := (a + l / 4 * 1)%nat in
  let j := (a + l / 4 * 2)%nat in
  let k := (a + l / 4 * 3)%nat in
  let '(j, swaps) :=
    if (8 <=? l)%nat then
      let '(i, j, k, swaps) :=
        if (shortestNinther <=? l)%nat then
          let '(i, swaps) := medianAdjacent data i 0 in
          let '(j, swaps) := medianAdjacent data j swaps in
          let '(k, swaps) := medianAdjacent data k swaps in
          (i, j, k, swaps)
        else (i, j, k, O) in
      median data i j k swaps
    else (j, O) in
  if (swaps =? 0)%nat then (j, increasingHint)
  else if (swaps =? maxSwaps)%nat then (j, decreasingHint)
  else (j, unknownHint).

(** [reverseRange]: the elements of [a, b) in reverse order. *)
Fixpoint reverseLoop (fuel : nat) (data : list A) (i j : nat) : list A :=
  match fuel with
  | O => data
  | S fuel' =>
    if (i <? j)%nat then reverseLoop fuel' (Swap data i j) (i + 1) (j - 1)
    else data
  end.

Definition reverseRange (data : list A) (a b : nat) : list A :=
  reverseLoop (List.length data) data a (b - 1).

Definition maxInsertion : nat := 12.

Definition isIncreasing (h : sortedHint) : bool :=
  match h with increasingHint => true | _ => false end.

(** [pdqsort_func]: one turn of its loop; the recursive call on the
    shorter side starts with both flags set. *)
Fixpoint pdqsort (fuel : nat) (data : list A) (a b limit : nat)
         (wasBalanced wasPartitioned : bool) : list A :=
  match fuel with
  | O => data
  | S fuel' =>
    let length := (b - a)%nat in
    if (length <=? maxInsertion)%nat then insertionSort data a b
    else if (limit =? 0)%nat then heapSort data a b
    else
      let '(data, limit) :=
        if negb wasBalanced then (breakPatterns data a b, (limit - 1)%nat)
        else (data, limit) in
      let '(pivot, hint) := choosePivot data a b in
      let '(data, pivot, hint) :=
        match hint with
        | decreasingHint =>
          (reverseRange data a b, ((b - 1) - (pivot - a))%nat, increasingHint)
        | _ => (data, pivot, hint)
        end in
      let '(data, done) :=
        if wasBalanced && wasPartitioned && isIncreasing hint
        then partialInsertionSort data a b
        else (data, false) in
      if done then data
      else if (0 <? a)%nat && negb (Less data (a - 1) pivot) then
        let '(data, mid) := partitionEqual data a b pivot in
        pdqsort fuel' data mid b limit wasBalanced wasPartitioned
      else
        let '(data, mid, alreadyPartitioned) := partition data a b pivot in
        let leftLen := (mid - a)%nat in
        let rightLen := (b - mid)%nat in
        let balanceThreshold := (length / 8)%nat in
        if (leftLen <? rightLen)%nat then
          let data := pdqsort fuel' data a mid limit true true in
          pdqsort fuel' data (mid + 1) b limit
                  (balanceThreshold <=? leftLen)%nat alreadyPartitioned
        else
          let data := pdqsort fuel' data (mid + 1) b limit true true in
          pdqsort fuel' data a mid limit
                  (balanceThreshold <=? rightLen)%nat alreadyPartitioned
  end.

(** [sort.Slice]. *)
Definition Slice (data : list A) : list A :=
  let length := List.length data in
  pdqsort (2 * length + 2) data 0 length (bitsLen length) true true.

End Pdqsort.

End Sort.

(** The reference instance. *)
Definition goLibrary : Library :=
  mkLibrary Json.Unmarshal_summaryLine Json.Unmarshal_entryLine
            Json.Unmarshal_string Json.Unmarshal_messageObj
            TimeParse.Parse AsciiLower.ToLower
            Filepath.Join Filepath.Base
            (fun A less data => Sort.Slice less data).

(* ================================================================== *)
(** ** Vocabulary of the statements *)

(** JSON texts are written with single quotes in this file; [js] puts
    the double quotes in. *)
Definition js (s : string) : string :=
  string_of_list_ascii
    (map (fun c => if Ascii.eqb c "'"%char then Json.quote else c)
         (list_ascii_of_string s)).

(** A string neither starts nor ends with a rune that is white space. *)
Definition noOuterSpace (s : string) : Prop :=
  match Utf8.runes s with
  | [] => True
  | c :: cs =>
    Unicode.IsSpace (fst c) = false /\
    Unicode.IsSpace (fst (last cs c)) = false
  end.

(** A decoded rune below 128 stands for the one byte it was read from. *)
Definition asciiChunk (p : Utf8.rune * string) : Prop :=
  (fst p < 128)%Z -> snd p = String (ascii_of_N (Z.to_N (fst p))) "".

(** The bytes of ASCII runes. *)
Fixpoint asciiText (rs : list Utf8.rune) : string :=
  match rs with
  | [] => ""
  | r :: rs' => String (ascii_of_N (Z.to_N r)) (asciiText rs')
  end.

(** The beacon with its three fields. *)
Definition beaconFull : string :=
  "[GAS TOWN] gastown/crew/gus • assigned:gt-abc12 • 2025-12-30T15:42".

Section Vocabulary.

Context {L : Library}.

(** The lines of [lines] are read one after the other from line number
    [lineNum] on and none of them leaves the loop. *)
Inductive runs : list string -> Z -> SessionInfo -> SessionInfo -> Prop :=
| runs_nil lineNum info : runs [] lineNum info info
| runs_cons line lines lineNum info info' info'' :
    body (lineNum + 1) line info = (info', Continue) ->
    runs lines (lineNum + 1) info' info'' ->
    runs (line :: lines) lineNum info info''.

(** The start time a line after the first can set: the line decodes, is a
    user record, and its timestamp parses to an instant that is not the
    zero instant. *)
Definition qualifying (line : string) : option Time.Time :=
  match json_Unmarshal_entryLine line with
  | Some entry =>
    if (el_Type entry =? "user") && negb (el_Timestamp entry =? "")
    then
      match time_Parse Time.RFC3339 (el_Timestamp entry) with
      | Some t => if Time.IsZero t then None else Some t
      | None => None
      end
    else None
  | None => None
  end.

Fixpoint firstQualifying (lines : list string) : option Time.Time :=
  match lines with
  | [] => None
  | line :: lines' =>
    match qualifying line with
    | Some t => Some t
    | None => firstQualifying lines'
    end
  end.

(** Both signals of the early exit are there. *)
Definition ready (info : SessionInfo) : bool :=
  IsGasTown info && negb (Time.IsZero (StartTime info)).

(** The descriptor once the first [k] lines of a file have been read. *)
Definition stateAfter (filePath projectPath : string) (lines : list string)
           (k : nat) : SessionInfo :=
  fst (scanLoop (firstn k lines) 0 (newSession filePath projectPath)).


(** Role and topic are empty as long as no beacon was found. *)
Definition beaconInv (info : SessionInfo) : Prop :=
  IsGasTown info = false -> Role info = "" /\ Topic info = "".

(** The summary the first line gives. *)
Definition firstLineSummary (line : string) : string :=
  match json_Unmarshal_summaryLine line with
  | Some entry => if sl_Type entry =? "summary" then sl_Summary entry else ""
  | None => ""
  end.


(** What [sort.SliceIsSorted] reports for the order of [sort.Slice]: no
    session starts after the one before it. *)
Fixpoint isSortedDesc (sessions : list SessionInfo) : bool :=
  match sessions with
  | a :: (b :: _) as rest => negb (byStartTimeDesc b a) && isSortedDesc rest
  | _ => true
  end.

(** The events of opening the session files of a directory. *)
Definition openEvents (projectDir : string) (sessionFiles : list DirEntry)
  : list Event :=
  map (fun sf => EvOpen (filepath_Join projectDir (Name sf)))
      (filter isSessionFile sessionFiles).

(** The rig filter and the path filter of the walk, as one test. *)
Definition rigAndPathMatch (filter : SessionFilter) (projectPath : string) : bool :=
  Strings.Contains projectPath ("/" ++ Rig filter ++ "/")
  && ((FilterPath filter =? "")
      || Strings.Contains projectPath (FilterPath filter)).



(** The early exit as the specification words it: reading stops before
    the end of the file exactly when the beacon has been found, the start
    time set and at least 20 lines read. *)
Definition earlyExitAsSpecified (filePath projectPath data : string) : Prop :=
  (linesRead filePath projectPath data
   < Z.of_nat (List.length (sessionLines data)))%Z
  <->
  exists k : nat,
    (20 <= k < List.length (sessionLines data))%nat /\
    ready (stateAfter filePath projectPath (sessionLines data) k) = true.

(** The rig filter as the specification words it: the files of a project
    directory are opened exactly when the decoded path contains the rig
    name (and passes the path filter). *)
Definition rigFilterAsSpecified (filter : SessionFilter) (w : World)
           (projectsDir : string) (entry sf : DirEntry) : Prop :=
  In (EvOpen (filepath_Join (filepath_Join projectsDir (Name entry)) (Name sf)))
     (snd (walkProject filter w projectsDir entry))
  <->
  (Strings.Contains (decodePath (Name entry)) (Rig filter) = true /\
   (FilterPath filter = "" \/
    Strings.Contains (decodePath (Name entry)) (FilterPath filter) = true)).



End Vocabulary.

(** *** Files, directories and sessions of the examples *)

Definition summaryText : string :=
  js "{'type':'summary','summary':'Fix the parser','leafUuid':'1f'}".

Definition beaconText : string :=
  js "{'type':'user','sessionId':'d6d8475f','timestamp':'2025-12-30T15:42:00Z','message':{'role':'user','content':'[GAS TOWN] gastown/crew/gus • assigned:gt-abc12 • 2025-12-30T15:42'}}".

Definition assistantText : string :=
  js "{'type':'assistant','timestamp':'2025-12-30T15:43:10Z','message':{'role':'assistant','content':[{'type':'text','text':'On it.'}]}}".

Definition laterUserText : string :=
  js "{'type':'user','sessionId':'ffff0000','timestamp':'2025-12-31T08:00:00Z','message':'[GAS TOWN] witness • handoff'}".

Definition plainUserText : string :=
  js "{'type':'user','timestamp':'2025-12-29T09:00:00Z','message':'Regular message without beacon'}".

Definition zeroTimeUserText : string :=
  js "{'type':'user','timestamp':'0001-01-01T00:00:00Z','message':'hello'}".

Definition fileOf (lines : list string) : string :=
  String.concat (String Bufio.newline "") lines ++ String Bufio.newline "".

(** A summary, the beacon on line 2, then assistant turns: [n] lines. *)
Definition beaconFile (n : nat) : string :=
  fileOf (summaryText :: beaconText :: repeat assistantText (n - 2)).

(** A file without a beacon: 30 lines. *)
Definition plainFile : string :=
  fileOf (summaryText :: plainUserText :: repeat assistantText 28).

Definition homeProjects : string := "/home/stevey/.claude/projects".

Definition rigRootEntry : DirEntry := mkDirEntry "-Users-stevey-gt-gastown" true.
Definition crewEntry : DirEntry := mkDirEntry "-Users-stevey-gt-gastown-crew-joe" true.
Definition sessionEntry : DirEntry := mkDirEntry "d6d8475f.jsonl" false.

(** A storage root with two project directories of one session each. *)
Definition exampleWorld : World :=
  mkWorld
    (fun s => if s =? "$HOME/.claude" then "/home/stevey/.claude" else s)
    (fun _ => None)
    (fun path =>
       if path =? homeProjects then Ok [rigRootEntry; crewEntry]
       else if path =? homeProjects ++ "/-Users-stevey-gt-gastown"
       then Ok [sessionEntry]
       else if path =? homeProjects ++ "/-Users-stevey-gt-gastown-crew-joe"
       then Ok [sessionEntry]
       else Err ErrNotExist)
    (fun path =>
       if path =? homeProjects ++ "/-Users-stevey-gt-gastown/d6d8475f.jsonl"
       then Ok (beaconFile 5)
       else if path =? homeProjects ++ "/-Users-stevey-gt-gastown-crew-joe/d6d8475f.jsonl"
       then Ok plainFile
       else Err ErrNotExist).

(** A fresh installation: no storage root. *)
Definition freshWorld : World :=
  mkWorld
    (fun s => if s =? "$HOME/.claude" then "/home/stevey/.claude" else s)
    (fun _ => Some ErrNotExist)
    (fun _ => Err ErrNotExist)
    (fun _ => Err ErrNotExist).

Definition gastownRig : SessionFilter := mkSessionFilter false "" "gastown" "" 0.
Definition crewRole : SessionFilter := mkSessionFilter false "crew" "" "" 0.

Definition sessionAt (id role : string) (start : Time.Time) : SessionInfo :=
  mkSessionInfo id "/Users/stevey/gt/gastown" role "" start "" true
                ("/home/stevey/.claude/projects/x/" ++ id ++ ".jsonl").


(** Three sessions with start times of their own. *)
Definition threeSessions : list SessionInfo :=
  [ sessionAt "t0" "gastown/crew/a" (Time.mkTime 63902702520 0);
    sessionAt "t1" "witness" (Time.mkTime 63902800000 0);
    sessionAt "t2" "gastown/crew/c" (Time.mkTime 63902900000 0) ].

(* ================================================================== *)
(** ** Package strings: Split *)

Module StringsSplit.

(** The fields of [s] between the non-overlapping occurrences of a
    non-empty [sep], found from the left; [skip] counts the bytes of an
    occurrence that are still to be passed over. *)
Fixpoint splitFrom (skip : nat) (s sep : string) : list string :=
  match s with
  | "" => [""]
  | String c s' =>
    match skip with
    | S k => splitFrom k s' sep
    | O =>
      if Strings.HasPrefix s sep
      then "" :: splitFrom (String.length sep - 1) s' sep
      else
        match splitFrom O s' sep with
        | field :: fields => String c field :: fields
        | [] => [String c ""]
        end
    end
  end.

(** [strings.Split]; with an empty separator the string is cut after each
    UTF-8 sequence, an invalid byte giving the replacement character. *)
Definition Split (s sep : string) : list string :=
  match sep with
  | "" =>
    map (fun p => if (fst p =? Utf8.RuneError)%Z
                  then Json.EncodeRune Utf8.RuneError
                  else snd p)
        (Utf8.runes s)
  | _ => splitFrom O s sep
  end.

End StringsSplit.

(* ================================================================== *)
(** ** sessions.go: the methods of SessionInfo *)

(** [ShortID]. *)
Definition ShortID (s : SessionInfo) : string :=
  if (8 <? String.length (ID s))%nat then Strings.take 8 (ID s) else ID s.

(** The loop of [RigFromPath] over the parts of the path: the part after
    the first [gt] that has a part after it. *)
Fixpoint rigAmong (parts : list string) : string :=
  match parts with
  | [] => ""
  | part :: rest =>
    if part =? "gt"
    then
      match rest with
      | next :: _ => next
      | [] => rigAmong rest
      end
    else rigAmong rest
  end.

(** [RigFromPath]. *)
Definition RigFromPath (s : SessionInfo) : string :=
  rigAmong (StringsSplit.Split (Path s) "/").

(* ================================================================== *)
(** ** seance.go *)

(** The roles that stand for themselves in a path. *)
Definition isSingleRole (part : string) : bool :=
  (part =? "witness") || (part =? "refinery") || (part =? "deacon")
  || (part =? "mayor").

(** The roles that come with the name of an agent. *)
Definition isNamedRole (part : string) : bool :=
  (part =? "crew") || (part =? "polecats").

(** The loop of [inferRoleFromPath], from the last part to the first;
    [after] is the part behind the one looked at, when there is one. *)
Fixpoint inferRoleLoop (partsFromLast : list string) (after : option string)
  : option string :=
  match partsFromLast with
  | [] => None
  | part :: before =>
    if isSingleRole part then Some part
    else if isNamedRole part
    then
      match after with
      | Some name => Some (part ++ "/" ++ name)
      | None => Some part
      end
    else inferRoleLoop before (Some part)
  end.

(** [inferRoleFromPath]. *)
Definition inferRoleFromPath (path : string) : string :=
  let parts := StringsSplit.Split path "/" in
  match inferRoleLoop (rev parts) None with
  | Some role => role
  | None =>
    match parts with
    | [] => "unknown"
    | _ :: _ => last parts ""
    end
  end.

Definition roleWidth : nat := 24.
Definition topicWidth : nat := 30.

(** A column of [runSeance] cut to its width: a text longer than the
    width keeps its first width - 1 bytes and ends in an ellipsis. *)
Definition clip (width : nat) (text : string) : string :=
  if (width <? String.length text)%nat
  then Strings.take (width - 1) text ++ "…"
  else text.

(** The role column of a session in [runSeance]. *)
Definition rowRole (s : SessionInfo) : string :=
  clip roleWidth (if Role s =? "" then inferRoleFromPath (Path s) else Role s).

(** The topic column of a session in [runSeance]. *)
Definition rowTopic (s : SessionInfo) : string :=
  clip topicWidth
       (if (Topic s =? "") && negb (Summary s =? "") then Summary s else Topic s).

(** The filter [runSeance] builds from its flags. *)
Definition seanceFilter (seanceAll : bool) (seanceRole seanceRig : string)
           (seanceRecent : Z) : SessionFilter :=
  mkSessionFilter (negb seanceAll) seanceRole seanceRig "" seanceRecent.

(** The bytes of a string are mapped one by one. *)
Fixpoint mapBytes (f : ascii -> ascii) (s : string) : string :=
  match s with
  | "" => ""
  | String c s' => String (f c) (mapBytes f s')
  end.

Definition dashToSlash (c : ascii) : ascii :=
  if Ascii.eqb c "-"%char then "/"%char else c.

(** A part of a path that names no role. *)
Definition plainPart (part : string) : Prop :=
  isSingleRole part = false /\ isNamedRole part = false.

(* ================================================================== *)
(** ** Vocabulary of the further properties *)

Section ScanVocabulary.

Context {L : Library}.

(** The loop of [parseSession] without its early exit: every line is
    read. *)
Fixpoint scanAll (lines : list string) (lineNum : Z) (info : SessionInfo)
  : SessionInfo :=
  match lines with
  | [] => info
  | line :: lines' =>
    scanAll lines' (lineNum + 1)%Z (fst (body (lineNum + 1)%Z line info))
  end.

(** A line that is no user record: it does not decode, or its type is
    another one. *)
Definition otherRecord (line : string) : Prop :=
  forall entry,
    json_Unmarshal_entryLine line = Some entry -> el_Type entry <> "user".

End ScanVocabulary.

(** The groups a pattern can set. *)
Fixpoint captures (i : nat) (re : Regexp.Regexp) : bool :=
  match re with
  | Regexp.Cap j re' => (i =? j)%nat || captures i re'
  | Regexp.Cat re1 re2 => captures i re1 || captures i re2
  | Regexp.Quest re' => captures i re'
  | _ => false
  end.

(** A pattern whose matches end at the end of the text. *)
Fixpoint anchored (re : Regexp.Regexp) : bool :=
  match re with
  | Regexp.EndText => true
  | Regexp.Cap _ re' => anchored re'
  | Regexp.Cat _ re2 => anchored re2
  | _ => false
  end.

(** A rune the role of a beacon can be made of: none of the class [\s]
    of the pattern (tab, line feed, form feed, carriage return, space)
    and no bullet. *)
Definition roleRune (r : Utf8.rune) : bool :=
  negb (Regexp.perlSpace r || (r =? bullet)%Z).

(** A role as the beacon pattern takes it: not empty and made of
    [roleRune]s only.  White space that is not in the class [\s], such
    as U+00A0, is a [roleRune]. *)
Definition beaconRole (role : string) : Prop :=
  role <> ""
  /\ Forall (fun p => roleRune (fst p) = true) (Utf8.runes role).

(** [utf8.RuneCountInString]: the width [fmt] pads a cell to is counted in
    runes. *)
Definition RuneCountInString (s : string) : nat := List.length (Utf8.runes s).

(** The width of the ID column of [runSeance]. *)
Definition idWidth : nat := 10.

(** A string that does not start with a continuation byte. *)
Definition startsClean (s : string) : bool :=
  match s with
  | "" => true
  | String c _ => negb (Utf8.isCont (Utf8.byteZ c))
  end.

(** *** Sessions and filters of the further examples *)

Definition gusPath : string := "/Users/stevey/gt/gastown".
Definition joePath : string := "/Users/stevey/gt/gastown/crew/joe".

Definition gusFile : string :=
  homeProjects ++ "/-Users-stevey-gt-gastown/d6d8475f.jsonl".
Definition joeFile : string :=
  homeProjects ++ "/-Users-stevey-gt-gastown-crew-joe/d6d8475f.jsonl".

(** The two sessions of [exampleWorld]: one with the beacon, one
    without. *)
Definition gusSession : SessionInfo :=
  mkSessionInfo "d6d8475f" gusPath "gastown/crew/gus" "assigned:gt-abc12"
                (Time.mkTime 63902706120 0) "Fix the parser" true gusFile.

Definition joeSession : SessionInfo :=
  mkSessionInfo "d6d8475f" joePath "" ""
                (Time.mkTime 63902595600 0) "Fix the parser" false joeFile.

(** U+00A0, the no-break space, in UTF-8: white space for
    [unicode.IsSpace], but not in the class [\s] of the pattern. *)
Definition noBreakSpace : string := String "194"%char (String "160"%char "").

(** All sessions, the most recent one only. *)
Definition mostRecent : SessionFilter := mkSessionFilter false "" "" "" 1.

(* ================================================================== *)
(** ** The path codec *)

Lemma replace_dash_no_dash (s : string) :
  Strings.Contains (Strings.replaceFrom 0 s "-" "/") "-" = false.
Proof.
  induction s as [|c s IH]; [reflexivity|].
  cbn. destruct (Ascii.eqb c "-") eqn:E; cbn; rewrite ?E; exact IH.
Qed.



(* ================================================================== *)
(** ** UTF-8 decoding *)

Module Utf8Facts.

Import Utf8.

Ltac case_decode :=
  repeat match goal with
         | H : context [match first ?b with _ => _ end] |- _ =>
           destruct (first b) as [[[? ?] ?]|] eqn:?
         | H : context [match ?s with EmptyString => _ | String _ _ => _ end] |- _ =>
           destruct s
         | H : context [match ?n with O => _ | S _ => _ end] |- _ =>
           destruct n
         | H : context [if ?b then _ else _] |- _ =>
           destruct b eqn:?
         end.

(** A decoded rune takes its bytes from the front of the string. *)
Lemma decode_split (s : string) r chunk rest :
  DecodeRuneInString s = Some (r, chunk, rest) ->
  s = chunk ++ rest /\ (String.length rest < String.length s)%nat.
Proof.
  unfold DecodeRuneInString, str1, str2, str3, str4. intros H.
  case_decode; try discriminate;
    injection H as <- <- <-; cbn; split; try reflexivity; lia.
Qed.

Lemma runesFuel_enough (f1 : nat) :
  forall f2 s,
    (String.length s <= f1)%nat -> (String.length s <= f2)%nat ->
    runesFuel f1 s = runesFuel f2 s.
Proof.
  induction f1 as [|f1 IH]; intros f2 s H1 H2.
  - destruct s; [|cbn in H1; lia]. destruct f2; reflexivity.
  - destruct f2 as [|f2].
    + destruct s; [reflexivity|cbn in H2; lia].
    + cbn [runesFuel].
      destruct (DecodeRuneInString s) as [[[r chunk] rest]|] eqn:E;
        [|reflexivity].
      apply decode_split in E as [_ E]. f_equal. apply IH; lia.
Qed.

Lemma runes_step (s : string) :
  runes s =
  match DecodeRuneInString s with
  | None => []
  | Some (r, chunk, rest) => (r, chunk) :: runes rest
  end.
Proof.
  unfold runes. destruct s as [|c s]; [reflexivity|].
  cbn [String.length runesFuel].
  destruct (DecodeRuneInString (String c s)) as [[[r chunk] rest]|] eqn:E;
    [|reflexivity].
  apply decode_split in E as [_ E]. cbn in E. f_equal.
  apply runesFuel_enough; lia.
Qed.

Lemma decode_empty : DecodeRuneInString "" = None.
Proof. reflexivity. Qed.

Lemma decode_nonempty c s : DecodeRuneInString (String c s) <> None.
Proof.
  unfold DecodeRuneInString.
  repeat match goal with
         | |- context [match first ?b with _ => _ end] =>
           destruct (first b) as [[[? ?] ?]|]
         | |- context [match ?s with EmptyString => _ | String _ _ => _ end] =>
           destruct s
         | |- context [match ?n with O => _ | S _ => _ end] =>
           destruct n
         | |- context [if ?b then _ else _] => destruct b
         end; discriminate.
Qed.

(** The decoded runes cover the string. *)
Lemma text_runes (s : string) : text (runes s) = s.
Proof.
  remember (String.length s) as n eqn:Hn.
  revert s Hn. induction n as [n IH] using lt_wf_ind. intros s Hn.
  rewrite runes_step.
  destruct (DecodeRuneInString s) as [[[r chunk] rest]|] eqn:E.
  - pose proof (decode_split _ _ _ _ E) as [Hs Hl].
    cbn [text]. rewrite (IH (String.length rest)); [now symmetry|lia|reflexivity].
  - destruct s; [reflexivity|]. now apply decode_nonempty in E.
Qed.

(** Decoding looks ahead only to accept a sequence: with less text
    after it, the first rune is the same. *)
Lemma decode_truncate (c x y : string) r :
  DecodeRuneInString (c ++ x ++ y) = Some (r, c, x ++ y) ->
  DecodeRuneInString (c ++ x) = Some (r, c, x).
Proof.
  intros H.
  destruct c as [|c0 c].
  { apply decode_split in H as [_ H]. cbn in H. lia. }
  destruct c as [|c1 c].
  - (* one byte: ASCII, or a sequence that is cut short or broken *)
    destruct x as [|x0 [|x1 [|x2 x]]];
      destruct y as [|y0 [|y1 [|y2 y]]];
      unfold DecodeRuneInString, str1, str2, str3, str4 in *;
      cbn [append] in *;
      case_decode; try discriminate; try congruence;
      inversion H; subst; reflexivity.
  - (* several bytes: a whole sequence, whatever follows it *)
    remember (x ++ y) as z eqn:Hz.
    assert (Hany : forall z',
               DecodeRuneInString (String c0 (String c1 c) ++ z')
               = Some (r, String c0 (String c1 c), z')).
    { clear Hz x y.
      destruct c as [|c2 [|c3 [|c4 c]]];
        unfold DecodeRuneInString, str1, str2, str3, str4 in *;
        cbn [append] in *;
        case_decode; try discriminate; try congruence;
        inversion H; subst; intros z'; try reflexivity. }
    apply Hany.
Qed.

Lemma text_app (cs1 cs2 : list (rune * string)) :
  text (cs1 ++ cs2)%list = text cs1 ++ text cs2.
Proof.
  induction cs1 as [|[r c] cs1 IH]; [reflexivity|].
  cbn [text app]. rewrite IH. induction c; cbn; congruence.
Qed.

Lemma append_cancel (c a b : string) : c ++ a = c ++ b -> a = b.
Proof. induction c; cbn; intros H; [assumption|]. injection H. auto. Qed.

(** A tail of the runes of a string is the runes of its own bytes. *)
Lemma runes_text_suffix (cs1 : list (rune * string)) :
  forall s cs2, runes s = (cs1 ++ cs2)%list -> runes (text cs2) = cs2.
Proof.
  induction cs1 as [|p cs1 IH]; intros s cs2 H.
  - cbn in H. subst cs2. now rewrite text_runes.
  - rewrite runes_step in H.
    destruct (DecodeRuneInString s) as [[[r chunk] rest]|]; [|discriminate].
    cbn in H. injection H as _ H. exact (IH _ _ H).
Qed.

(** So is a head of them. *)
Lemma runes_text_prefix (cs1 : list (rune * string)) :
  forall cs2,
    runes (text (cs1 ++ cs2)%list) = (cs1 ++ cs2)%list ->
    runes (text cs1) = cs1.
Proof.
  induction cs1 as [|[r c] cs1 IH]; intros cs2 H; [reflexivity|].
  cbn [text app] in *. rewrite runes_step in H.
  destruct (DecodeRuneInString (c ++ text (cs1 ++ cs2)%list))
    as [[[r' c'] rest]|] eqn:E; [|discriminate].
  injection H as -> -> H.
  pose proof (decode_split _ _ _ _ E) as [Hs _].
  apply append_cancel in Hs. subst rest.
  rewrite text_app in E. apply decode_truncate in E.
  rewrite runes_step, E. f_equal. exact (IH _ H).
Qed.

End Utf8Facts.

Module Utf8Ascii.
Import Utf8.
Local Open Scope Z_scope.

Lemma lor_lower_l (a b k : Z) :
  0 <= a -> 0 <= b -> 0 <= k -> 2 ^ k <= a -> 2 ^ k <= Z.lor a b.
Proof.
  intros Ha Hb Hk H.
  assert (0 < a) by (pose proof (Z.pow_pos_nonneg 2 k); lia).
  assert (0 <= Z.lor a b) by (apply Z.lor_nonneg; auto).
  assert (Z.lor a b <> 0) by (rewrite Z.lor_eq_0_iff; lia).
  apply Z.log2_le_pow2; [lia|].
  rewrite Z.log2_lor by lia.
  apply Z.log2_le_pow2 in H; lia.
Qed.

Lemma lor_lower_r (a b k : Z) :
  0 <= a -> 0 <= b -> 0 <= k -> 2 ^ k <= b -> 2 ^ k <= Z.lor a b.
Proof. intros. rewrite Z.lor_comm. now apply lor_lower_l. Qed.

Lemma land_low (b n : Z) : 0 <= n -> Z.land b (2 ^ n - 1) = b mod 2 ^ n.
Proof.
  intros Hn. rewrite <- Z.land_ones by assumption.
  now rewrite Z.ones_equiv, Z.sub_1_r.
Qed.

Ltac pow_lia :=
  repeat match goal with
         | |- context [2 ^ ?k] =>
           let v := eval compute in (2 ^ k) in change (2 ^ k) with v
         end;
  Z.to_euclidean_division_equations; lia.

Lemma byteZ_nonneg c : 0 <= byteZ c.
Proof. unfold byteZ. lia. Qed.

Lemma first_cases b sz lo hi :
  first b = Some (sz, lo, hi) ->
  hi <= 191 /\
  ((sz = 2%nat /\ 194 <= b <= 223) \/
  (sz = 3%nat /\ (225 <= b <= 239 \/ b = 224 /\ lo = 160)) \/
  (sz = 4%nat /\ (241 <= b <= 244 \/ b = 240 /\ lo = 144))).
Proof.
  unfold first, between.
  repeat match goal with
         | |- context [if ?c then _ else _] => destruct c eqn:?
         end; intros H; try discriminate; injection H as <- <- <-; lia.
Qed.

Lemma decode_ascii (s : string) r chunk rest :
  DecodeRuneInString s = Some (r, chunk, rest) ->
  r < 128 ->
  chunk = String (ascii_of_N (Z.to_N r)) "".
Proof.
  unfold DecodeRuneInString, str1, str2, str3, str4, RuneError, RuneSelf.
  intros H Hr.
  destruct s as [|c0 s]; [discriminate|].
  destruct (byteZ c0 <? 128) eqn:E0.
  { injection H as <- <- _. unfold byteZ.
    now rewrite N2Z.id, ascii_N_embedding. }
  destruct (first (byteZ c0)) as [[[sz lo] hi]|] eqn:Ef;
    [|injection H as <- _ _; exfalso; clear - Hr; lia].
  apply first_cases in Ef as [Hhi Ef].
  pose proof (byteZ_nonneg c0).
  destruct s as [|c1 s]; [injection H as <- _ _; exfalso; clear - Hr; lia|].
  pose proof (byteZ_nonneg c1).
  destruct (negb (between lo hi (byteZ c1))) eqn:E1;
    [injection H as <- _ _; exfalso; clear - Hr; lia|].
  apply negb_false_iff in E1. unfold between in E1.
  apply andb_true_iff in E1 as [E1 E1']. apply Z.leb_le in E1, E1'.
  destruct sz as [|[|[|sz]]].
  - destruct Ef as [[? _]|[[? _]|[? _]]]; discriminate.
  - destruct Ef as [[? _]|[[? _]|[? _]]]; discriminate.
  - destruct Ef as [[_ Hb]|[[? _]|[? _]]]; try discriminate.
    injection H as <- _ _. exfalso.
    assert (Hge : 2 ^ 7 <= Z.lor (Z.shiftl (Z.land (byteZ c0) 31) 6)
                            (Z.land (byteZ c1) 63)); [|exact (Z.lt_irrefl _ (Z.le_lt_trans _ _ _ Hge Hr))].
    apply lor_lower_l; try lia.
    + apply Z.shiftl_nonneg, Z.land_nonneg. lia.
    + apply Z.land_nonneg. lia.
    + rewrite Z.shiftl_mul_pow2 by lia.
      change 31 with (2 ^ 5 - 1). rewrite land_low by lia. clear Hr. pow_lia.
  - destruct s as [|c2 s]; [injection H as <- _ _; exfalso; clear - Hr; lia|].
    pose proof (byteZ_nonneg c2).
    destruct (negb (isCont (byteZ c2))) eqn:E2;
      [injection H as <- _ _; exfalso; clear - Hr; lia|].
    assert (Hn1 : 0 <= Z.shiftl (Z.land (byteZ c1) 63) 6)
      by (apply Z.shiftl_nonneg, Z.land_nonneg; lia).
    assert (Hn2 : 0 <= Z.land (byteZ c2) 63) by (apply Z.land_nonneg; lia).
    destruct sz as [|sz].
    + destruct Ef as [[? _]|[[_ Hb]|[? _]]]; try discriminate.
      injection H as <- _ _. exfalso.
      assert (Hge : 2 ^ 7 <=
              Z.lor (Z.shiftl (Z.land (byteZ c0) 15) 12)
                    (Z.lor (Z.shiftl (Z.land (byteZ c1) 63) 6)
                           (Z.land (byteZ c2) 63))); [|exact (Z.lt_irrefl _ (Z.le_lt_trans _ _ _ Hge Hr))].
      assert (0 <= Z.shiftl (Z.land (byteZ c0) 15) 12)
        by (apply Z.shiftl_nonneg, Z.land_nonneg; lia).
      assert (0 <= Z.lor (Z.shiftl (Z.land (byteZ c1) 63) 6)
                         (Z.land (byteZ c2) 63))
        by (apply Z.lor_nonneg; lia).
      destruct Hb as [Hb|[Hb ->]].
      * apply lor_lower_l; try lia.
        rewrite Z.shiftl_mul_pow2 by lia.
        change 15 with (2 ^ 4 - 1). rewrite land_low by lia. clear Hr. pow_lia.
      * apply lor_lower_r; try lia. apply lor_lower_l; try lia.
        rewrite Z.shiftl_mul_pow2 by lia.
        change 63 with (2 ^ 6 - 1). rewrite land_low by lia. clear Hr. pow_lia.
    + destruct s as [|c3 s]; [injection H as <- _ _; exfalso; clear - Hr; lia|].
      pose proof (byteZ_nonneg c3).
      destruct (negb (isCont (byteZ c3))) eqn:E3;
        [injection H as <- _ _; exfalso; clear - Hr; lia|].
      destruct Ef as [[? _]|[[? _]|[_ Hb]]]; try discriminate.
      injection H as <- _ _. exfalso.
      assert (Hn3 : 0 <= Z.land (byteZ c3) 63) by (apply Z.land_nonneg; lia).
      assert (Hn4 : 0 <= Z.shiftl (Z.land (byteZ c2) 63) 6)
        by (apply Z.shiftl_nonneg, Z.land_nonneg; lia).
      assert (Hn5 : 0 <= Z.shiftl (Z.land (byteZ c1) 63) 12)
        by (apply Z.shiftl_nonneg, Z.land_nonneg; lia).
      assert (Hn6 : 0 <= Z.shiftl (Z.land (byteZ c0) 7) 18)
        by (apply Z.shiftl_nonneg, Z.land_nonneg; lia).
      assert (Hn7 : 0 <= Z.lor (Z.shiftl (Z.land (byteZ c2) 63) 6)
                               (Z.land (byteZ c3) 63))
        by (apply Z.lor_nonneg; lia).
      assert (Hn8 : 0 <= Z.lor (Z.shiftl (Z.land (byteZ c1) 63) 12)
                        (Z.lor (Z.shiftl (Z.land (byteZ c2) 63) 6)
                               (Z.land (byteZ c3) 63)))
        by (apply Z.lor_nonneg; lia).
      assert (Hge : 2 ^ 7 <=
              Z.lor (Z.shiftl (Z.land (byteZ c0) 7) 18)
                    (Z.lor (Z.shiftl (Z.land (byteZ c1) 63) 12)
                           (Z.lor (Z.shiftl (Z.land (byteZ c2) 63) 6)
                                  (Z.land (byteZ c3) 63)))); [|exact (Z.lt_irrefl _ (Z.le_lt_trans _ _ _ Hge Hr))].
      destruct Hb as [Hb|[Hb ->]].
      * apply lor_lower_l; try lia.
        rewrite Z.shiftl_mul_pow2 by lia.
        change (Z.land (byteZ c0) 7) with (Z.land (byteZ c0) (2 ^ 3 - 1)).
        rewrite land_low by lia. clear Hr. pow_lia.
      * apply lor_lower_r; try lia. apply lor_lower_l; try lia.
        rewrite Z.shiftl_mul_pow2 by lia.
        change 63 with (2 ^ 6 - 1). rewrite land_low by lia. clear Hr. pow_lia.
Qed.

End Utf8Ascii.


(* ================================================================== *)
(** ** strings.TrimSpace *)

Lemma dropSpaces_suffix (cs : list (Utf8.rune * string)) :
  exists pre, cs = (pre ++ Strings.dropSpaces cs)%list.
Proof.
  induction cs as [|[r c] cs [pre IH]]; [now exists []|].
  cbn. destruct (Unicode.IsSpace r).
  - exists ((r, c) :: pre). cbn. now f_equal.
  - now exists [].
Qed.

Lemma dropSpaces_head (cs : list (Utf8.rune * string)) p rest :
  Strings.dropSpaces cs = p :: rest -> Unicode.IsSpace (fst p) = false.
Proof.
  induction cs as [|[r c] cs IH]; cbn; [discriminate|].
  destruct (Unicode.IsSpace r) eqn:E; [exact IH|].
  intros H. injection H as <- _. exact E.
Qed.

Lemma last_cons_default {A} (l : list A) (x d : A) :
  last (x :: l) d = last l x.
Proof.
  revert x d. induction l as [|y l IH]; intros x d; [reflexivity|].
  change (last (x :: y :: l) d) with (last (y :: l) d).
  now rewrite (IH y d), (IH y x).
Qed.

(** What [TrimSpace] returns neither starts nor ends with white space. *)
Lemma TrimSpace_noOuterSpace (s : string) : noOuterSpace (Strings.TrimSpace s).
Proof.
  unfold Strings.TrimSpace, Strings.TrimRightSpace, Strings.TrimLeftSpace,
    noOuterSpace.
  set (m1 := Strings.dropSpaces (Utf8.runes s)).
  set (m := rev (Strings.dropSpaces (rev m1))).
  destruct (dropSpaces_suffix (Utf8.runes s)) as [pre Hpre].
  fold m1 in Hpre.
  pose proof (Utf8Facts.runes_text_suffix _ _ _ Hpre) as Hm1.
  destruct (dropSpaces_suffix (rev m1)) as [pre2 Hpre2].
  assert (Hsplit : m1 = (m ++ rev pre2)%list).
  { rewrite <- (rev_involutive m1), Hpre2, rev_app_distr. reflexivity. }
  rewrite Hsplit in Hm1.
  apply Utf8Facts.runes_text_prefix in Hm1. rewrite Hm1.
  destruct m as [|c cs] eqn:Em; [exact I|]. split.
  - apply (dropSpaces_head (Utf8.runes s) c (cs ++ rev pre2)%list).
    fold m1. rewrite Hsplit. reflexivity.
  - assert (Hrev : Strings.dropSpaces (rev m1) = rev (c :: cs)).
    { rewrite <- Em. unfold m. now rewrite rev_involutive. }
    destruct (rev (c :: cs)) as [|x xs] eqn:Er.
    { apply (f_equal (@List.length _)) in Er.
      rewrite length_rev in Er. discriminate. }
    apply dropSpaces_head in Hrev.
    assert (Hl : c :: cs = (rev xs ++ [x])%list).
    { rewrite <- (rev_involutive (c :: cs)), Er. reflexivity. }
    rewrite <- (last_cons_default cs c c), Hl, last_last. exact Hrev.
Qed.

(* ================================================================== *)
(** ** The beacon pattern *)

Section Beacon.

Import Utf8 Regexp.


Lemma runes_asciiChunk (s : string) : Forall asciiChunk (runes s).
Proof.
  remember (String.length s) as n eqn:Hn.
  revert s Hn. induction n as [n IH] using lt_wf_ind. intros s Hn.
  rewrite Utf8Facts.runes_step.
  destruct (DecodeRuneInString s) as [[[r chunk] rest]|] eqn:E;
    [|constructor].
  constructor.
  - intros Hr. exact (Utf8Ascii.decode_ascii _ _ _ _ E Hr).
  - apply Utf8Facts.decode_split in E as [_ E].
    apply (IH (String.length rest)); [lia|reflexivity].
Qed.

Lemma search_suffix (re : Regexp) (inp : Input) caps :
  search re inp = Some caps ->
  exists inp1 inp2, inp = (inp1 ++ inp2)%list /\ matchHere re inp2 = Some caps.
Proof.
  induction inp as [|p inp IH]; cbn [search].
  - destruct (matchHere re []) eqn:E; [|discriminate].
    intros H. injection H as <-. now exists [], [].
  - destruct (matchHere re (p :: inp)) eqn:E.
    + intros H. injection H as <-. now exists [], (p :: inp).
    + intros H. destruct (IH H) as (inp1 & inp2 & -> & Hm).
      now exists (p :: inp1), inp2.
Qed.


Lemma matchLit_text (rs : list rune) :
  forall inp inp',
    matchLit rs inp = Some inp' ->
    Forall (fun r => (r < 128)%Z) rs ->
    Forall asciiChunk inp ->
    text inp = asciiText rs ++ text inp'.
Proof.
  induction rs as [|r rs IH]; intros inp inp' H Hrs Hinp; cbn in H.
  - now injection H as ->.
  - destruct inp as [|[x c] inp]; [discriminate|].
    destruct (x =? r)%Z eqn:E; [|discriminate].
    apply Z.eqb_eq in E. subst x.
    inversion Hrs as [|? ? Hr Hrs']; subst.
    inversion Hinp as [|? ? Hc Hinp']; subst.
    specialize (Hc Hr). cbn [fst snd] in Hc. subst c.
    cbn [text asciiText append]. f_equal.
    now apply IH.
Qed.

Lemma HasPrefix_app (p t : string) : Strings.HasPrefix (p ++ t) p = true.
Proof.
  induction p as [|c p IH]; [now destruct t|].
  cbn. now rewrite Ascii.eqb_refl.
Qed.

Lemma Contains_HasPrefix (s p : string) :
  Strings.HasPrefix s p = true -> Strings.Contains s p = true.
Proof. intros H. destruct s; cbn [Strings.Contains]; now rewrite H. Qed.

Lemma Contains_app_r (a b p : string) :
  Strings.Contains b p = true -> Strings.Contains (a ++ b) p = true.
Proof.
  intros H. induction a as [|c a IH]; [exact H|].
  cbn [append Strings.Contains]. rewrite IH. apply orb_true_r.
Qed.

(** A message the pattern matches contains the tag. *)
Lemma beacon_has_tag (s : string) m :
  gasTownPattern_FindStringSubmatch s = Some m ->
  Strings.Contains s "[GAS TOWN]" = true.
Proof.
  unfold gasTownPattern_FindStringSubmatch, FindStringSubmatch.
  destruct (search gasTownPattern (runes s)) as [caps|] eqn:E; [|discriminate].
  intros _. apply search_suffix in E as (inp1 & inp2 & Hs & Hm).
  unfold matchHere, gasTownPattern, litOf in Hm. cbn [run] in Hm.
  destruct (matchLit (map fst (runes "[GAS TOWN]")) inp2) as [inp'|] eqn:El;
    [|discriminate].
  clear Hm.
  pose proof (runes_asciiChunk s) as Ha. rewrite Hs in Ha.
  apply Forall_app in Ha as [_ Ha].
  apply matchLit_text in El; [|repeat constructor|exact Ha].
  rewrite <- (Utf8Facts.text_runes s), Hs, Utf8Facts.text_app, El.
  apply Contains_app_r, Contains_HasPrefix.
  exact (HasPrefix_app "[GAS TOWN]" (text inp')).
Qed.

End Beacon.

Lemma submatch_length (s : string) m :
  gasTownPattern_FindStringSubmatch s = Some m -> List.length m = 4%nat.
Proof.
  unfold gasTownPattern_FindStringSubmatch, Regexp.FindStringSubmatch.
  destruct (Regexp.search gasTownPattern (Utf8.runes s)); [|discriminate].
  intros H. injection H as <-. reflexivity.
Qed.

(** What [userEntry] does with the beacon is [matchBeacon] on the content
    of the message. *)
Lemma userEntry_beacon {L : Library} (entry : entryLine) (info : SessionInfo) :
  IsGasTown info = false ->
  let info' := userEntry entry info in
  match matchBeacon (extractMessageContent (el_Message entry)) with
  | Some (role, topic) =>
    IsGasTown info' = true /\ Role info' = role /\ Topic info' = topic
  | None =>
    IsGasTown info' = false /\ Role info' = Role info /\ Topic info' = Topic info
  end.
Proof.
  intros Hg. unfold userEntry, matchBeacon.
  set (i1 := if negb (el_Timestamp entry =? "") && Time.IsZero (StartTime info)
             then _ else _).
  set (i2 := if (ID i1 =? "") && negb (el_SessionID entry =? "") then _ else _).
  assert (H2 : IsGasTown i2 = false /\ Role i2 = Role info /\ Topic i2 = Topic info).
  { subst i2 i1.
    repeat match goal with
           | |- context [if ?b then _ else _] => destruct b
           | |- context [match ?x with Some _ => _ | None => _ end] => destruct x
           end; cbn; auto. }
  destruct H2 as (H2 & H2r & H2t). rewrite H2. cbn [negb].
  destruct (gasTownPattern_FindStringSubmatch
              (extractMessageContent (el_Message entry))) as [m|] eqn:E.
  - rewrite (submatch_length _ _ E). cbn. auto.
  - cbn. auto.
Qed.


(** C3. The beacon matcher on the three examples of the specification. *)
Theorem beacon_matcher :
  gasTownPattern_FindStringSubmatch beaconFull
  = Some [beaconFull; "gastown/crew/gus"; "assigned:gt-abc12"; "2025-12-30T15:42"]
  /\ matchBeacon beaconFull = Some ("gastown/crew/gus", "assigned:gt-abc12")
  /\ matchBeacon "[GAS TOWN] witness • handoff" = Some ("witness", "handoff")
  /\ (forall s, Strings.Contains s "[GAS TOWN]" = false -> matchBeacon s = None)
  /\ matchBeacon "Regular message without beacon" = None
  /\ matchBeacon "[GAS TOWN] witness" = Some ("witness", "")
  /\ (forall s role topic,
         matchBeacon s = Some (role, topic) -> noOuterSpace topic)
  /\ (forall (L : Library) entry info,
         IsGasTown info = false ->
         match matchBeacon (extractMessageContent (el_Message entry)) with
         | Some (role, topic) =>
           IsGasTown (userEntry entry info) = true /\
           Role (userEntry entry info) = role /\
           Topic (userEntry entry info) = topic
         | None =>
           IsGasTown (userEntry entry info) = false /\
           Role (userEntry entry info) = Role info /\
           Topic (userEntry entry info) = Topic info
         end).
Proof.
  split; [vm_compute; reflexivity|].
  split; [vm_compute; reflexivity|].
  split; [vm_compute; reflexivity|].
  split.
  { intros s H. unfold matchBeacon.
    destruct (gasTownPattern_FindStringSubmatch s) as [m|] eqn:E; [|reflexivity].
    apply beacon_has_tag in E. congruence. }
  split; [vm_compute; reflexivity|].
  split; [vm_compute; reflexivity|].
  split.
  { intros s role topic H. unfold matchBeacon in H.
    destruct (gasTownPattern_FindStringSubmatch s) as [m|] eqn:E; [|discriminate].
    rewrite (submatch_length _ _ E) in H.
    change (2 <? 4)%nat with true in H. cbv iota in H.
    injection H as _ <-. apply TrimSpace_noOuterSpace. }
  intros L entry info H. exact (userEntry_beacon entry info H).
Qed.

(* ================================================================== *)
(** ** The scan of one file *)

Section ScanFacts.

Context {L : Library}.

Ltac case_if :=
  repeat match goal with
         | |- context [if ?b then _ else _] => destruct b eqn:?
         | |- context [match ?x with Some _ => _ | None => _ end] =>
           destruct x eqn:?
         end.

Lemma userEntry_StartTime (entry : entryLine) (info : SessionInfo) :
  Time.IsZero (StartTime info) = false ->
  StartTime (userEntry entry info) = StartTime info.
Proof.
  intros H. unfold userEntry. rewrite H, andb_false_r.
  case_if; reflexivity.
Qed.

Lemma userEntry_beacon_fixed (entry : entryLine) (info : SessionInfo) :
  IsGasTown info = true ->
  IsGasTown (userEntry entry info) = true /\
  Role (userEntry entry info) = Role info /\
  Topic (userEntry entry info) = Topic info.
Proof.
  intros H. unfold userEntry.
  set (i1 := if negb (el_Timestamp entry =? "") && Time.IsZero (StartTime info)
             then _ else _).
  set (i2 := if (ID i1 =? "") && negb (el_SessionID entry =? "") then _ else _).
  assert (H2 : IsGasTown i2 = true /\ Role i2 = Role info /\ Topic i2 = Topic info).
  { subst i2 i1. case_if; cbn; auto. }
  destruct H2 as (H2 & ? & ?). rewrite H2. cbn. auto.
Qed.

Lemma body_StartTime (lineNum : Z) (line : string) (info : SessionInfo) :
  Time.IsZero (StartTime info) = false ->
  StartTime (fst (body lineNum line info)) = StartTime info.
Proof.
  intros H. unfold body.
  case_if; cbn [fst]; try reflexivity; now apply userEntry_StartTime.
Qed.

Lemma body_beacon_fixed (lineNum : Z) (line : string) (info : SessionInfo) :
  IsGasTown info = true ->
  IsGasTown (fst (body lineNum line info)) = true /\
  Role (fst (body lineNum line info)) = Role info /\
  Topic (fst (body lineNum line info)) = Topic info.
Proof.
  intros H. unfold body.
  case_if; cbn [fst]; auto; now apply userEntry_beacon_fixed.
Qed.

Lemma scanLoop_StartTime (lines : list string) :
  forall lineNum info,
    Time.IsZero (StartTime info) = false ->
    StartTime (fst (scanLoop lines lineNum info)) = StartTime info.
Proof.
  induction lines as [|line lines IH]; intros lineNum info H; [reflexivity|].
  cbn [scanLoop].
  pose proof (body_StartTime (lineNum + 1) line info H) as Hb.
  destruct (body (lineNum + 1) line info) as [info' []]; cbn [fst] in *.
  - rewrite IH; [exact Hb|]. now rewrite Hb.
  - exact Hb.
Qed.

Lemma scanLoop_beacon_fixed (lines : list string) :
  forall lineNum info,
    IsGasTown info = true ->
    IsGasTown (fst (scanLoop lines lineNum info)) = true /\
    Role (fst (scanLoop lines lineNum info)) = Role info /\
    Topic (fst (scanLoop lines lineNum info)) = Topic info.
Proof.
  induction lines as [|line lines IH]; intros lineNum info H; [now cbn|].
  cbn [scanLoop].
  pose proof (body_beacon_fixed (lineNum + 1) line info H) as (Hg & Hr & Ht).
  destruct (body (lineNum + 1) line info) as [info' []]; cbn [fst] in *.
  - destruct (IH (lineNum + 1)%Z info' Hg) as (? & ? & ?).
    repeat split; congruence.
  - auto.
Qed.

(** Reading on after a prefix: either the loop was left inside the prefix,
    or it goes on from where the prefix ends. *)
Lemma scanLoop_app (pre post : list string) :
  forall lineNum info,
    scanLoop (pre ++ post) lineNum info = scanLoop pre lineNum info \/
    scanLoop (pre ++ post) lineNum info =
    scanLoop post (snd (scanLoop pre lineNum info))
             (fst (scanLoop pre lineNum info)).
Proof.
  induction pre as [|line pre IH]; intros lineNum info; [now right|].
  cbn [app scanLoop].
  destruct (body (lineNum + 1) line info) as [info' []]; [apply IH|now left].
Qed.

Lemma IsZero_zero (t : Time.Time) : Time.IsZero t = true -> t = Time.zero.
Proof.
  destruct t as [s n]. unfold Time.IsZero. cbn.
  intros H. apply andb_true_iff in H as [Hs Hn].
  apply Z.eqb_eq in Hs, Hn. now subst.
Qed.

Lemma userEntry_firstStart (entry : entryLine) (info : SessionInfo) :
  Time.IsZero (StartTime info) = true ->
  StartTime (userEntry entry info) =
  if negb (el_Timestamp entry =? "")
  then match time_Parse Time.RFC3339 (el_Timestamp entry) with
       | Some t => t
       | None => Time.zero
       end
  else Time.zero.
Proof.
  intros H. unfold userEntry. rewrite H, andb_true_r.
  apply IsZero_zero in H.
  case_if; cbn; auto.
Qed.

Lemma scanLoop_firstQualifying (lines : list string) :
  forall lineNum info,
    (1 <= lineNum)%Z ->
    Time.IsZero (StartTime info) = true ->
    StartTime (fst (scanLoop lines lineNum info)) =
    match firstQualifying lines with
    | Some t => t
    | None => Time.zero
    end.
Proof.
  induction lines as [|line lines IH]; intros lineNum info Hn H.
  - cbn. now apply IsZero_zero.
  - cbn [scanLoop firstQualifying]. unfold qualifying, body.
    destruct (lineNum + 1 =? 1)%Z eqn:E1; [lia|].
    destruct (json_Unmarshal_entryLine line) as [entry|].
    2:{ apply IH; [lia|exact H]. }
    destruct (el_Type entry =? "user") eqn:Eu; cbn [andb].
    2:{ unfold Time.IsZero in H |- *. rewrite H.
        rewrite andb_false_r. cbn [negb andb]. apply IH; [lia|exact H]. }
    pose proof (userEntry_firstStart entry info H) as Hs.
    destruct (negb (el_Timestamp entry =? "")) eqn:Et.
    2:{ assert (Hz : Time.IsZero (StartTime (userEntry entry info)) = true)
          by now rewrite Hs.
        rewrite Hz, andb_false_r. cbn [negb andb]. apply IH; [lia|exact Hz]. }
    destruct (time_Parse Time.RFC3339 (el_Timestamp entry)) as [t|].
    2:{ assert (Hz : Time.IsZero (StartTime (userEntry entry info)) = true)
          by now rewrite Hs.
        rewrite Hz, andb_false_r. cbn [negb andb]. apply IH; [lia|exact Hz]. }
    destruct (Time.IsZero t) eqn:Ez.
    + assert (Hz : Time.IsZero (StartTime (userEntry entry info)) = true)
        by now rewrite Hs.
      rewrite Hz, andb_false_r. cbn [negb andb]. apply IH; [lia|exact Hz].
    + assert (Hz : Time.IsZero (StartTime (userEntry entry info)) = false)
        by now rewrite Hs.
      destruct (IsGasTown (userEntry entry info)
                && negb (Time.IsZero (StartTime (userEntry entry info)))
                && (lineNum + 1 >? 20)%Z).
      * exact Hs.
      * rewrite scanLoop_StartTime; [exact Hs|exact Hz].
Qed.


(** When the body leaves the loop. *)
Lemma body_flow (lineNum : Z) (line : string) (info info' : SessionInfo) flow :
  body lineNum line info = (info', flow) ->
  (flow = Break <->
   (lineNum <> 1 /\ json_Unmarshal_entryLine line <> None /\
    ready info' = true /\ 20 < lineNum)%Z).
Proof.
  unfold body, ready. intros H.
  destruct (lineNum =? 1)%Z eqn:E1.
  - apply Z.eqb_eq in E1.
    assert (flow = Continue) as ->.
    { revert H. case_if; intros H; now injection H. }
    split; [discriminate|]. intros (? & _). contradiction.
  - apply Z.eqb_neq in E1.
    destruct (json_Unmarshal_entryLine line) as [entry|].
    2:{ injection H as _ <-. split; [discriminate|]. now intros (_ & ? & _). }
    set (i := if el_Type entry =? "user" then _ else _) in H.
    destruct (IsGasTown i && negb (Time.IsZero (StartTime i))) eqn:Er;
      cbn [andb] in H.
    + destruct (lineNum >? 20)%Z eqn:E20; injection H as <- <-.
      * split; [intros _|reflexivity].
        repeat split; auto; try discriminate. lia.
      * split; [discriminate|]. intros (_ & _ & _ & ?). lia.
    + injection H as <- <-. split; [discriminate|].
      intros (_ & _ & ? & _). congruence.
Qed.

Lemma runs_scanLoop (pre : list string) lineNum info info' :
  runs pre lineNum info info' ->
  forall post,
    scanLoop (pre ++ post) lineNum info =
    scanLoop post (lineNum + Z.of_nat (List.length pre)) info'.
Proof.
  induction 1 as [|line lines lineNum info info' info'' Hb Hr IH]; intros post.
  - cbn. now rewrite Z.add_0_r.
  - cbn [app scanLoop]. rewrite Hb, IH. f_equal. cbn [List.length]. lia.
Qed.

Lemma runs_app_inv (a b : list string) :
  forall lineNum info info'',
    runs (a ++ b) lineNum info info'' ->
    exists info',
      runs a lineNum info info' /\
      runs b (lineNum + Z.of_nat (List.length a)) info' info''.
Proof.
  induction a as [|line a IH]; intros lineNum info info'' H.
  - exists info. split; [constructor|]. cbn. now rewrite Z.add_0_r.
  - cbn [app] in H. inversion H as [|? ? ? ? i1 ? Hb Hr]; subst.
    destruct (IH _ _ _ Hr) as (i2 & Ha & Hb2).
    exists i2. split; [econstructor; eassumption|].
    replace (lineNum + Z.of_nat (List.length (line :: a)))%Z
      with (lineNum + 1 + Z.of_nat (List.length a))%Z
      by (cbn [List.length]; lia).
    exact Hb2.
Qed.

(** The loop either leaves at some line, or reads every line. *)
Lemma scanLoop_cases (lines : list string) :
  forall lineNum info,
    (exists pre line post infoP,
        lines = (pre ++ line :: post)%list /\
        runs pre lineNum info infoP /\
        body (lineNum + Z.of_nat (List.length pre) + 1) line infoP
        = (fst (scanLoop lines lineNum info), Break) /\
        snd (scanLoop lines lineNum info)
        = (lineNum + Z.of_nat (List.length pre) + 1)%Z)
    \/
    (runs lines lineNum info (fst (scanLoop lines lineNum info)) /\
     snd (scanLoop lines lineNum info)
     = (lineNum + Z.of_nat (List.length lines))%Z).
Proof.
  induction lines as [|line lines IH]; intros lineNum info.
  - right. cbn. split; [constructor|lia].
  - cbn [scanLoop].
    destruct (body (lineNum + 1) line info) as [info' []] eqn:Hb.
    + destruct (IH (lineNum + 1)%Z info')
        as [(pre & l & post & infoP & -> & Hr & Hbr & Hn)|[Hr Hn]].
      * left. exists (line :: pre), l, post, infoP.
        split; [reflexivity|]. split; [econstructor; eassumption|].
        replace (lineNum + Z.of_nat (List.length (line :: pre)) + 1)%Z
          with (lineNum + 1 + Z.of_nat (List.length pre) + 1)%Z
          by (cbn [List.length]; lia).
        auto.
      * right. split; [econstructor; eassumption|].
        rewrite Hn. cbn [List.length]. lia.
    + left. exists [], line, lines, info. cbn [fst snd List.length].
      split; [reflexivity|]. split; [constructor|].
      rewrite Z.add_0_r. auto.
Qed.


Lemma runs_prefix_state (P : list string) lineNum info infoEnd :
  runs P lineNum info infoEnd ->
  forall k,
    (1 <= k <= List.length P)%nat ->
    exists infoP,
      body (lineNum + Z.of_nat k) (nth (k - 1) P "") infoP
      = (fst (scanLoop (firstn k P) lineNum info), Continue).
Proof.
  induction 1 as [|line lines lineNum info info' info'' Hb Hr IH]; intros k Hk.
  - cbn in Hk. lia.
  - destruct k as [|[|k]]; [lia| |].
    + exists info. cbn. rewrite Hb. reflexivity.
    + destruct (IH (S k)) as [infoP HP]; [cbn [List.length] in Hk; lia|].
      exists infoP.
      replace (lineNum + Z.of_nat (S (S k)))%Z
        with (lineNum + 1 + Z.of_nat (S k))%Z by lia.
      cbn [firstn scanLoop]. rewrite Hb.
      replace (S (S k) - 1)%nat with (S k) by lia.
      replace (S k - 1)%nat with k in HP by lia.
      exact HP.
Qed.

(** C1 (as amended). Reading a file stops before its last line exactly
    when some line with a number above 20 decodes as a record and leaves
    the descriptor with the beacon found and the start time set, and a line
    follows it; a file in which no beacon is found is read to its last
    line (or to where the scanner fails). *)
Theorem early_exit_after_line_20 (filePath projectPath data : string) :
  let lines := sessionLines data in
  let n := linesRead filePath projectPath data in
  (0 <= n <= Z.of_nat (List.length lines))%Z
  /\ ((n < Z.of_nat (List.length lines))%Z <->
      exists k : nat,
        (20 < k < List.length lines)%nat /\
        json_Unmarshal_entryLine (nth (k - 1) lines "") <> None /\
        ready (stateAfter filePath projectPath lines k) = true)
  /\ (IsGasTown (fst (scanLoop lines 0 (newSession filePath projectPath))) = false ->
      n = Z.of_nat (List.length lines)).
Proof.
  unfold linesRead, stateAfter. cbv zeta.
  set (lines := sessionLines data). set (init := newSession filePath projectPath).
  destruct (scanLoop_cases lines 0 init)
    as [(pre & line & post & infoP & Hl & Hr & Hb & Hn)|[Hr Hn]].
  - (* the loop is left at line |pre| + 1 *)
    pose proof (proj1 (body_flow _ _ _ _ _ Hb) eq_refl) as (H1 & Hd & Hrd & H20).
    assert (Hlen : List.length lines = (List.length pre + 1 + List.length post)%nat).
    { rewrite Hl, length_app. cbn [List.length]. lia. }
    assert (Hst : fst (scanLoop (firstn (List.length pre + 1) lines) 0 init)
                  = fst (scanLoop lines 0 init)).
    { rewrite Hl.
      replace (firstn (List.length pre + 1) (pre ++ line :: post))
        with (pre ++ [line])%list.
      2:{ rewrite firstn_app, firstn_all2 by lia.
          replace (List.length pre + 1 - List.length pre)%nat with 1%nat by lia.
          reflexivity. }
      rewrite (runs_scanLoop _ _ _ _ Hr). cbn [scanLoop].
      rewrite Hb. rewrite <- Hl. reflexivity. }
    split; [lia|]. split; [split|].
    + intros Hlt. exists (List.length pre + 1)%nat.
      split; [lia|]. split.
      * replace (List.length pre + 1 - 1)%nat with (List.length pre) by lia.
        rewrite Hl, nth_middle. exact Hd.
      * rewrite Hst. exact Hrd.
    + intros (k & Hk & Hkd & Hkr).
      destruct post as [|p post]; [|cbn [List.length] in Hlen; lia].
      exfalso.
      destruct (runs_prefix_state _ _ _ _ Hr k) as [iP HP];
        [cbn [List.length] in Hlen; lia|].
      assert (Hf : firstn k lines = firstn k pre).
      { rewrite Hl, firstn_app.
        replace (k - List.length pre)%nat with 0%nat
          by (cbn [List.length] in Hlen; lia).
        cbn [firstn]. now rewrite app_nil_r. }
      assert (Hnth : nth (k - 1) lines "" = nth (k - 1) pre "").
      { rewrite Hl. apply app_nth1. cbn [List.length] in Hlen. lia. }
      rewrite Hf in Hkr. rewrite Hnth in Hkd.
      pose proof (proj2 (body_flow _ _ _ _ _ HP)) as Hc.
      assert (Continue = Break); [|discriminate].
      apply Hc. repeat split; auto; lia.
    + intros Hg. unfold ready in Hrd. rewrite Hg in Hrd. discriminate.
  - (* every line is read *)
    split; [lia|]. split; [split|].
    + intros Hlt. lia.
    + intros (k & Hk & Hkd & Hkr). exfalso.
      destruct (runs_prefix_state _ _ _ _ Hr k) as [iP HP]; [lia|].
      pose proof (proj2 (body_flow _ _ _ _ _ HP)) as Hc.
      assert (Continue = Break); [|discriminate].
      apply Hc. repeat split; auto; lia.
    + intros _. lia.
Qed.


(** C4. [extractMessageContent] tries the payload as a string first and
    returns the string when that succeeds; only when it fails, the payload
    is tried as an object and its content returned; when neither succeeds,
    or the payload is empty, the result is the empty string. *)
Theorem extractMessageContent_order (msg : string) :
  (msg = "" -> extractMessageContent msg = "")
  /\ (msg <> "" ->
      forall str, json_Unmarshal_string msg = Some str ->
                  extractMessageContent msg = str)
  /\ (msg <> "" -> json_Unmarshal_string msg = None ->
      forall obj, json_Unmarshal_messageObj msg = Some obj ->
                  extractMessageContent msg = mo_Content obj)
  /\ (msg <> "" -> json_Unmarshal_string msg = None ->
      json_Unmarshal_messageObj msg = None ->
      extractMessageContent msg = "").
Proof.
  unfold extractMessageContent.
  destruct msg as [|c msg]; cbn [String.length Nat.eqb].
  - repeat split; intros; congruence.
  - split; [discriminate|].
    split; [intros _ str H; now rewrite H|].
    split; [intros _ Hs obj H; now rewrite Hs, H|].
    intros _ Hs Ho. now rewrite Hs, Ho.
Qed.

(** C5. Within the scan of one file the start time is set once: after any
    prefix of the lines that has set it to a non-zero instant, the rest of
    the lines leave it as it is, and at the end it is the timestamp of the
    first qualifying user record after line 1; the beacon is found once:
    after any prefix that has found it, the rest of the lines leave the
    flag, the role and the topic as they are. *)
Theorem startTime_first_wins_beacon_monotonic
        (filePath projectPath : string) (pre post : list string) :
  let st := fst (scanLoop pre 0 (newSession filePath projectPath)) in
  let fin := fst (scanLoop (pre ++ post) 0 (newSession filePath projectPath)) in
  (Time.IsZero (StartTime st) = false -> StartTime fin = StartTime st)
  /\ StartTime fin = match firstQualifying (tl (pre ++ post)) with
                     | Some t => t
                     | None => Time.zero
                     end
  /\ (IsGasTown st = true ->
      IsGasTown fin = true /\ Role fin = Role st /\ Topic fin = Topic st).
Proof.
  cbv zeta. set (init := newSession filePath projectPath).
  split; [|split].
  - intros H. destruct (scanLoop_app pre post 0 init) as [-> | ->];
      [reflexivity|]. now apply scanLoop_StartTime.
  - destruct (pre ++ post)%list as [|l1 rest]; [reflexivity|].
    cbn [tl scanLoop]. change (0 + 1)%Z with 1%Z.
    assert (H1 : exists info1,
               body 1 l1 init = (info1, Continue) /\
               Time.IsZero (StartTime info1) = true).
    { unfold body. cbn [Z.eqb Pos.eqb].
      case_if; eexists; (split; [reflexivity|reflexivity]). }
    destruct H1 as (info1 & -> & Hz).
    now apply scanLoop_firstQualifying.
  - intros H. destruct (scanLoop_app pre post 0 init) as [-> | ->];
      [auto|]. now apply scanLoop_beacon_fixed.
Qed.


Lemma userEntry_beaconInv (entry : entryLine) (info : SessionInfo) :
  beaconInv info -> beaconInv (userEntry entry info).
Proof.
  unfold beaconInv, userEntry. intros H.
  set (i1 := if negb (el_Timestamp entry =? "") && Time.IsZero (StartTime info)
             then _ else _).
  set (i2 := if (ID i1 =? "") && negb (el_SessionID entry =? "") then _ else _).
  assert (H2 : IsGasTown i2 = IsGasTown info /\ Role i2 = Role info
               /\ Topic i2 = Topic info).
  { subst i2 i1. case_if; cbn; auto. }
  destruct H2 as (Hg & Hr & Ht).
  destruct (IsGasTown i2) eqn:E; cbn [negb].
  - congruence.
  - destruct (gasTownPattern_FindStringSubmatch _); cbn.
    + discriminate.
    + intros _. rewrite Hr, Ht. apply H. congruence.
Qed.

Lemma body_beaconInv (lineNum : Z) (line : string) (info : SessionInfo) :
  beaconInv info -> beaconInv (fst (body lineNum line info)).
Proof.
  intros H. unfold body.
  case_if; cbn [fst]; auto; now apply userEntry_beaconInv.
Qed.

Lemma scanLoop_beaconInv (lines : list string) :
  forall lineNum info,
    beaconInv info -> beaconInv (fst (scanLoop lines lineNum info)).
Proof.
  induction lines as [|line lines IH]; intros lineNum info H; [exact H|].
  cbn [scanLoop].
  pose proof (body_beaconInv (lineNum + 1) line info H) as Hb.
  destruct (body (lineNum + 1) line info) as [info' []]; cbn [fst] in *; auto.
Qed.

(** C10. In every descriptor [parseSession] returns, a role or a topic
    that is not empty comes with the beacon flag: without the flag both
    are empty. *)
Theorem role_topic_imply_beacon
        (w : World) (filePath projectPath : string) (info : SessionInfo) :
  fst (parseSession w filePath projectPath) = Ok info ->
  (Role info <> "" \/ Topic info <> "" -> IsGasTown info = true)
  /\ (IsGasTown info = false -> Role info = "" /\ Topic info = "").
Proof.
  unfold parseSession.
  destruct (os_Open w filePath) as [data|e]; cbn [fst]; [|discriminate].
  intros H. injection H as <-.
  assert (Hinv : beaconInv (fst (scanLoop (sessionLines data) 0
                                          (newSession filePath projectPath)))).
  { apply scanLoop_beaconInv. intros _. now cbn. }
  split; [|exact Hinv].
  intros Hne. destruct (IsGasTown _) eqn:E; [reflexivity|].
  destruct (Hinv E) as [Hr Ht]. destruct Hne; congruence.
Qed.

Lemma userEntry_set_Summary (entry : entryLine) (s : string) (info : SessionInfo) :
  userEntry entry (set_Summary s info) = set_Summary s (userEntry entry info).
Proof.
  destruct info as [id path role topic start summary gt file].
  unfold userEntry.
  repeat (cbv beta iota zeta delta
              [set_StartTime set_ID set_Summary set_beacon
               ID Path Role Topic StartTime Summary IsGasTown FilePath];
          match goal with
          | |- context [if ?b then _ else _] => destruct b eqn:?
          | |- context [match ?x with Some _ => _ | None => _ end] =>
            destruct x eqn:?
          end);
    first [reflexivity|congruence].
Qed.

Lemma body_set_Summary (lineNum : Z) (line s : string) (info : SessionInfo) :
  lineNum <> 1%Z ->
  body lineNum line (set_Summary s info)
  = (set_Summary s (fst (body lineNum line info)), snd (body lineNum line info)).
Proof.
  intros H. unfold body. apply Z.eqb_neq in H. rewrite H.
  destruct (json_Unmarshal_entryLine line) as [entry|]; [|reflexivity].
  destruct (el_Type entry =? "user").
  - rewrite userEntry_set_Summary. cbn [set_Summary IsGasTown StartTime].
    case_if; reflexivity.
  - cbn [set_Summary IsGasTown StartTime]. case_if; reflexivity.
Qed.

Lemma scanLoop_set_Summary (lines : list string) (s : string) :
  forall lineNum info,
    (1 <= lineNum)%Z ->
    scanLoop lines lineNum (set_Summary s info)
    = (set_Summary s (fst (scanLoop lines lineNum info)),
       snd (scanLoop lines lineNum info)).
Proof.
  induction lines as [|line lines IH]; intros lineNum info H; [reflexivity|].
  cbn [scanLoop]. rewrite body_set_Summary by lia.
  destruct (body (lineNum + 1) line info) as [info' []]; cbn [fst snd].
  - apply IH. lia.
  - reflexivity.
Qed.


(** C9. The first line of a file is never looked at as a user record:
    whatever it holds, the start time, the id, the beacon flag, the role
    and the topic are those the lines after it give, and the same number
    of lines is read; the first line gives the summary and nothing else,
    and it gives it only when it decodes as a summary record. *)
Theorem first_line_only_summary
        (filePath projectPath line1 : string) (rest : list string) :
  let init := newSession filePath projectPath in
  let r := scanLoop (line1 :: rest) 0 init in
  let others := scanLoop rest 1 init in
  fst r = set_Summary (firstLineSummary line1) (fst others)
  /\ StartTime (fst r) = StartTime (fst others)
  /\ ID (fst r) = ID (fst others)
  /\ IsGasTown (fst r) = IsGasTown (fst others)
  /\ Role (fst r) = Role (fst others)
  /\ Topic (fst r) = Topic (fst others)
  /\ Summary (fst r) = firstLineSummary line1
  /\ snd r = snd others.
Proof.
  cbv zeta. set (init := newSession filePath projectPath).
  assert (H : scanLoop (line1 :: rest) 0 init
              = (set_Summary (firstLineSummary line1) (fst (scanLoop rest 1 init)),
                 snd (scanLoop rest 1 init))).
  { cbn [scanLoop]. change (0 + 1)%Z with 1%Z.
    unfold body, firstLineSummary. cbn [Z.eqb Pos.eqb].
    destruct (json_Unmarshal_summaryLine line1) as [entry|].
    - destruct (sl_Type entry =? "summary").
      + apply scanLoop_set_Summary. lia.
      + change init with (set_Summary "" init) at 1.
        apply scanLoop_set_Summary. lia.
    - change init with (set_Summary "" init) at 1.
      apply scanLoop_set_Summary. lia. }
  rewrite H. cbn [fst snd]. repeat split.
Qed.

End ScanFacts.

(* ================================================================== *)
(** ** The walk over the storage root *)

Section DiscoverFacts.

Context {L : Library}.

Lemma walkFiles_events (filter : SessionFilter) (w : World)
      (projectDir projectPath : string) (sessionFiles : list DirEntry) :
  snd (walkFiles filter w projectDir projectPath sessionFiles)
  = openEvents projectDir sessionFiles.
Proof.
  unfold openEvents.
  induction sessionFiles as [|sf rest IH]; [reflexivity|].
  cbn [walkFiles List.filter]. unfold isSessionFile at 1.
  destruct (Strings.HasSuffix (Name sf) ".jsonl"); cbn [negb andb]; [|exact IH].
  destruct (Strings.HasPrefix (Name sf) "agent-"); cbn [negb]; [exact IH|].
  unfold parseSession.
  destruct (os_Open w (filepath_Join projectDir (Name sf))); cbn [map].
  - destruct (keepSession filter _); cbn [snd app]; now rewrite IH.
  - cbn [snd app]. now rewrite IH.
Qed.

Lemma keepProject_rig (filter : SessionFilter) (projectPath : string) :
  Rig filter <> "" ->
  keepProject filter projectPath = rigAndPathMatch filter projectPath.
Proof.
  intros H. unfold keepProject, rigAndPathMatch.
  destruct (Rig filter =? "") eqn:E; [apply String.eqb_eq in E; contradiction|].
  cbn [negb andb].
  destruct (Strings.Contains projectPath ("/" ++ Rig filter ++ "/")); cbn; [|reflexivity].
  destruct (FilterPath filter =? ""); cbn; [reflexivity|].
  now destruct (Strings.Contains projectPath (FilterPath filter)).
Qed.

Lemma walkProjects_events (filter : SessionFilter) (w : World)
      (projectsDir : string) (entries : list DirEntry) :
  snd (walkProjects filter w projectsDir entries)
  = flat_map (fun entry => snd (walkProject filter w projectsDir entry)) entries.
Proof.
  induction entries as [|entry rest IH]; [reflexivity|].
  cbn [walkProjects snd flat_map]. now rewrite IH.
Qed.

(** The file-system calls of a run whose storage root can be read:
    those of the turns of the loop over its entries, in order. *)
Lemma DiscoverSessions_events (filter : SessionFilter) (w : World)
      (entries : list DirEntry) :
  os_IsNotExist (os_Stat w (projectsDirOf w)) = false ->
  os_ReadDir w (projectsDirOf w) = Ok entries ->
  snd (DiscoverSessions filter w)
  = EvStat (projectsDirOf w) :: EvReadDir (projectsDirOf w)
      :: flat_map (fun entry => snd (walkProject filter w (projectsDirOf w) entry))
                  entries.
Proof.
  intros Hs Hr. unfold DiscoverSessions. rewrite Hs, Hr. cbn [snd].
  now rewrite walkProjects_events.
Qed.

(** C2 (as amended). With a rig in the filter, the files of a project
    directory are opened exactly when the decoded project path contains
    the rig name between two slashes (and passes the path filter); the
    test comes before the directory is read. *)
Theorem rig_filter_is_path_segment
        (filter : SessionFilter) (w : World) (projectsDir : string)
        (entry : DirEntry) :
  IsDir entry = true ->
  Rig filter <> "" ->
  let projectPath := decodePath (Name entry) in
  let projectDir := filepath_Join projectsDir (Name entry) in
  (rigAndPathMatch filter projectPath = false ->
   walkProject filter w projectsDir entry = ([], []))
  /\ (forall sessionFiles,
         rigAndPathMatch filter projectPath = true ->
         os_ReadDir w projectDir = Ok sessionFiles ->
         snd (walkProject filter w projectsDir entry)
         = EvReadDir projectDir :: openEvents projectDir sessionFiles)
  /\ (forall sessionFiles sf,
         os_ReadDir w projectDir = Ok sessionFiles ->
         In sf sessionFiles -> isSessionFile sf = true ->
         (In (EvOpen (filepath_Join projectDir (Name sf)))
             (snd (walkProject filter w projectsDir entry))
          <-> rigAndPathMatch filter projectPath = true))
  /\ (forall entries,
         os_IsNotExist (os_Stat w (projectsDirOf w)) = false ->
         os_ReadDir w (projectsDirOf w) = Ok entries ->
         snd (DiscoverSessions filter w)
         = EvStat (projectsDirOf w) :: EvReadDir (projectsDirOf w)
             :: flat_map
                  (fun e => snd (walkProject filter w (projectsDirOf w) e))
                  entries).
Proof.
  intros Hd Hr. cbv zeta.
  assert (Hrun := DiscoverSessions_events filter w).
  unfold walkProject at 1 2 3. rewrite Hd. cbn [negb].
  rewrite (keepProject_rig _ _ Hr).
  destruct (rigAndPathMatch filter (decodePath (Name entry))) eqn:E; cbn [negb].
  - split; [discriminate|]. split; [|split; [|exact Hrun]].
    + intros files _ ->. cbn [snd]. now rewrite walkFiles_events.
    + intros files sf -> Hin Hs. cbn [snd]. rewrite walkFiles_events.
      split; [reflexivity|]. intros _. right. unfold openEvents.
      apply (in_map (fun sf0 => EvOpen (filepath_Join _ (Name sf0)))).
      apply filter_In. now split.
  - split; [reflexivity|]. split; [discriminate|]. split; [|exact Hrun].
    intros files sf _ _ _. cbn. split; [contradiction|discriminate].
Qed.

Lemma walkProjects_app (filter : SessionFilter) (w : World) (projectsDir : string)
      (a b : list DirEntry) :
  walkProjects filter w projectsDir (a ++ b)
  = (fst (walkProjects filter w projectsDir a)
       ++ fst (walkProjects filter w projectsDir b),
     snd (walkProjects filter w projectsDir a)
       ++ snd (walkProjects filter w projectsDir b))%list.
Proof.
  induction a as [|e a IH]; cbn [app walkProjects fst snd].
  - now destruct (walkProjects filter w projectsDir b).
  - rewrite IH. cbn [fst snd]. now rewrite !app_assoc.
Qed.

Lemma walkFiles_app (filter : SessionFilter) (w : World)
      (projectDir projectPath : string) (a b : list DirEntry) :
  fst (walkFiles filter w projectDir projectPath (a ++ b))
  = (fst (walkFiles filter w projectDir projectPath a)
       ++ fst (walkFiles filter w projectDir projectPath b))%list.
Proof.
  induction a as [|sf a IH]; cbn [app walkFiles]; [reflexivity|].
  destruct (negb (Strings.HasSuffix (Name sf) ".jsonl")); [exact IH|].
  destruct (Strings.HasPrefix (Name sf) "agent-"); [exact IH|].
  destruct (parseSession w _ projectPath) as [[info|e] evs]; cbn [fst].
  - destruct (keepSession filter info); cbn [fst app]; now rewrite IH.
  - exact IH.
Qed.

(** C8. A storage root that does not exist gives no sessions and no
    error; the error of the call is the error of reading the storage root
    and nothing else; a project directory that cannot be read and a file
    that cannot be opened are passed over, and the walk goes on with the
    entries after them. *)
Theorem discover_error_taxonomy (filter : SessionFilter) (w : World) :
  let projectsDir := projectsDirOf w in
  (os_Stat w projectsDir = Some ErrNotExist ->
   DiscoverSessions filter w = ([], None, [EvStat projectsDir]))
  /\ (forall err,
         snd (fst (DiscoverSessions filter w)) = Some err <->
         os_IsNotExist (os_Stat w projectsDir) = false /\
         os_ReadDir w projectsDir = Err err)
  /\ (forall pre entry post err,
         os_ReadDir w (filepath_Join projectsDir (Name entry)) = Err err ->
         fst (walkProject filter w projectsDir entry) = [] /\
         walkProjects filter w projectsDir (pre ++ entry :: post)
         = (fst (walkProjects filter w projectsDir pre)
              ++ fst (walkProjects filter w projectsDir post),
            snd (walkProjects filter w projectsDir pre)
              ++ snd (walkProject filter w projectsDir entry)
              ++ snd (walkProjects filter w projectsDir post))%list)
  /\ (forall projectDir projectPath pre sf post err,
         os_Open w (filepath_Join projectDir (Name sf)) = Err err ->
         fst (walkFiles filter w projectDir projectPath (pre ++ sf :: post))
         = (fst (walkFiles filter w projectDir projectPath pre)
              ++ fst (walkFiles filter w projectDir projectPath post))%list /\
         snd (walkFiles filter w projectDir projectPath (pre ++ sf :: post))
         = openEvents projectDir (pre ++ sf :: post)).
Proof.
  cbv zeta. split; [|split; [|split]].
  - intros H. unfold DiscoverSessions. now rewrite H.
  - intros err. unfold DiscoverSessions.
    destruct (os_IsNotExist (os_Stat w (projectsDirOf w))); cbn [fst snd].
    + split; [discriminate|]. now intros [? _].
    + destruct (os_ReadDir w (projectsDirOf w)) as [entries|e]; cbn [fst snd].
      * split; [discriminate|]. now intros [_ ?].
      * split; [intros H; injection H as ->; auto|].
        intros [_ H]. now injection H as ->.
  - intros pre entry post err H.
    assert (Hw : fst (walkProject filter w (projectsDirOf w) entry) = []).
    { unfold walkProject. destruct (negb (IsDir entry)); [reflexivity|].
      destruct (negb (keepProject filter _)); [reflexivity|].
      now rewrite H. }
    split; [exact Hw|].
    rewrite walkProjects_app. cbn [walkProjects fst snd]. now rewrite Hw.
  - intros projectDir projectPath pre sf post err H. split.
    + rewrite walkFiles_app. f_equal. cbn [walkFiles].
      destruct (negb (Strings.HasSuffix (Name sf) ".jsonl")); [reflexivity|].
      destruct (Strings.HasPrefix (Name sf) "agent-"); [reflexivity|].
      unfold parseSession. now rewrite H.
    + apply walkFiles_events.
Qed.

End DiscoverFacts.

(* ================================================================== *)
(** ** Sorting and filtering *)

Section SortFacts.

Context {L : Library}.








Lemma isSortedDesc_Sorted (l : list SessionInfo) :
  isSortedDesc l = true ->
  Sorted (fun a b => byStartTimeDesc b a = false) l.
Proof.
  induction l as [|a l IH]; [constructor|].
  destruct l as [|b l]; [repeat constructor|].
  cbn [isSortedDesc]. intros H. apply andb_true_iff in H as [Hab Hl].
  constructor; [now apply IH|].
  constructor. now apply negb_true_iff.
Qed.


Lemma notAfter_trans (t u v : Time.Time) :
  Time.After u t = false -> Time.After v u = false -> Time.After v t = false.
Proof.
  unfold Time.After. destruct t as [s1 n1], u as [s2 n2], v as [s3 n3]; cbn.
  intros H1 H2.
  apply orb_false_iff in H1 as [H1 H1'], H2 as [H2 H2'].
  apply orb_false_iff.
  rewrite andb_false_iff in *. rewrite !Z.eqb_neq in *.
  rewrite Z.gtb_ltb, Z.ltb_ge in H1, H2.
  rewrite !Z.gtb_ltb, !Z.ltb_ge in *.
  lia.
Qed.




End SortFacts.

(* ================================================================== *)
(** ** The theorems on the example files *)

(** The matcher on a message with spaces around the topic, a message
    without the tag, and a user record that carries the beacon. *)
Lemma beacon_matcher_witness :
  (Strings.Contains "Regular message without beacon" "[GAS TOWN]" = false /\
   matchBeacon "Regular message without beacon" = None)
  /\ (matchBeacon "[GAS TOWN] witness •   hand off   • 2025-12-30T15:42"
      = Some ("witness", "hand off") /\
      noOuterSpace "hand off")
  /\ (IsGasTown (newSession (L:=goLibrary) "/x/a.jsonl" "/p") = false /\
      IsGasTown (userEntry (L:=goLibrary)
                   (mkEntryLine "user" "" "" (js "'[GAS TOWN] witness • handoff'"))
                   (newSession (L:=goLibrary) "/x/a.jsonl" "/p")) = true).
Proof.
  destruct beacon_matcher as (_ & _ & _ & Hnone & _ & _ & Htrim & Huser).
  split; [split; [reflexivity|apply Hnone; reflexivity]|].
  split; [split; [vm_compute; reflexivity|]|].
  - apply (Htrim "[GAS TOWN] witness •   hand off   • 2025-12-30T15:42" "witness").
    vm_compute. reflexivity.
  - split; [reflexivity|].
    pose proof (Huser goLibrary
                  (mkEntryLine "user" "" "" (js "'[GAS TOWN] witness • handoff'"))
                  (newSession (L:=goLibrary) "/x/a.jsonl" "/p") eq_refl) as H.
    vm_compute in H. vm_compute. exact (proj1 H).
Defined.

(** A string payload, an object payload and an array payload. *)
Lemma extractMessageContent_order_witness :
  extractMessageContent (L:=goLibrary) (js "'hello'") = "hello"
  /\ extractMessageContent (L:=goLibrary) (js "{'role':'user','content':'hi'}") = "hi"
  /\ extractMessageContent (L:=goLibrary) (js "[1,2]") = "".
Proof.
  split; [|split].
  - apply (proj1 (proj2 (extractMessageContent_order (L:=goLibrary) (js "'hello'")))).
    + vm_compute. discriminate.
    + vm_compute. reflexivity.
  - apply (proj1 (proj2 (proj2 (extractMessageContent_order
                                  (L:=goLibrary)
                                  (js "{'role':'user','content':'hi'}"))))
             ltac:(vm_compute; discriminate) ltac:(vm_compute; reflexivity)
             (mkMessageObj "hi" "user")).
    vm_compute. reflexivity.
  - apply (proj2 (proj2 (proj2 (extractMessageContent_order
                                  (L:=goLibrary) (js "[1,2]"))))).
    + vm_compute. discriminate.
    + vm_compute. reflexivity.
    + vm_compute. reflexivity.
Defined.

(** A file whose second line sets the start time and carries the beacon,
    followed by a user record with another timestamp and another beacon. *)
Lemma startTime_first_wins_beacon_monotonic_witness :
  let pre := [summaryText; beaconText] in
  let post := [assistantText; laterUserText] in
  let fin := fst (scanLoop (L:=goLibrary) (pre ++ post) 0
                           (newSession (L:=goLibrary) "/x/d6d8475f.jsonl" "/p")) in
  StartTime fin = Time.mkTime 63902706120 0
  /\ IsGasTown fin = true
  /\ Role fin = "gastown/crew/gus"
  /\ Topic fin = "assigned:gt-abc12".
Proof.
  cbv zeta.
  destruct (startTime_first_wins_beacon_monotonic
              (L:=goLibrary) "/x/d6d8475f.jsonl" "/p"
              [summaryText; beaconText] [assistantText; laterUserText])
    as (Hstart & _ & Hbeacon).
  split.
  - rewrite Hstart; vm_compute; reflexivity.
  - destruct Hbeacon as (Hg & Hr & Ht); [vm_compute; reflexivity|].
    rewrite Hg, Hr, Ht. vm_compute. auto.
Defined.

(** The descriptor of the session with the beacon. *)
Lemma role_topic_imply_beacon_witness :
  exists info,
    fst (parseSession (L:=goLibrary) exampleWorld
           (homeProjects ++ "/-Users-stevey-gt-gastown/d6d8475f.jsonl")
           "/Users/stevey/gt/gastown") = Ok info
    /\ Role info = "gastown/crew/gus"
    /\ IsGasTown info = true.
Proof.
  eexists. split; [vm_compute; reflexivity|]. split; [reflexivity|].
  apply (proj1 (role_topic_imply_beacon
                  (L:=goLibrary) exampleWorld
                  (homeProjects ++ "/-Users-stevey-gt-gastown/d6d8475f.jsonl")
                  "/Users/stevey/gt/gastown" _ ltac:(vm_compute; reflexivity))).
  left. discriminate.
Defined.

(** A file of 30 lines without a beacon is read to its last line. *)
Lemma early_exit_after_line_20_witness :
  IsGasTown (fst (scanLoop (L:=goLibrary) (sessionLines plainFile) 0
                    (newSession (L:=goLibrary) "/x/a.jsonl" "/p"))) = false
  /\ linesRead (L:=goLibrary) "/x/a.jsonl" "/p" plainFile
     = Z.of_nat (List.length (sessionLines plainFile)).
Proof.
  split; [vm_compute; reflexivity|].
  apply (proj2 (proj2 (early_exit_after_line_20
                         (L:=goLibrary) "/x/a.jsonl" "/p" plainFile))).
  vm_compute. reflexivity.
Defined.

(** C1, the counterexample. A file of 21 lines with the beacon and the
    start time on line 2: after 20 lines both signals are there, and line
    21 is read all the same. *)
Lemma early_exit_at_20_counterexample :
  ~ earlyExitAsSpecified (L:=goLibrary) "/x/d6d8475f.jsonl" "/p" (beaconFile 21).
Proof.
  unfold earlyExitAsSpecified. intros [_ H].
  assert (Hlt : (linesRead (L:=goLibrary) "/x/d6d8475f.jsonl" "/p" (beaconFile 21)
                 < Z.of_nat (List.length (sessionLines (beaconFile 21))))%Z).
  { apply H. exists 20%nat. split; [vm_compute; lia|vm_compute; reflexivity]. }
  vm_compute in Hlt. discriminate.
Qed.

(** With a rig filter, the crew directory under the rig passes and its
    session file is opened. *)
Lemma rig_filter_is_path_segment_witness :
  IsDir crewEntry = true /\ Rig gastownRig <> ""
  /\ snd (walkProject (L:=goLibrary) gastownRig exampleWorld homeProjects crewEntry)
     = [EvReadDir (homeProjects ++ "/-Users-stevey-gt-gastown-crew-joe");
        EvOpen (homeProjects ++ "/-Users-stevey-gt-gastown-crew-joe/d6d8475f.jsonl")].
Proof.
  split; [reflexivity|]. split; [discriminate|].
  rewrite (proj1 (proj2 (rig_filter_is_path_segment
                           (L:=goLibrary) gastownRig exampleWorld homeProjects
                           crewEntry eq_refl ltac:(discriminate)))
             [sessionEntry]);
    vm_compute; reflexivity.
Defined.

(** C2, the counterexample. The project at the root of the rig: its
    decoded path contains the rig name, and its session file is not
    opened. *)
Lemma rig_filter_substring_counterexample :
  ~ rigFilterAsSpecified (L:=goLibrary) gastownRig exampleWorld homeProjects
      rigRootEntry sessionEntry.
Proof.
  unfold rigFilterAsSpecified. intros [_ H].
  assert (Hin : In (EvOpen (@filepath_Join goLibrary
                              (@filepath_Join goLibrary homeProjects
                                             (Name rigRootEntry))
                              (Name sessionEntry)))
                   (snd (walkProject (L:=goLibrary) gastownRig exampleWorld
                                     homeProjects rigRootEntry))).
  { apply H. split; [vm_compute; reflexivity|left; reflexivity]. }
  vm_compute in Hin. exact Hin.
Qed.

(** A fresh installation. *)
Lemma discover_error_taxonomy_witness :
  os_Stat freshWorld (projectsDirOf (L:=goLibrary) freshWorld) = Some ErrNotExist
  /\ DiscoverSessions (L:=goLibrary) crewRole freshWorld
     = ([], None, [EvStat homeProjects]).
Proof.
  split; [reflexivity|].
  rewrite (proj1 (discover_error_taxonomy (L:=goLibrary) crewRole freshWorld)
             eq_refl).
  reflexivity.
Defined.





(** On a file of 30 lines with the beacon and the start time on line 2,
    line 21 is the last line read. *)
Example early_exit_reads_21_lines :
  linesRead (L:=goLibrary) "/x/d6d8475f.jsonl" "/p" (beaconFile 30) = 21%Z.
Proof. vm_compute. reflexivity. Qed.

(** A timestamp that parses to the zero instant leaves the start time
    unset: the next user record with a timestamp sets it. *)
Example zero_instant_does_not_set_start_time :
  StartTime (fst (scanLoop (L:=goLibrary)
                    [summaryText; zeroTimeUserText; laterUserText] 0
                    (newSession (L:=goLibrary) "/x/a.jsonl" "/p")))
  = Time.mkTime 63902764800 0.
Proof. vm_compute. reflexivity. Qed.

(* ================================================================== *)
(** ** More on the path codec *)

Lemma replace_dash_mapBytes (s : string) :
  Strings.replaceFrom 0 s "-" "/" = mapBytes dashToSlash s.
Proof.
  induction s as [|c s IH]; [reflexivity|].
  cbn [Strings.replaceFrom Strings.HasPrefix mapBytes].
  rewrite andb_true_r. unfold dashToSlash at 1.
  destruct (Ascii.eqb c "-"); cbn [String.length Nat.sub append];
    now rewrite IH.
Qed.

Lemma mapBytes_length (f : ascii -> ascii) (s : string) :
  String.length (mapBytes f s) = String.length s.
Proof. induction s; cbn; congruence. Qed.

Lemma mapBytes_app (f : ascii -> ascii) (a b : string) :
  mapBytes f (a ++ b) = mapBytes f a ++ mapBytes f b.
Proof. induction a; cbn; congruence. Qed.

(** [decodePath] maps the bytes of the name one by one. *)
Lemma decodePath_mapBytes (encoded : string) :
  decodePath encoded = mapBytes dashToSlash encoded.
Proof.
  unfold decodePath, Strings.ReplaceAll.
  destruct encoded as [|c rest]; [reflexivity|].
  cbn [Strings.HasPrefix]. destruct (Ascii.eqb c "-") eqn:E; cbn [andb Strings.drop].
  - apply Ascii.eqb_eq in E. subst c.
    change ("/" ++ rest) with (String "/" rest).
    now rewrite !replace_dash_mapBytes.
  - apply replace_dash_mapBytes.
Qed.

Lemma decodePath_no_dash (encoded : string) :
  Strings.Contains (decodePath encoded) "-" = false.
Proof.
  rewrite decodePath_mapBytes, <- replace_dash_mapBytes.
  apply replace_dash_no_dash.
Qed.

(** X1. Whatever the directory name, [decodePath] gives a path of the
    same length without any dash, and decodes a decoded path to itself; a
    name without a dash is its own decoding. *)
Theorem decodePath_bytewise (encoded : string) :
  String.length (decodePath encoded) = String.length encoded
  /\ Strings.Contains (decodePath encoded) "-" = false
  /\ decodePath (decodePath encoded) = decodePath encoded
  /\ (Strings.Contains encoded "-" = false -> decodePath encoded = encoded).
Proof.
  split; [rewrite decodePath_mapBytes; apply mapBytes_length|].
  split; [apply decodePath_no_dash|].
  rewrite !decodePath_mapBytes.
  split.
  - induction encoded as [|c s IH]; [reflexivity|].
    cbn [mapBytes]. rewrite IH. f_equal. unfold dashToSlash.
    destruct (Ascii.eqb c "-") eqn:E; [reflexivity|now rewrite E].
  - induction encoded as [|c s IH]; [reflexivity|].
    cbn [mapBytes Strings.Contains Strings.HasPrefix]. intros H.
    apply orb_false_iff in H as [Hc Hs].
    rewrite andb_true_r in Hc. rewrite (IH Hs).
    unfold dashToSlash. now rewrite Hc.
Qed.

Lemma decodePath_bytewise_witness :
  Strings.Contains "foo.bar" "-" = false /\ decodePath "foo.bar" = "foo.bar".
Proof.
  split; [reflexivity|].
  apply (proj2 (proj2 (proj2 (decodePath_bytewise "foo.bar")))). reflexivity.
Defined.

(** X2. The decoding cannot tell a dash from a slash: two names that
    differ in one place, a dash in the one and a slash in the other, decode
    to the same path, so a directory whose name has a dash in it is not
    decoded to its own path. *)
Theorem decodePath_dash_is_slash (a b : string) :
  decodePath (a ++ "-" ++ b) = decodePath (a ++ "/" ++ b)
  /\ decodePath (a ++ "-" ++ b) <> a ++ "-" ++ b.
Proof.
  rewrite !decodePath_mapBytes, !mapBytes_app. split; [reflexivity|].
  intros H.
  assert (Hc : Strings.Contains (mapBytes dashToSlash a
                                   ++ mapBytes dashToSlash "-"
                                   ++ mapBytes dashToSlash b) "-" = false).
  { rewrite <- !mapBytes_app, <- decodePath_mapBytes.
    apply decodePath_no_dash. }
  rewrite H in Hc.
  rewrite Contains_app_r in Hc; [discriminate|].
  apply Contains_HasPrefix. reflexivity.
Qed.

(* ================================================================== *)
(** ** ShortID *)

Lemma take_length (n : nat) (s : string) :
  String.length (Strings.take n s) = Nat.min n (String.length s).
Proof.
  revert s. induction n as [|n IH]; intros [|c s]; cbn; rewrite ?IH; auto.
Qed.

Lemma take_prefix (n : nat) (s : string) :
  Strings.HasPrefix s (Strings.take n s) = true.
Proof.
  revert s. induction n as [|n IH]; intros [|c s]; cbn; auto.
  now rewrite Ascii.eqb_refl, IH.
Qed.

Lemma HasPrefix_refl (s : string) : Strings.HasPrefix s s = true.
Proof. induction s; cbn; [reflexivity|]. now rewrite Ascii.eqb_refl. Qed.

(** X3. The short id is the start of the id, never longer than 8 bytes,
    and the id itself exactly when the id has at most 8 bytes. *)
Theorem ShortID_prefix (s : SessionInfo) :
  Strings.HasPrefix (ID s) (ShortID s) = true
  /\ String.length (ShortID s) = Nat.min 8 (String.length (ID s))
  /\ (ShortID s = ID s <-> (String.length (ID s) <= 8)%nat).
Proof.
  unfold ShortID.
  destruct (8 <? String.length (ID s))%nat eqn:E.
  - apply Nat.ltb_lt in E.
    split; [apply take_prefix|]. split; [apply take_length|].
    split; [|lia]. intros H. apply (f_equal String.length) in H.
    rewrite take_length in H. lia.
  - apply Nat.ltb_ge in E.
    split; [apply HasPrefix_refl|]. split; [lia|]. tauto.
Qed.

(* ================================================================== *)
(** ** Splitting a path at its slashes *)

Lemma splitFrom_nonempty (s : string) : StringsSplit.splitFrom 0 s "/" <> [].
Proof.
  destruct s as [|c s]; cbn [StringsSplit.splitFrom Strings.HasPrefix];
    [discriminate|].
  destruct (Ascii.eqb c "/" && true); [discriminate|].
  destruct (StringsSplit.splitFrom 0 s "/"); discriminate.
Qed.

Lemma split_cons (c : ascii) (s : string) :
  StringsSplit.Split (String c s) "/" =
  if Ascii.eqb c "/" then "" :: StringsSplit.Split s "/"
  else match StringsSplit.Split s "/" with
       | field :: fields => String c field :: fields
       | [] => [String c ""]
       end.
Proof.
  unfold StringsSplit.Split.
  cbn [StringsSplit.splitFrom Strings.HasPrefix String.length Nat.sub].
  now rewrite andb_true_r.
Qed.

Lemma split_nonempty (s : string) : StringsSplit.Split s "/" <> [].
Proof. apply splitFrom_nonempty. Qed.

(** The parts of two paths joined by a slash are the parts of the one
    followed by the parts of the other. *)
Lemma split_app (a b : string) :
  StringsSplit.Split (a ++ "/" ++ b) "/"
  = (StringsSplit.Split a "/" ++ StringsSplit.Split b "/")%list.
Proof.
  induction a as [|c a IH].
  - change ("" ++ "/" ++ b) with (String "/" b). now rewrite split_cons.
  - change (String c a ++ "/" ++ b) with (String c (a ++ "/" ++ b)).
    rewrite !split_cons, IH.
    destruct (Ascii.eqb c "/"); [reflexivity|].
    pose proof (split_nonempty a) as Hne.
    destruct (StringsSplit.Split a "/"); [contradiction|reflexivity].
Qed.

(** A text without a slash is one part. *)
Lemma split_one (s : string) :
  Strings.Contains s "/" = false -> StringsSplit.Split s "/" = [s].
Proof.
  induction s as [|c s IH]; [reflexivity|].
  cbn [Strings.Contains Strings.HasPrefix]. rewrite andb_true_r.
  intros H. apply orb_false_iff in H as [Hc Hs].
  now rewrite split_cons, Hc, (IH Hs).
Qed.

(** No part has a slash in it. *)
Lemma split_parts_no_slash (s : string) :
  Forall (fun part => Strings.Contains part "/" = false)
         (StringsSplit.Split s "/").
Proof.
  induction s as [|c s IH]; [repeat constructor|].
  rewrite split_cons. destruct (Ascii.eqb c "/") eqn:E.
  - constructor; [reflexivity|exact IH].
  - destruct (StringsSplit.Split s "/") as [|field fields];
      [repeat constructor; cbn; now rewrite E|].
    inversion IH as [|? ? Hf Hfs]; subst.
    constructor; [|exact Hfs].
    cbn [Strings.Contains Strings.HasPrefix]. now rewrite E, Hf.
Qed.

(* ================================================================== *)
(** ** RigFromPath *)

Lemma rigAmong_in (parts : list string) :
  rigAmong parts = "" \/ In (rigAmong parts) parts.
Proof.
  induction parts as [|part rest IH]; [now left|].
  cbn [rigAmong]. destruct (part =? "gt").
  - destruct rest as [|next rest']; [now left|]. right. right. now left.
  - destruct IH as [IH|IH]; [now left|]. right. now right.
Qed.

Lemma rigAmong_found (before : list string) (rig : string) (after : list string) :
  ~ In "gt" before ->
  rigAmong (before ++ "gt" :: rig :: after) = rig.
Proof.
  induction before as [|part before IH]; intros H; [reflexivity|].
  cbn [app rigAmong].
  destruct (part =? "gt") eqn:E.
  - apply String.eqb_eq in E. subst part. exfalso. apply H. now left.
  - apply IH. intros Hin. apply H. now right.
Qed.

Lemma rigAmong_none (parts : list string) :
  ~ In "gt" parts -> rigAmong parts = "".
Proof.
  induction parts as [|part rest IH]; intros H; [reflexivity|].
  cbn [rigAmong]. destruct (part =? "gt") eqn:E.
  - apply String.eqb_eq in E. subst part. exfalso. apply H. now left.
  - apply IH. intros Hin. apply H. now right.
Qed.

Lemma append_assoc (a b c : string) : (a ++ b) ++ c = a ++ b ++ c.
Proof. induction a; cbn; congruence. Qed.

(** X4. The rig of a path is the part behind the first part [gt]: it
    never has a slash in it, it is empty for a path without a part [gt],
    and for a path that goes on below [gt/<rig>/] it is that rig, which is
    then also a rig the walk's rig filter finds in the path. *)
Theorem RigFromPath_first_gt (s : SessionInfo) :
  Strings.Contains (RigFromPath s) "/" = false
  /\ (~ In "gt" (StringsSplit.Split (Path s) "/") -> RigFromPath s = "")
  /\ (forall above rig,
         ~ In "gt" (StringsSplit.Split above "/") ->
         Strings.Contains rig "/" = false ->
         Path s = above ++ "/gt/" ++ rig ->
         RigFromPath s = rig)
  /\ (forall above rig below,
         ~ In "gt" (StringsSplit.Split above "/") ->
         Strings.Contains rig "/" = false ->
         Path s = above ++ "/gt/" ++ rig ++ "/" ++ below ->
         RigFromPath s = rig /\
         Strings.Contains (Path s) ("/" ++ rig ++ "/") = true).
Proof.
  unfold RigFromPath. split; [|split; [|split]].
  - destruct (rigAmong_in (StringsSplit.Split (Path s) "/")) as [-> | Hin];
      [reflexivity|].
    pose proof (split_parts_no_slash (Path s)) as Hall.
    rewrite Forall_forall in Hall. exact (Hall _ Hin).
  - apply rigAmong_none.
  - intros above rig Hgt Hrig ->.
    change (above ++ "/gt/" ++ rig) with (above ++ "/" ++ "gt" ++ "/" ++ rig).
    rewrite !split_app, (split_one rig Hrig).
    now apply rigAmong_found.
  - intros above rig below Hgt Hrig ->. split.
    + change (above ++ "/gt/" ++ rig ++ "/" ++ below)
        with (above ++ "/" ++ "gt" ++ "/" ++ rig ++ "/" ++ below).
      rewrite !split_app, (split_one rig Hrig).
      pose proof (split_nonempty below) as Hne.
      change (StringsSplit.Split "gt" "/") with ["gt"].
      cbn [app]. now apply rigAmong_found.
    + change (above ++ "/gt/" ++ rig ++ "/" ++ below)
        with (above ++ "/gt" ++ "/" ++ rig ++ "/" ++ below).
      apply Contains_app_r, (Contains_app_r "/gt"), Contains_HasPrefix.
      replace ("/" ++ rig ++ "/" ++ below)
        with (("/" ++ rig ++ "/") ++ below)
        by (cbn; now rewrite append_assoc).
      apply HasPrefix_app.
Qed.

(* ================================================================== *)
(** ** inferRoleFromPath *)

Lemma inferRoleLoop_plain (parts : list string) (after : option string) :
  Forall plainPart parts -> inferRoleLoop parts after = None.
Proof.
  revert after. induction parts as [|part parts IH]; intros after H;
    [reflexivity|].
  inversion H as [|? ? [Hs Hn] Hrest]; subst.
  cbn [inferRoleLoop]. rewrite Hs, Hn. now apply IH.
Qed.

Lemma last_app_one {A} (l : list A) (x d : A) : last (l ++ [x]) d = x.
Proof. apply last_last. Qed.

(** X5. The role inferred from a path: the last role name among its parts
    decides, a crew or polecats part taking the part behind it as the name
    of the agent; a path without a role name gives its last part; and the
    answer [unknown] is only ever the last part of the path itself. *)
Theorem inferRoleFromPath_last_role_wins (path : string) :
  (Forall plainPart (StringsSplit.Split path "/") ->
   inferRoleFromPath path = last (StringsSplit.Split path "/") "")
  /\ (forall above role,
         isSingleRole role = true ->
         path = above ++ "/" ++ role ->
         inferRoleFromPath path = role)
  /\ (forall above role name,
         isNamedRole role = true ->
         Strings.Contains name "/" = false -> plainPart name ->
         path = above ++ "/" ++ role ++ "/" ++ name ->
         inferRoleFromPath path = role ++ "/" ++ name)
  /\ (forall above role,
         isNamedRole role = true ->
         path = above ++ "/" ++ role ->
         inferRoleFromPath path = role)
  /\ (inferRoleFromPath path = "unknown" ->
      last (StringsSplit.Split path "/") "" = "unknown").
Proof.
  unfold inferRoleFromPath. cbv zeta.
  assert (Hsingle : forall role, isSingleRole role = true ->
                                 Strings.Contains role "/" = false).
  { intros role H. unfold isSingleRole in H.
    repeat (apply orb_true_iff in H as [H|H]);
      apply String.eqb_eq in H; subst; reflexivity. }
  assert (Hnamed : forall role, isNamedRole role = true ->
                                Strings.Contains role "/" = false).
  { intros role H. unfold isNamedRole in H.
    repeat (apply orb_true_iff in H as [H|H]);
      apply String.eqb_eq in H; subst; reflexivity. }
  split; [|split; [|split; [|split]]].
  - intros H. rewrite inferRoleLoop_plain.
    + pose proof (split_nonempty path).
      destruct (StringsSplit.Split path "/"); [contradiction|reflexivity].
    + apply Forall_rev. exact H.
  - intros above role Hr ->.
    rewrite split_app, (split_one role (Hsingle _ Hr)), rev_app_distr.
    cbn [rev app inferRoleLoop]. now rewrite Hr.
  - intros above role name Hr Hname [Hs Hn] ->.
    rewrite !split_app, (split_one role (Hnamed _ Hr)), (split_one name Hname).
    rewrite !rev_app_distr. cbn [rev app inferRoleLoop].
    rewrite Hs, Hn.
    assert (Hrs : isSingleRole role = false).
    { unfold isNamedRole in Hr. unfold isSingleRole.
      repeat (apply orb_true_iff in Hr as [Hr|Hr]);
        apply String.eqb_eq in Hr; subst; reflexivity. }
    now rewrite Hrs, Hr.
  - intros above role Hr ->.
    rewrite split_app, (split_one role (Hnamed _ Hr)), rev_app_distr.
    cbn [rev app inferRoleLoop].
    assert (Hrs : isSingleRole role = false).
    { unfold isNamedRole in Hr. unfold isSingleRole.
      repeat (apply orb_true_iff in Hr as [Hr|Hr]);
        apply String.eqb_eq in Hr; subst; reflexivity. }
    now rewrite Hrs, Hr.
  - pose proof (split_nonempty path) as Hne.
    assert (Hloop : forall parts after role,
               inferRoleLoop parts after = Some role -> role <> "unknown").
    { induction parts as [|part parts IH]; intros after role; cbn [inferRoleLoop];
        [discriminate|].
      destruct (isSingleRole part) eqn:Es.
      - intros H. injection H as <-. intros ->. discriminate.
      - destruct (isNamedRole part) eqn:En; [|apply IH].
        unfold isNamedRole in En.
        destruct after as [name|]; intros H; injection H as <-;
          repeat (apply orb_true_iff in En as [En|En]);
          apply String.eqb_eq in En; subst; discriminate. }
    destruct (inferRoleLoop (rev (StringsSplit.Split path "/")) None) as [role|] eqn:E.
    + intros ->. now apply Hloop in E.
    + destruct (StringsSplit.Split path "/"); [contradiction|auto].
Qed.

(* ================================================================== *)
(** ** parseSession: what the scan leaves alone *)

Section ScanMore.

Context {L : Library}.

Lemma userEntry_identity (entry : entryLine) (info : SessionInfo) :
  Path (userEntry entry info) = Path info
  /\ FilePath (userEntry entry info) = FilePath info
  /\ Summary (userEntry entry info) = Summary info
  /\ (ID info <> "" -> ID (userEntry entry info) = ID info).
Proof.
  unfold userEntry.
  set (i1 := if negb (el_Timestamp entry =? "") && Time.IsZero (StartTime info)
             then _ else _).
  assert (H1 : Path i1 = Path info /\ FilePath i1 = FilePath info
               /\ Summary i1 = Summary info /\ ID i1 = ID info).
  { subst i1.
    destruct (negb (el_Timestamp entry =? "") && Time.IsZero (StartTime info));
      [|auto].
    destruct (time_Parse Time.RFC3339 (el_Timestamp entry)); cbn; auto. }
  destruct H1 as (Hp1 & Hf1 & Hs1 & Hi1).
  set (i2 := if (ID i1 =? "") && negb (el_SessionID entry =? "") then _ else _).
  assert (H2 : Path i2 = Path info /\ FilePath i2 = FilePath info
               /\ Summary i2 = Summary info
               /\ (ID info <> "" -> ID i2 = ID info)).
  { subst i2. destruct (ID i1 =? "") eqn:E; cbn [andb].
    - apply String.eqb_eq in E.
      destruct (negb (el_SessionID entry =? "")); cbn;
        repeat split; auto; intros Hn; congruence.
    - repeat split; auto. }
  destruct H2 as (Hp2 & Hf2 & Hs2 & Hi2).
  destruct (negb (IsGasTown i2)); [|repeat split; auto].
  destruct (gasTownPattern_FindStringSubmatch _); cbn; repeat split; auto.
Qed.

Lemma body_identity (lineNum : Z) (line : string) (info : SessionInfo) :
  Path (fst (body lineNum line info)) = Path info
  /\ FilePath (fst (body lineNum line info)) = FilePath info
  /\ (ID info <> "" -> ID (fst (body lineNum line info)) = ID info)
  /\ (lineNum <> 1%Z -> Summary (fst (body lineNum line info)) = Summary info).
Proof.
  unfold body. destruct (lineNum =? 1)%Z eqn:E.
  - apply Z.eqb_eq in E.
    destruct (json_Unmarshal_summaryLine line) as [entry|]; cbn;
      [destruct (sl_Type entry =? "summary"); cbn|]; repeat split; auto;
      intros; contradiction.
  - destruct (json_Unmarshal_entryLine line) as [entry|]; cbn [fst];
      [|repeat split; auto].
    destruct (userEntry_identity entry info) as (Hp & Hf & Hs & Hi).
    destruct (el_Type entry =? "user");
      match goal with
      | |- context [if ?b then _ else _] => destruct b
      end; cbn [fst]; repeat split; auto.
Qed.

Lemma scanLoop_identity (lines : list string) :
  forall lineNum info,
    Path (fst (scanLoop lines lineNum info)) = Path info
    /\ FilePath (fst (scanLoop lines lineNum info)) = FilePath info
    /\ (ID info <> "" -> ID (fst (scanLoop lines lineNum info)) = ID info)
    /\ ((0 < lineNum)%Z ->
        Summary (fst (scanLoop lines lineNum info)) = Summary info).
Proof.
  induction lines as [|line lines IH]; intros lineNum info;
    [cbn; repeat split; auto|].
  cbn [scanLoop].
  destruct (body_identity (lineNum + 1) line info) as (Hp & Hf & Hi & Hs).
  destruct (body (lineNum + 1) line info) as [info' flow]. cbn [fst] in *.
  destruct flow.
  - destruct (IH (lineNum + 1)%Z info') as (Hp' & Hf' & Hi' & Hs').
    rewrite Hp', Hf'. repeat split; auto.
    + intros Hn. rewrite Hi'; [auto|]. rewrite (Hi Hn). exact Hn.
    + intros Hl. rewrite Hs' by lia. apply Hs. lia.
  - cbn [fst]. repeat split; auto. intros Hl. apply Hs. lia.
Qed.

Lemma body_first_line (line : string) (info : SessionInfo) :
  body 1 line info
  = (match json_Unmarshal_summaryLine line with
     | Some entry =>
       if sl_Type entry =? "summary" then set_Summary (sl_Summary entry) info
       else info
     | None => info
     end, Continue).
Proof.
  unfold body. cbn [Z.eqb Pos.eqb].
  destruct (json_Unmarshal_summaryLine line) as [entry|]; [|reflexivity].
  now destruct (sl_Type entry =? "summary").
Qed.

(** X6. A session that was parsed carries the project path and the file
    path it was parsed for, whatever the file holds; one call of
    [os.Open] was made; a file name that gives an ID keeps the session
    IDs of the file out; and the summary is that of the first line
    alone. *)
Theorem parseSession_identity
        (w : World) (filePath projectPath : string)
        (info : SessionInfo) (evs : list Event) :
  parseSession w filePath projectPath = (Ok info, evs) ->
  Path info = projectPath
  /\ FilePath info = filePath
  /\ evs = [EvOpen filePath]
  /\ (Strings.TrimSuffix (filepath_Base filePath) ".jsonl" <> "" ->
      ID info = Strings.TrimSuffix (filepath_Base filePath) ".jsonl")
  /\ exists data,
      os_Open w filePath = Ok data
      /\ Summary info = match sessionLines data with
                        | [] => ""
                        | first :: _ => firstLineSummary first
                        end.
Proof.
  unfold parseSession.
  destruct (os_Open w filePath) as [data|e]; [|discriminate].
  intros H. injection H as <- <-.
  destruct (scanLoop_identity (sessionLines data) 0
                              (newSession filePath projectPath))
    as (Hp & Hf & Hi & _).
  repeat split; auto.
  exists data. split; [reflexivity|].
  destruct (sessionLines data) as [|first rest]; [reflexivity|].
  cbn [scanLoop]. change (0 + 1)%Z with 1%Z.
  rewrite body_first_line. unfold firstLineSummary.
  set (i1 := match json_Unmarshal_summaryLine first with
             | Some _ => _ | None => _ end).
  destruct (scanLoop_identity rest 1 i1) as (_ & _ & _ & Hs).
  rewrite Hs by lia. subst i1.
  destruct (json_Unmarshal_summaryLine first) as [entry|]; [|reflexivity].
  now destruct (sl_Type entry =? "summary").
Qed.

(* ------------------------------------------------------------------ *)

Lemma body_other_record (lineNum : Z) (line : string) (info : SessionInfo) :
  lineNum <> 1%Z -> otherRecord line ->
  fst (body lineNum line info) = info.
Proof.
  intros Hl Ho. unfold body.
  destruct (lineNum =? 1)%Z eqn:E; [apply Z.eqb_eq in E; contradiction|].
  destruct (json_Unmarshal_entryLine line) as [entry|] eqn:Ee; [|reflexivity].
  destruct (el_Type entry =? "user") eqn:Et;
    [apply String.eqb_eq in Et; now apply Ho in Ee|].
  now destruct (IsGasTown info && negb (Time.IsZero (StartTime info))
                && (lineNum >? 20)%Z).
Qed.

Lemma body_not_ready (lineNum : Z) (line : string) (info : SessionInfo) :
  IsGasTown (fst (body lineNum line info)) = false ->
  snd (body lineNum line info) = Continue.
Proof.
  unfold body. destruct (lineNum =? 1)%Z.
  - destruct (json_Unmarshal_summaryLine line) as [entry|]; [|reflexivity].
    now destruct (sl_Type entry =? "summary").
  - destruct (json_Unmarshal_entryLine line) as [entry|]; [|reflexivity].
    set (i := if el_Type entry =? "user" then _ else _).
    destruct (IsGasTown i) eqn:E; cbn [andb fst snd]; [|reflexivity].
    destruct (negb (Time.IsZero (StartTime i)) && (lineNum >? 20)%Z);
      cbn [fst]; [congruence|reflexivity].
Qed.

Lemma scanLoop_other_records (lines : list string) :
  forall lineNum info,
    (0 < lineNum)%Z -> Forall otherRecord lines ->
    fst (scanLoop lines lineNum info) = info
    /\ (IsGasTown info = false ->
        snd (scanLoop lines lineNum info)
        = (lineNum + Z.of_nat (List.length lines))%Z).
Proof.
  induction lines as [|line lines IH]; intros lineNum info Hl Ho.
  - cbn. split; [reflexivity|]. intros _. lia.
  - inversion Ho as [|? ? Ho1 Ho2]; subst.
    cbn [scanLoop].
    pose proof (body_other_record (lineNum + 1) line info ltac:(lia) Ho1) as Hb.
    pose proof (body_not_ready (lineNum + 1) line info) as Hc.
    destruct (body (lineNum + 1) line info) as [info' flow].
    cbn [fst snd] in Hb, Hc. subst info'.
    destruct (IH (lineNum + 1)%Z info ltac:(lia) Ho2) as [IH1 IH2].
    destruct flow.
    + split; [exact IH1|]. intros Hg. rewrite (IH2 Hg).
      cbn [List.length]. lia.
    + split; [reflexivity|]. intros Hg. specialize (Hc Hg). discriminate.
Qed.

(** X7. Records that are not user records leave no trace: in a file whose
    lines after the first are no user records (assistant turns, tool
    results, lines that do not decode), the scan reads every line and
    returns the initial descriptor with the summary of the first line,
    whatever those lines say. *)
Theorem scan_ignores_other_records
        (filePath projectPath : string) (first : string) (rest : list string) :
  Forall otherRecord rest ->
  scanLoop (first :: rest) 0 (newSession filePath projectPath)
  = (fst (body 1 first (newSession filePath projectPath)),
     Z.of_nat (List.length (first :: rest)))
  /\ let info := fst (scanLoop (first :: rest) 0
                               (newSession filePath projectPath)) in
     IsGasTown info = false /\ Role info = "" /\ Topic info = ""
     /\ StartTime info = Time.zero
     /\ ID info = Strings.TrimSuffix (filepath_Base filePath) ".jsonl"
     /\ Summary info = firstLineSummary first.
Proof.
  intros Ho.
  assert (E : scanLoop (first :: rest) 0 (newSession filePath projectPath)
              = (fst (body 1 first (newSession filePath projectPath)),
                 Z.of_nat (List.length (first :: rest)))).
  { cbn [scanLoop]. change (0 + 1)%Z with 1%Z.
    rewrite body_first_line. cbn [fst].
    set (i1 := match json_Unmarshal_summaryLine first with
               | Some _ => _ | None => _ end).
    assert (Hg : IsGasTown i1 = false).
    { subst i1. destruct (json_Unmarshal_summaryLine first) as [entry|];
        [|reflexivity].
      now destruct (sl_Type entry =? "summary"). }
    destruct (scanLoop_other_records rest 1 i1 ltac:(lia) Ho) as [H1 H2].
    rewrite (surjective_pairing (scanLoop rest 1 i1)), H1, (H2 Hg).
    f_equal. cbn [List.length]. lia. }
  split; [exact E|]. cbv zeta. rewrite E. cbn [fst].
  rewrite body_first_line. cbn [fst]. unfold firstLineSummary.
  destruct (json_Unmarshal_summaryLine first) as [entry|];
    [destruct (sl_Type entry =? "summary")|]; cbn; repeat split; reflexivity.
Qed.

(* ------------------------------------------------------------------ *)

Lemma userEntry_ready (entry : entryLine) (info : SessionInfo) :
  IsGasTown info = true -> Time.IsZero (StartTime info) = false ->
  ID info <> "" ->
  userEntry entry info = info.
Proof.
  intros Hg Hz Hi. unfold userEntry.
  rewrite Hz, andb_false_r.
  destruct (ID info =? "") eqn:E; [apply String.eqb_eq in E; contradiction|].
  cbn [andb]. now rewrite Hg.
Qed.

Lemma body_ready (lineNum : Z) (line : string) (info : SessionInfo) :
  lineNum <> 1%Z ->
  IsGasTown info = true -> Time.IsZero (StartTime info) = false ->
  ID info <> "" ->
  fst (body lineNum line info) = info.
Proof.
  intros Hl Hg Hz Hi. unfold body.
  destruct (lineNum =? 1)%Z eqn:E; [apply Z.eqb_eq in E; contradiction|].
  destruct (json_Unmarshal_entryLine line) as [entry|]; [|reflexivity].
  destruct (el_Type entry =? "user"); [rewrite userEntry_ready by assumption|];
    match goal with
    | |- context [if ?b then _ else _] => now destruct b
    end.
Qed.

Lemma scanAll_ready (lines : list string) :
  forall lineNum info,
    (0 < lineNum)%Z ->
    IsGasTown info = true -> Time.IsZero (StartTime info) = false ->
    ID info <> "" ->
    scanAll lines lineNum info = info.
Proof.
  induction lines as [|line lines IH]; intros lineNum info Hl Hg Hz Hi;
    [reflexivity|].
  cbn [scanAll]. rewrite body_ready by (auto; lia).
  apply IH; auto; lia.
Qed.

Lemma body_break (lineNum : Z) (line : string) (info info' : SessionInfo) :
  body lineNum line info = (info', Break) ->
  IsGasTown info' = true /\ Time.IsZero (StartTime info') = false
  /\ (20 < lineNum)%Z.
Proof.
  unfold body. destruct (lineNum =? 1)%Z.
  - destruct (json_Unmarshal_summaryLine line) as [entry|]; [|discriminate].
    destruct (sl_Type entry =? "summary"); discriminate.
  - destruct (json_Unmarshal_entryLine line) as [entry|]; [|discriminate].
    set (i := if el_Type entry =? "user" then _ else _).
    destruct (IsGasTown i && negb (Time.IsZero (StartTime i))
              && (lineNum >? 20)%Z) eqn:E; [|discriminate].
    intros H. injection H as <-.
    apply andb_true_iff in E as [E E3].
    apply andb_true_iff in E as [E1 E2].
    apply negb_true_iff in E2. repeat split; auto. lia.
Qed.

(** X8. The early exit loses nothing: when the descriptor has an ID (the
    file name gives one), the descriptor the loop returns, whether it
    left early or not, is the one that reading every line to the end
    would give. *)
Theorem early_exit_loses_nothing
        (lines : list string) (lineNum : Z) (info : SessionInfo) :
  (0 <= lineNum)%Z -> ID info <> "" ->
  fst (scanLoop lines lineNum info) = scanAll lines lineNum info.
Proof.
  revert lineNum info.
  induction lines as [|line lines IH]; intros lineNum info Hl Hi;
    [reflexivity|].
  cbn [scanLoop scanAll].
  destruct (body_identity (lineNum + 1) line info) as (_ & _ & Hid & _).
  pose proof (body_break (lineNum + 1) line info) as Hb.
  destruct (body (lineNum + 1) line info) as [info' flow].
  cbn [fst] in *.
  assert (Hi' : ID info' <> "") by (rewrite (Hid Hi); exact Hi).
  destruct flow.
  - apply IH; [lia|exact Hi'].
  - destruct (Hb info' eq_refl) as (Hg & Hz & _).
    cbn [fst]. symmetry. apply scanAll_ready; auto. lia.
Qed.

End ScanMore.

(* ================================================================== *)
(** ** DiscoverSessions: what the walk collects *)

Section DiscoverMore.

Context {L : Library}.

Lemma walkFiles_In (filter : SessionFilter) (w : World)
      (projectDir projectPath : string) (sessionFiles : list DirEntry)
      (info : SessionInfo) :
  In info (fst (walkFiles filter w projectDir projectPath sessionFiles))
  <-> exists sf,
      In sf sessionFiles /\ isSessionFile sf = true
      /\ fst (parseSession w (filepath_Join projectDir (Name sf)) projectPath)
         = Ok info
      /\ keepSession filter info = true.
Proof.
  induction sessionFiles as [|sf rest IH].
  - cbn. split; [contradiction|]. intros (sf & [] & _).
  - cbn [walkFiles]. unfold isSessionFile in *.
    assert (Hskip :
              Strings.HasSuffix (Name sf) ".jsonl"
              && negb (Strings.HasPrefix (Name sf) "agent-") = false ->
              (In info (fst (walkFiles filter w projectDir projectPath rest))
               <-> exists sf0,
                  In sf0 (sf :: rest)
                  /\ Strings.HasSuffix (Name sf0) ".jsonl"
                     && negb (Strings.HasPrefix (Name sf0) "agent-") = true
                  /\ fst (parseSession w (filepath_Join projectDir (Name sf0))
                                       projectPath) = Ok info
                  /\ keepSession filter info = true)).
    { intros Hs. rewrite IH. split.
      - intros (sf0 & Hin & H). exists sf0. split; [now right|exact H].
      - intros (sf0 & [<-|Hin] & Hf & H); [congruence|].
        exists sf0. auto. }
    destruct (Strings.HasSuffix (Name sf) ".jsonl") eqn:E1; cbn [negb];
      [|now apply Hskip].
    destruct (Strings.HasPrefix (Name sf) "agent-") eqn:E2;
      [now apply Hskip|].
    clear Hskip.
    destruct (parseSession w (filepath_Join projectDir (Name sf)) projectPath)
      as [[info0|e] evs] eqn:Ep.
    + destruct (keepSession filter info0) eqn:Ek; cbn [fst In].
      * rewrite IH. split.
        -- intros [<-|(sf0 & Hin & H)].
           ++ exists sf. rewrite E1, E2, Ep. cbn. auto.
           ++ exists sf0. split; [now right|exact H].
        -- intros (sf0 & [<-|Hin] & Hf & Hp & Hk).
           ++ rewrite Ep in Hp. cbn in Hp. injection Hp as ->. now left.
           ++ right. exists sf0. auto.
      * rewrite IH. split.
        -- intros (sf0 & Hin & H). exists sf0. split; [now right|exact H].
        -- intros (sf0 & [<-|Hin] & Hf & Hp & Hk).
           ++ rewrite Ep in Hp. cbn in Hp. injection Hp as ->. congruence.
           ++ exists sf0. auto.
    + cbn [fst]. rewrite IH. split.
      * intros (sf0 & Hin & H). exists sf0. split; [now right|exact H].
      * intros (sf0 & [<-|Hin] & Hf & Hp & Hk).
        -- rewrite Ep in Hp. discriminate.
        -- exists sf0. auto.
Qed.

Lemma walkProjects_In (filter : SessionFilter) (w : World)
      (projectsDir : string) (entries : list DirEntry) (info : SessionInfo) :
  In info (fst (walkProjects filter w projectsDir entries))
  <-> exists entry,
      In entry entries
      /\ In info (fst (walkProject filter w projectsDir entry)).
Proof.
  induction entries as [|entry rest IH].
  - cbn. split; [contradiction|]. intros (e & [] & _).
  - cbn [walkProjects fst]. rewrite in_app_iff, IH. split.
    + intros [H|(e & Hin & H)]; [exists entry|exists e]; cbn; auto.
    + intros (e & [<-|Hin] & H); [now left|right; eauto].
Qed.

(** X9. The sessions the walk collects are exactly those of the session
    files (names ending in .jsonl and not starting with agent-) of the
    directories under the storage root that pass the rig and path
    filters and can be read, that can be opened and pass the beacon and
    role filters; each is parsed with the decoded name of its directory
    as project path. *)
Theorem walk_collects_exactly
        (filter : SessionFilter) (w : World) (projectsDir : string)
        (entries : list DirEntry) (info : SessionInfo) :
  In info (fst (walkProjects filter w projectsDir entries))
  <-> exists entry sessionFiles sf,
      In entry entries /\ IsDir entry = true
      /\ keepProject filter (decodePath (Name entry)) = true
      /\ os_ReadDir w (filepath_Join projectsDir (Name entry)) = Ok sessionFiles
      /\ In sf sessionFiles /\ isSessionFile sf = true
      /\ fst (parseSession w
                (filepath_Join (filepath_Join projectsDir (Name entry)) (Name sf))
                (decodePath (Name entry))) = Ok info
      /\ keepSession filter info = true.
Proof.
  rewrite walkProjects_In. split.
  - intros (entry & Hin & H). unfold walkProject in H.
    destruct (IsDir entry) eqn:Ed; cbn [negb] in H; [|contradiction].
    destruct (keepProject filter (decodePath (Name entry))) eqn:Ek;
      cbn [negb] in H; [|contradiction].
    destruct (os_ReadDir w (filepath_Join projectsDir (Name entry)))
      as [sessionFiles|e] eqn:Er; [|contradiction].
    cbn [fst] in H. apply walkFiles_In in H as (sf & Hsf & Hs & Hp & Hk).
    exists entry, sessionFiles, sf. repeat split; auto.
  - intros (entry & sessionFiles & sf & Hin & Hd & Hk & Hr & Hsf & Hs & Hp & Hks).
    exists entry. split; [exact Hin|].
    unfold walkProject. rewrite Hd, Hk, Hr. cbn [negb fst].
    apply walkFiles_In. exists sf. auto.
Qed.

Lemma applyLimit_prefix (filter : SessionFilter) (sessions : list SessionInfo) :
  exists rest, sessions = (applyLimit filter sessions ++ rest)%list.
Proof.
  unfold applyLimit.
  destruct ((Limit filter >? 0) && _)%Z.
  - exists (skipn (Z.to_nat (Limit filter)) sessions).
    symmetry. apply firstn_skipn.
  - exists []. now rewrite app_nil_r.
Qed.

Lemma DiscoverSessions_length (filter : SessionFilter) (w : World) :
  (0 < Limit filter)%Z ->
  (Z.of_nat (List.length (fst (fst (DiscoverSessions filter w))))
   <= Limit filter)%Z.
Proof.
  assert (Hlen : forall sessions,
             (0 < Limit filter)%Z ->
             (Z.of_nat (List.length (applyLimit filter sessions))
              <= Limit filter)%Z).
  { intros sessions Hl. unfold applyLimit.
    destruct (Limit filter >? 0)%Z eqn:E1; [|lia].
    destruct (Z.of_nat (List.length sessions) >? Limit filter)%Z eqn:E2;
      cbn [andb]; [|lia].
    rewrite length_firstn. lia. }
  intros Hl. unfold DiscoverSessions.
  destruct (os_IsNotExist _); [cbn; lia|].
  destruct (os_ReadDir w (projectsDirOf w)); cbn [fst];
    [now apply Hlen|cbn; lia].
Qed.

(** X10. The limit: a positive limit bounds the number of sessions
    returned, what is returned is the front of the sorted list, and a
    limit of zero or below returns the whole list. *)
Theorem limit_keeps_the_front (filter : SessionFilter) (w : World) :
  ((0 < Limit filter)%Z ->
   (Z.of_nat (List.length (fst (fst (DiscoverSessions filter w))))
    <= Limit filter)%Z)
  /\ (forall sessions,
         exists rest, sessions = (applyLimit filter sessions ++ rest)%list)
  /\ (forall sessions,
         (Limit filter <= 0)%Z \/ (Z.of_nat (List.length sessions) <= Limit filter)%Z ->
         applyLimit filter sessions = sessions)
  /\ (forall sessions,
         (0 < Limit filter < Z.of_nat (List.length sessions))%Z ->
         List.length (applyLimit filter sessions) = Z.to_nat (Limit filter)).
Proof.
  split; [|split; [|split]].
  - apply DiscoverSessions_length.
  - apply applyLimit_prefix.
  - intros sessions H. unfold applyLimit.
    destruct (Limit filter >? 0)%Z eqn:E1; [|reflexivity].
    destruct (Z.of_nat (List.length sessions) >? Limit filter)%Z eqn:E2;
      [|reflexivity].
    lia.
  - intros sessions H. unfold applyLimit.
    destruct (Limit filter >? 0)%Z eqn:E1; [|lia].
    destruct (Z.of_nat (List.length sessions) >? Limit filter)%Z eqn:E2;
      cbn [andb]; [|lia].
    rewrite length_firstn. lia.
Qed.

End DiscoverMore.

(* ================================================================== *)
(** ** The matcher: what a match tells about the text *)

Section RegexpFacts.

Import Utf8 Regexp.

Lemma orElse_Some {A} (x y : option A) (r : A) :
  orElse x y = Some r -> x = Some r \/ (x = None /\ y = Some r).
Proof. destruct x; cbn; auto. Qed.

Lemma matchRep_sound {R} (cls : rune -> bool) (greedy : bool) (inp : Input) :
  forall (min : nat) (k : Input -> option R) (res : R),
    matchRep cls min greedy inp k = Some res ->
    exists pre inp',
      inp = (pre ++ inp')%list
      /\ Forall (fun p => cls (fst p) = true) pre
      /\ (min <= List.length pre)%nat
      /\ k inp' = Some res.
Proof.
  induction inp as [|[x c] inp IH]; intros min k res H; cbn [matchRep] in H.
  - destruct min; [|discriminate].
    exists [], []. repeat split; auto.
  - assert (Hmore : forall m,
               (if cls x then matchRep cls m greedy inp k else None) = Some res ->
               exists pre inp',
                 (x, c) :: inp = (pre ++ inp')%list
                 /\ Forall (fun p => cls (fst p) = true) pre
                 /\ (S m <= List.length pre)%nat
                 /\ k inp' = Some res).
    { intros m Hm. destruct (cls x) eqn:Ec; [|discriminate].
      apply IH in Hm as (pre & inp' & -> & Hf & Hl & Hk).
      exists ((x, c) :: pre), inp'. repeat split; auto.
      cbn [List.length]. lia. }
    assert (Hstop : k ((x, c) :: inp) = Some res ->
                    exists pre inp',
                      (x, c) :: inp = (pre ++ inp')%list
                      /\ Forall (fun p => cls (fst p) = true) pre
                      /\ (0 <= List.length pre)%nat
                      /\ k inp' = Some res).
    { intros Hk. exists [], ((x, c) :: inp). repeat split; auto. }
    destruct min as [|m]; [|now apply Hmore].
    destruct greedy; apply orElse_Some in H as [H|[_ H]]; auto.
    + apply Hmore in H as (pre & inp' & E & Hf & Hl & Hk).
      exists pre, inp'. repeat split; auto. lia.
    + apply Hmore in H as (pre & inp' & E & Hf & Hl & Hk).
      exists pre, inp'. repeat split; auto. lia.
Qed.

Lemma matchLit_suffix (rs : list rune) :
  forall inp inp',
    matchLit rs inp = Some inp' -> exists pre, inp = (pre ++ inp')%list.
Proof.
  induction rs as [|r rs IH]; intros inp inp' H; cbn [matchLit] in H.
  - injection H as <-. now exists [].
  - destruct inp as [|[x c] inp]; [discriminate|].
    destruct (x =? r)%Z; [|discriminate].
    apply IH in H as [pre ->]. now exists ((x, c) :: pre).
Qed.

(** A successful run hands its continuation a tail of the input; groups
    the pattern cannot set keep their value, and an anchored pattern
    hands over the empty tail. *)
Lemma run_sound (re : Regexp) :
  forall inp caps k res,
    run re inp caps k = Some res ->
    exists pre inp' caps',
      inp = (pre ++ inp')%list
      /\ k inp' caps' = Some res
      /\ (forall i, captures i re = false -> group i caps' = group i caps)
      /\ (anchored re = true -> inp' = []).
Proof.
  induction re as [rs|cls min greedy|i re IH|re1 IH1 re2 IH2|re IH|];
    intros inp caps k res H; cbn [run] in H.
  - destruct (matchLit rs inp) as [inp'|] eqn:E; [|discriminate].
    apply matchLit_suffix in E as [pre ->].
    exists pre, inp', caps. repeat split; auto. discriminate.
  - apply matchRep_sound in H as (pre & inp' & -> & _ & _ & Hk).
    exists pre, inp', caps. repeat split; auto. discriminate.
  - apply IH in H as (pre & inp' & caps' & -> & Hk & Hg & Ha).
    exists pre, inp', ((i, span (pre ++ inp')%list inp') :: caps').
    repeat split; auto.
    intros j Hj. cbn [captures] in Hj. apply orb_false_iff in Hj as [Hj1 Hj2].
    cbn [group]. rewrite Hj1. now apply Hg.
  - apply IH1 in H as (pre1 & inp1 & caps1 & -> & Hk1 & Hg1 & _).
    apply IH2 in Hk1 as (pre2 & inp2 & caps2 & -> & Hk2 & Hg2 & Ha2).
    exists (pre1 ++ pre2)%list, inp2, caps2.
    repeat split; auto.
    + now rewrite <- app_assoc.
    + intros j Hj. cbn [captures] in Hj. apply orb_false_iff in Hj as [Hj1 Hj2].
      rewrite (Hg2 j Hj2). now apply Hg1.
  - apply orElse_Some in H as [H|[_ H]].
    + apply IH in H as (pre & inp' & caps' & -> & Hk & Hg & _).
      exists pre, inp', caps'. repeat split; auto. discriminate.
    + exists [], inp, caps. repeat split; auto. discriminate.
  - destruct inp; [|discriminate].
    exists [], [], caps. repeat split; auto.
Qed.

Lemma runes_chunks_nonempty (s : string) :
  Forall (fun p => snd p <> "") (runes s).
Proof.
  remember (String.length s) as n eqn:Hn.
  revert s Hn. induction n as [n IH] using lt_wf_ind. intros s Hn.
  rewrite Utf8Facts.runes_step.
  destruct (DecodeRuneInString s) as [[[r chunk] rest]|] eqn:E;
    [|constructor].
  apply Utf8Facts.decode_split in E as [E Hl].
  constructor.
  - cbn [snd]. intros ->. cbn in E. subst rest. lia.
  - apply (IH (String.length rest)); [lia|reflexivity].
Qed.

Lemma span_app (pre inp : Input) : span (pre ++ inp)%list inp = text pre.
Proof.
  unfold span. rewrite length_app.
  replace (List.length pre + List.length inp - List.length inp)%nat
    with (List.length pre + 0)%nat by lia.
  now rewrite firstn_app_2, firstn_O, app_nil_r.
Qed.

Lemma span_all (inp : Input) : span inp [] = text inp.
Proof.
  unfold span. cbn [List.length]. rewrite Nat.sub_0_r. now rewrite firstn_all.
Qed.

(** What a match of the beacon pattern is made of: the tag, white space,
    the runes of the role (at least one), and a rest that reaches the end
    of the text. *)
Lemma beacon_anatomy (s : string) (m : list string) :
  gasTownPattern_FindStringSubmatch s = Some m ->
  exists before matched role,
    runes s = (before ++ matched)%list
    /\ nth 0 m "" = text matched
    /\ Strings.HasPrefix (text matched) "[GAS TOWN]" = true
    /\ nth 1 m "" = text role
    /\ role <> []
    /\ runes (text role) = role
    /\ Forall (fun p => roleRune (fst p) = true) role.
Proof.
  unfold gasTownPattern_FindStringSubmatch, FindStringSubmatch.
  destruct (search gasTownPattern (runes s)) as [caps|] eqn:E; [|discriminate].
  intros H. injection H as <-. cbn [seq map nth].
  apply search_suffix in E as (before & matched & Hs & Hm).
  exists before, matched.
  unfold matchHere, gasTownPattern in Hm. cbv zeta in Hm.
  match type of Hm with
  | run (Cat _ (Cat _ (Cat _ ?tail))) _ _ _ = _ =>
    remember tail as rest eqn:Hrest
  end.
  unfold litOf in Hm. cbn [run] in Hm.
  destruct (matchLit (map fst (runes "[GAS TOWN]")) matched) as [i1|] eqn:El;
    [|discriminate].
  apply matchRep_sound in Hm as (pre1 & i2 & Hi1 & _ & _ & Hm).
  apply matchRep_sound in Hm as (role & i3 & Hi2 & Hrole & Hlen & Hm).
  apply run_sound in Hm as (pre3 & i4 & caps' & Hi3 & Hk & Hg & Ha).
  injection Hk as <-.
  assert (Hc : captures 1 rest = false) by (subst rest; reflexivity).
  assert (Hend : anchored rest = true) by (subst rest; reflexivity).
  rewrite (Ha Hend), span_all. cbn [group Nat.eqb].
  rewrite (Hg 1%nat Hc). cbn [group Nat.eqb].
  rewrite Hi2, span_app.
  exists role. repeat split; auto.
  - pose proof (runes_asciiChunk s) as Hch. rewrite Hs in Hch.
    apply Forall_app in Hch as [_ Hch].
    apply matchLit_text in El; [|repeat constructor|exact Hch].
    rewrite El. exact (HasPrefix_app "[GAS TOWN]" (text i1)).
  - intros ->. cbn in Hlen. lia.
  - apply matchLit_suffix in El as [tag Htag].
    assert (Hall : runes s = ((before ++ tag ++ pre1) ++ role ++ i3)%list).
    { rewrite Hs, Htag, Hi1, Hi2. now rewrite <- !app_assoc. }
    apply Utf8Facts.runes_text_suffix in Hall.
    now apply Utf8Facts.runes_text_prefix in Hall.
Qed.

End RegexpFacts.

Lemma text_nonempty (cs : list (Utf8.rune * string)) :
  cs <> [] -> Forall (fun p => snd p <> "") cs -> Utf8.text cs <> "".
Proof.
  destruct cs as [|[r c] cs]; [contradiction|].
  intros _ H. inversion H as [|? ? Hc _]; subst. cbn [snd] in Hc.
  cbn [Utf8.text]. destruct c; [contradiction|discriminate].
Qed.

(** X11. The shape of a beacon: what the pattern matches starts with the
    tag and reaches the end of the message; the role is not empty and
    holds no rune of the class [\s] of the pattern (tab, line feed, form
    feed, carriage return, space) and no bullet. *)
Theorem beacon_shape (s : string) (m : list string) :
  gasTownPattern_FindStringSubmatch s = Some m ->
  (exists before, s = before ++ nth 0 m "")
  /\ Strings.HasPrefix (nth 0 m "") "[GAS TOWN]" = true
  /\ nth 1 m "" <> ""
  /\ Forall (fun p => roleRune (fst p) = true) (Utf8.runes (nth 1 m "")).
Proof.
  intros H.
  destruct (beacon_anatomy s m H)
    as (before & matched & role & Hs & H0 & Htag & H1 & Hne & Hr & Hf).
  rewrite H0, H1. repeat split; auto.
  - exists (Utf8.text before).
    now rewrite <- (Utf8Facts.text_runes s), Hs, Utf8Facts.text_app.
  - apply text_nonempty; [exact Hne|].
    rewrite <- Hr. apply runes_chunks_nonempty.
  - now rewrite Hr.
Qed.

(* ================================================================== *)
(** ** The role and the topic of a parsed session *)

Lemma beacon_role (s : string) (m : list string) :
  gasTownPattern_FindStringSubmatch s = Some m -> beaconRole (nth 1 m "").
Proof.
  intros H.
  destruct (beacon_anatomy s m H)
    as (before & matched & role & Hs & H0 & Htag & H1 & Hne & Hr & Hf).
  rewrite H1. split.
  - apply text_nonempty; [exact Hne|].
    rewrite <- Hr. apply runes_chunks_nonempty.
  - now rewrite Hr.
Qed.

Section RoleFacts.

Context {L : Library}.

Lemma userEntry_role (entry : entryLine) (info : SessionInfo) :
  (IsGasTown info = true -> beaconRole (Role info)) ->
  noOuterSpace (Topic info) ->
  (IsGasTown (userEntry entry info) = true ->
   beaconRole (Role (userEntry entry info)))
  /\ noOuterSpace (Topic (userEntry entry info)).
Proof.
  intros Hr Ht. destruct (IsGasTown info) eqn:Eg.
  - destruct (userEntry_beacon_fixed entry info Eg) as (_ & -> & ->). auto.
  - pose proof (userEntry_beacon entry info Eg) as Hb. cbv zeta in Hb.
    unfold matchBeacon in Hb.
    destruct (gasTownPattern_FindStringSubmatch
                (extractMessageContent (el_Message entry))) as [m|] eqn:Em.
    + destruct Hb as (_ & -> & ->). split.
      * intros _. exact (beacon_role _ _ Em).
      * destruct (2 <? List.length m)%nat; [apply TrimSpace_noOuterSpace|exact I].
    + destruct Hb as (Hg & _ & ->). split; [congruence|exact Ht].
Qed.

Lemma body_role (lineNum : Z) (line : string) (info : SessionInfo) :
  (IsGasTown info = true -> beaconRole (Role info)) ->
  noOuterSpace (Topic info) ->
  (IsGasTown (fst (body lineNum line info)) = true ->
   beaconRole (Role (fst (body lineNum line info))))
  /\ noOuterSpace (Topic (fst (body lineNum line info))).
Proof.
  intros Hr Ht. unfold body. destruct (lineNum =? 1)%Z.
  - destruct (json_Unmarshal_summaryLine line) as [entry|]; [|auto].
    destruct (sl_Type entry =? "summary"); cbn; auto.
  - destruct (json_Unmarshal_entryLine line) as [entry|]; [|auto].
    pose proof (userEntry_role entry info Hr Ht) as Hu.
    destruct (el_Type entry =? "user");
      match goal with
      | |- context [if ?b then _ else _] => destruct b
      end; cbn [fst]; auto.
Qed.

Lemma scanLoop_role (lines : list string) :
  forall lineNum info,
    (IsGasTown info = true -> beaconRole (Role info)) ->
    noOuterSpace (Topic info) ->
    (IsGasTown (fst (scanLoop lines lineNum info)) = true ->
     beaconRole (Role (fst (scanLoop lines lineNum info))))
    /\ noOuterSpace (Topic (fst (scanLoop lines lineNum info))).
Proof.
  induction lines as [|line lines IH]; intros lineNum info Hr Ht; [auto|].
  cbn [scanLoop].
  pose proof (body_role (lineNum + 1) line info Hr Ht) as [Hr' Ht'].
  destruct (body (lineNum + 1) line info) as [info' []]; cbn [fst] in *; auto.
Qed.

(** What the scan of a file tells about role and topic. *)
Lemma parseSession_role (w : World) (filePath projectPath : string)
      (info : SessionInfo) (evs : list Event) :
  parseSession w filePath projectPath = (Ok info, evs) ->
  (IsGasTown info = true -> beaconRole (Role info))
  /\ (IsGasTown info = false -> Role info = "" /\ Topic info = "")
  /\ noOuterSpace (Topic info).
Proof.
  unfold parseSession.
  destruct (os_Open w filePath) as [data|e]; [|discriminate].
  intros H. injection H as <- <-.
  destruct (scanLoop_role (sessionLines data) 0
                          (newSession filePath projectPath))
    as [Hr Ht]; [discriminate|exact I|].
  split; [exact Hr|]. split; [|exact Ht].
  apply scanLoop_beaconInv. intros _. now cbn.
Qed.

(** X12. In a parsed session the beacon flag and the role go together:
    the flag is set exactly when the role is not empty; a role that is
    there holds no rune of the class [\s] of the pattern (tab, line feed,
    form feed, carriage return, space) and no bullet, while white space
    outside that class, a no-break space for one, can be part of it or
    all of it; and the topic neither starts nor ends with a rune that is
    white space for [unicode.IsSpace], as [strings.TrimSpace] leaves
    it. *)
Theorem beacon_flag_iff_role
        (w : World) (filePath projectPath : string)
        (info : SessionInfo) (evs : list Event) :
  parseSession w filePath projectPath = (Ok info, evs) ->
  (IsGasTown info = true <-> Role info <> "")
  /\ (Role info <> "" -> beaconRole (Role info))
  /\ noOuterSpace (Topic info).
Proof.
  intros H. destruct (parseSession_role _ _ _ _ _ H) as (Hr & Hn & Ht).
  assert (Hiff : IsGasTown info = true <-> Role info <> "").
  { split.
    - intros Hg. exact (proj1 (Hr Hg)).
    - intros Hne. destruct (IsGasTown info); [reflexivity|].
      destruct (Hn eq_refl) as [Hrole _]. contradiction. }
  split; [exact Hiff|]. split; [|exact Ht].
  intros Hne. apply Hr. now apply Hiff.
Qed.

(* ------------------------------------------------------------------ *)

Lemma walkProjects_sound
      (filter : SessionFilter) (w : World) (projectsDir : string)
      (entries : list DirEntry) (info : SessionInfo) :
  In info (fst (walkProjects filter w projectsDir entries)) ->
  exists entry sessionFiles sf,
    In entry entries /\ IsDir entry = true
    /\ keepProject filter (decodePath (Name entry)) = true
    /\ os_ReadDir w (filepath_Join projectsDir (Name entry)) = Ok sessionFiles
    /\ In sf sessionFiles /\ isSessionFile sf = true
    /\ fst (parseSession w
              (filepath_Join (filepath_Join projectsDir (Name entry)) (Name sf))
              (decodePath (Name entry))) = Ok info
    /\ keepSession filter info = true.
Proof.
  intros H. apply walkProjects_In in H as (entry & Hin & H).
  unfold walkProject in H.
  destruct (IsDir entry) eqn:Ed; cbn [negb] in H; [|contradiction].
  destruct (keepProject filter (decodePath (Name entry))) eqn:Ek;
    cbn [negb] in H; [|contradiction].
  destruct (os_ReadDir w (filepath_Join projectsDir (Name entry)))
    as [sessionFiles|e] eqn:Er; [|contradiction].
  cbn [fst] in H. apply walkFiles_In in H as (sf & Hsf & Hs & Hp & Hk).
  exists entry, sessionFiles, sf. repeat split; auto.
Qed.

Lemma applyLimit_In (filter : SessionFilter) (sessions : list SessionInfo)
      (info : SessionInfo) :
  In info (applyLimit filter sessions) -> In info sessions.
Proof.
  destruct (applyLimit_prefix filter sessions) as [rest H].
  intros Hin. rewrite H. apply in_or_app. now left.
Qed.

(** The sessions [DiscoverSessions] returns, traced back through the
    limit, the sort and the walk to the file each was parsed from. *)
Lemma DiscoverSessions_In
      (filter : SessionFilter) (w : World) (info : SessionInfo) :
  (forall entries,
      os_ReadDir w (projectsDirOf w) = Ok entries ->
      Permutation
        (sortSessions (fst (walkProjects filter w (projectsDirOf w) entries)))
        (fst (walkProjects filter w (projectsDirOf w) entries))) ->
  In info (fst (fst (DiscoverSessions filter w))) ->
  exists entries entry sf evs,
    os_ReadDir w (projectsDirOf w) = Ok entries
    /\ In entry entries /\ IsDir entry = true
    /\ keepProject filter (decodePath (Name entry)) = true
    /\ isSessionFile sf = true
    /\ parseSession w
         (filepath_Join (filepath_Join (projectsDirOf w) (Name entry)) (Name sf))
         (decodePath (Name entry)) = (Ok info, evs)
    /\ keepSession filter info = true.
Proof.
  intros Hperm. unfold DiscoverSessions.
  destruct (os_IsNotExist (os_Stat w (projectsDirOf w))); [contradiction|].
  destruct (os_ReadDir w (projectsDirOf w)) as [entries|e] eqn:Er;
    [|contradiction].
  cbn [fst]. intros Hin.
  apply applyLimit_In in Hin.
  apply (Permutation_in _ (Hperm entries eq_refl)) in Hin.
  apply walkProjects_sound in Hin
    as (entry & sessionFiles & sf & He & Hd & Hkp & Hrd & Hsf & Hs & Hp & Hk).
  destruct (parseSession w
              (filepath_Join (filepath_Join (projectsDirOf w) (Name entry))
                             (Name sf))
              (decodePath (Name entry))) as [r evs] eqn:Ep.
  cbn [fst] in Hp. subst r.
  exists entries, entry, sf, evs. repeat split; auto.
Qed.

Lemma parseSession_paths (w : World) (filePath projectPath : string)
      (info : SessionInfo) (evs : list Event) :
  parseSession w filePath projectPath = (Ok info, evs) ->
  Path info = projectPath /\ FilePath info = filePath.
Proof.
  unfold parseSession.
  destruct (os_Open w filePath) as [data|e]; [|discriminate].
  intros H. injection H as <- _.
  destruct (scanLoop_identity (sessionLines data) 0
                              (newSession filePath projectPath))
    as (Hp & Hf & _).
  exact (conj Hp Hf).
Qed.

(** X13. What [DiscoverSessions] returns, whenever [sort.Slice] has
    returned a permutation of what it was given: every session passes
    the filters of the call; its project path is the decoded name of a
    directory under the storage root, has no dash in it and passes the rig
    and path filters; its file is a session file of that directory; and
    with the beacon-only filter it has the beacon and a role. *)
Theorem discover_returns_matches
        (filter : SessionFilter) (w : World) (info : SessionInfo) :
  (forall entries,
      os_ReadDir w (projectsDirOf w) = Ok entries ->
      Permutation
        (sortSessions (fst (walkProjects filter w (projectsDirOf w) entries)))
        (fst (walkProjects filter w (projectsDirOf w) entries))) ->
  In info (fst (fst (DiscoverSessions filter w))) ->
  keepSession filter info = true
  /\ keepProject filter (Path info) = true
  /\ Strings.Contains (Path info) "-" = false
  /\ (GasTownOnly filter = true -> IsGasTown info = true /\ Role info <> "")
  /\ (Rig filter <> "" ->
      Strings.Contains (Path info) ("/" ++ Rig filter ++ "/") = true)
  /\ exists entries entry sf,
      os_ReadDir w (projectsDirOf w) = Ok entries
      /\ In entry entries /\ IsDir entry = true /\ isSessionFile sf = true
      /\ Path info = decodePath (Name entry)
      /\ FilePath info
         = filepath_Join (filepath_Join (projectsDirOf w) (Name entry)) (Name sf).
Proof.
  intros Hperm Hin.
  destruct (DiscoverSessions_In filter w info Hperm Hin)
    as (entries & entry & sf & evs & Hr & He & Hd & Hkp & Hs & Hp & Hk).
  destruct (parseSession_paths _ _ _ _ _ Hp) as [Hpath Hfile].
  destruct (parseSession_role _ _ _ _ _ Hp) as (Hrole & _).
  rewrite Hpath.
  split; [exact Hk|]. split; [exact Hkp|].
  split; [apply decodePath_no_dash|].
  split; [|split].
  - intros Hg. unfold keepSession in Hk. rewrite Hg in Hk. cbn [andb] in Hk.
    destruct (IsGasTown info); [|discriminate].
    split; [reflexivity|]. exact (proj1 (Hrole eq_refl)).
  - intros Hrig. unfold keepProject in Hkp.
    destruct (Rig filter =? "") eqn:E;
      [apply String.eqb_eq in E; contradiction|].
    destruct (Strings.Contains (decodePath (Name entry))
                               ("/" ++ Rig filter ++ "/"));
      [reflexivity|discriminate].
  - exists entries, entry, sf. repeat split; auto.
Qed.

End RoleFacts.

(* ================================================================== *)
(** ** Counting runes *)

Module RuneCount.

Import Utf8.

Lemma first_range (b : Z) sz lo hi :
  first b = Some (sz, lo, hi) -> (128 <= lo)%Z /\ (hi <= 191)%Z.
Proof.
  unfold first. intros H.
  repeat match type of H with
         | (if ?c then _ else _) = _ => destruct c
         end; try discriminate; injection H as <- <- <-; lia.
Qed.

Lemma append_empty_r (s : string) : s ++ "" = s.
Proof. induction s; cbn; congruence. Qed.

(** Text behind a string that does not start with a continuation byte
    does not change how the string is decoded. *)
Lemma decode_extend (a b : string) r chunk rest :
  DecodeRuneInString a = Some (r, chunk, rest) ->
  startsClean b = true ->
  DecodeRuneInString (a ++ b) = Some (r, chunk, rest ++ b).
Proof.
  destruct b as [|b0 b'].
  { intros H _. now rewrite !append_empty_r. }
  intros H Hb. cbn [startsClean] in Hb. apply negb_true_iff in Hb.
  assert (Hbt : forall lo hi,
             (128 <= lo)%Z -> (hi <= 191)%Z ->
             negb (between lo hi (byteZ b0)) = true).
  { intros lo hi Hlo Hhi. apply negb_true_iff.
    unfold isCont, between in *.
    apply andb_false_iff in Hb. apply andb_false_iff.
    destruct Hb as [Hb|Hb]; [left|right]; lia. }
  assert (Hbc : negb (isCont (byteZ b0)) = true) by now rewrite Hb.
  revert H.
  destruct a as [|c0 t0]; [discriminate|].
  cbn [append]. unfold DecodeRuneInString. cbv zeta.
  destruct (byteZ c0 <? RuneSelf)%Z;
    [intros H; injection H as <- <- <-; reflexivity|].
  destruct (first (byteZ c0)) as [[[sz lo] hi]|] eqn:Ef;
    [|intros H; injection H as <- <- <-; reflexivity].
  apply first_range in Ef as [Hlo Hhi]. specialize (Hbt lo hi Hlo Hhi).
  destruct t0 as [|c1 t1]; cbn [append].
  { rewrite Hbt. intros H; injection H as <- <- <-; reflexivity. }
  destruct (negb (between lo hi (byteZ c1)));
    [intros H; injection H as <- <- <-; reflexivity|].
  destruct sz as [|[|[|[|sz]]]];
    try (intros H; injection H as <- <- <-; reflexivity);
    (destruct t1 as [|c2 t2]; cbn [append];
     [rewrite Hbc; intros H; injection H as <- <- <-; reflexivity|]);
    (destruct (negb (isCont (byteZ c2)));
     [intros H; injection H as <- <- <-; reflexivity|]);
    try (intros H; injection H as <- <- <-; reflexivity);
    (destruct t2 as [|c3 t3]; cbn [append];
     [rewrite Hbc; intros H; injection H as <- <- <-; reflexivity|]);
    (destruct (negb (isCont (byteZ c3)));
     intros H; injection H as <- <- <-; reflexivity).
Qed.

Lemma runes_app_clean (a b : string) :
  startsClean b = true -> runes (a ++ b) = (runes a ++ runes b)%list.
Proof.
  intros Hb.
  remember (String.length a) as n eqn:Hn.
  revert a Hn. induction n as [n IH] using lt_wf_ind. intros a Hn.
  destruct a as [|c0 t0]; [reflexivity|].
  rewrite (Utf8Facts.runes_step (String c0 t0)).
  destruct (DecodeRuneInString (String c0 t0)) as [[[r chunk] rest]|] eqn:E;
    [|now apply Utf8Facts.decode_nonempty in E].
  rewrite Utf8Facts.runes_step, (decode_extend _ _ _ _ _ E Hb).
  apply Utf8Facts.decode_split in E as [_ Hl].
  cbn [app]. f_equal. apply (IH (String.length rest)); [lia|reflexivity].
Qed.

Lemma runes_length_le (s : string) :
  (List.length (runes s) <= String.length s)%nat.
Proof.
  remember (String.length s) as n eqn:Hn.
  revert s Hn. induction n as [n IH] using lt_wf_ind. intros s Hn.
  rewrite Utf8Facts.runes_step.
  destruct (DecodeRuneInString s) as [[[r chunk] rest]|] eqn:E;
    [|cbn; lia].
  apply Utf8Facts.decode_split in E as [_ Hl].
  cbn [List.length].
  specialize (IH (String.length rest) ltac:(lia) rest eq_refl). lia.
Qed.

End RuneCount.

(* ================================================================== *)
(** ** seance.go: the cells of a row *)

Lemma clip_fits (width : nat) (text : string) :
  (1 <= width)%nat -> (RuneCountInString (clip width text) <= width)%nat.
Proof.
  intros Hw. unfold clip, RuneCountInString.
  destruct (width <? String.length text)%nat eqn:E.
  - rewrite RuneCount.runes_app_clean by reflexivity.
    rewrite length_app.
    pose proof (RuneCount.runes_length_le (Strings.take (width - 1) text)) as Hl.
    rewrite take_length in Hl.
    change (List.length (Utf8.runes "…")) with 1%nat. lia.
  - apply Nat.ltb_ge in E.
    pose proof (RuneCount.runes_length_le text). lia.
Qed.

Lemma clip_short (width : nat) (text : string) :
  (String.length text <= width)%nat -> clip width text = text.
Proof.
  intros H. unfold clip.
  destruct (width <? String.length text)%nat eqn:E; [|reflexivity].
  apply Nat.ltb_lt in E. lia.
Qed.

Lemma length_append (a b : string) :
  String.length (a ++ b) = (String.length a + String.length b)%nat.
Proof. induction a; cbn; congruence. Qed.

(** X14. The cells of a row fit their columns: counted in runes, as
    [fmt] counts when it pads, the short ID, the role and the topic are
    never wider than the 10, 24 and 30 places of their columns, whatever
    bytes the session holds; a text that fits is shown as it is, and one
    that does not is cut to the width less one in bytes and closed with
    an ellipsis. *)
Theorem cells_fit_columns (s : SessionInfo) :
  (RuneCountInString (ShortID s) <= idWidth)%nat
  /\ (RuneCountInString (rowRole s) <= roleWidth)%nat
  /\ (RuneCountInString (rowTopic s) <= topicWidth)%nat
  /\ (forall width text,
         (String.length text <= width)%nat -> clip width text = text)
  /\ (forall width text,
         (1 <= width < String.length text)%nat ->
         clip width text = Strings.take (width - 1) text ++ "…"
         /\ String.length (clip width text) = (width + 2)%nat).
Proof.
  split; [|split; [|split; [|split]]].
  - unfold RuneCountInString, idWidth.
    pose proof (RuneCount.runes_length_le (ShortID s)) as Hl.
    unfold ShortID in *.
    destruct (8 <? String.length (ID s))%nat eqn:E.
    + rewrite take_length in Hl. lia.
    + apply Nat.ltb_ge in E. lia.
  - apply clip_fits. unfold roleWidth. lia.
  - apply clip_fits. unfold topicWidth. lia.
  - apply clip_short.
  - intros width text [Hw Hl]. unfold clip.
    destruct (width <? String.length text)%nat eqn:E;
      [|apply Nat.ltb_ge in E; lia].
    split; [reflexivity|].
    rewrite length_append, take_length.
    change (String.length "…") with 3%nat. lia.
Qed.

Section SeanceFacts.

Context {L : Library}.

(** X15. The role and topic cells of a parsed session: the role is the
    beacon's when the session has the beacon and is inferred from the
    project path exactly when it has not; the topic cell shows the
    summary exactly when there is no topic, which is always so without
    the beacon. *)
Theorem seance_row_of_parsed_session
        (w : World) (filePath projectPath : string)
        (info : SessionInfo) (evs : list Event) :
  parseSession w filePath projectPath = (Ok info, evs) ->
  rowRole info
  = clip roleWidth
         (if IsGasTown info then Role info else inferRoleFromPath projectPath)
  /\ rowTopic info
     = clip topicWidth (if Topic info =? "" then Summary info else Topic info)
  /\ (IsGasTown info = false -> rowTopic info = clip topicWidth (Summary info)).
Proof.
  intros H.
  destruct (parseSession_role _ _ _ _ _ H) as (Hr & Hn & _).
  assert (Hp : Path info = projectPath).
  { unfold parseSession in H.
    destruct (os_Open w filePath) as [data|e]; [|discriminate].
    injection H as <- _.
    now destruct (scanLoop_identity (sessionLines data) 0
                                    (newSession filePath projectPath)). }
  assert (Ht : rowTopic info
               = clip topicWidth
                      (if Topic info =? "" then Summary info else Topic info)).
  { unfold rowTopic. destruct (Topic info =? "") eqn:Et; cbn [andb];
      [|reflexivity].
    destruct (Summary info =? "") eqn:Es; cbn [negb]; [|reflexivity].
    apply String.eqb_eq in Et, Es. now rewrite Et, Es. }
  split; [|split; [exact Ht|]].
  - unfold rowRole. rewrite Hp. destruct (IsGasTown info) eqn:Eg.
    + destruct (Hr eq_refl) as [Hne _].
      destruct (Role info =? "") eqn:E; [|reflexivity].
      apply String.eqb_eq in E. contradiction.
    + destruct (Hn eq_refl) as [-> _]. reflexivity.
  - intros Hg. rewrite Ht. destruct (Hn Hg) as [_ ->]. reflexivity.
Qed.

(** X16. The default listing, without the flag [--all], whenever
    [sort.Slice] has returned a permutation of what it was given: every
    session listed has the beacon, its role cell is the beacon's role and
    is never inferred from the path; with [--rig] its project path has
    the rig between two slashes; and with a positive [--recent] no more
    sessions are listed than that. *)
Theorem seance_default_listing
        (seanceRole seanceRig : string) (seanceRecent : Z)
        (w : World) (info : SessionInfo) :
  let filter := seanceFilter false seanceRole seanceRig seanceRecent in
  (forall entries,
      os_ReadDir w (projectsDirOf w) = Ok entries ->
      Permutation
        (sortSessions (fst (walkProjects filter w (projectsDirOf w) entries)))
        (fst (walkProjects filter w (projectsDirOf w) entries))) ->
  In info (fst (fst (DiscoverSessions filter w))) ->
  IsGasTown info = true
  /\ rowRole info = clip roleWidth (Role info)
  /\ (seanceRig <> "" ->
      Strings.Contains (Path info) ("/" ++ seanceRig ++ "/") = true)
  /\ ((0 < seanceRecent)%Z ->
      (Z.of_nat (List.length (fst (fst (DiscoverSessions filter w))))
       <= seanceRecent)%Z).
Proof.
  cbv zeta. intros Hperm Hin.
  destruct (DiscoverSessions_In _ w info Hperm Hin)
    as (entries & entry & sf & evs & _ & _ & _ & Hkp & _ & Hp & Hk).
  destruct (parseSession_paths _ _ _ _ _ Hp) as [Hpath _].
  destruct (parseSession_role _ _ _ _ _ Hp) as (Hrole & _).
  assert (Hb : IsGasTown info = true).
  { unfold keepSession, seanceFilter in Hk. cbn [GasTownOnly negb andb] in Hk.
    destruct (IsGasTown info); [reflexivity|discriminate]. }
  split; [exact Hb|]. split; [|split].
  - unfold rowRole. destruct (Role info =? "") eqn:E; [|reflexivity].
    apply String.eqb_eq in E. now destruct (Hrole Hb).
  - intros Hrig. rewrite Hpath.
    unfold keepProject, seanceFilter in Hkp. cbn [Rig FilterPath] in Hkp.
    destruct (seanceRig =? "") eqn:E;
      [apply String.eqb_eq in E; contradiction|].
    destruct (Strings.Contains (decodePath (Name entry))
                               ("/" ++ seanceRig ++ "/"));
      [reflexivity|discriminate].
  - intros Hl.
    exact (DiscoverSessions_length
             (seanceFilter false seanceRole seanceRig seanceRecent) w Hl).
Qed.

End SeanceFacts.

(* ================================================================== *)
(** ** The limit after the sort *)

Section RecentFacts.

Context {L : Library}.

Lemma isSortedDesc_prefix (l1 l2 : list SessionInfo) :
  isSortedDesc (l1 ++ l2)%list = true -> isSortedDesc l1 = true.
Proof.
  induction l1 as [|a l1 IH]; [reflexivity|].
  destruct l1 as [|b l1]; [reflexivity|].
  cbn [app isSortedDesc]. intros H. apply andb_true_iff in H as [Hab H].
  rewrite Hab. cbn [andb]. apply IH. exact H.
Qed.

Lemma sorted_front_latest (l1 l2 : list SessionInfo) :
  isSortedDesc (l1 ++ l2)%list = true ->
  forall a b, In a l1 -> In b l2 -> byStartTimeDesc b a = false.
Proof.
  intros H. apply isSortedDesc_Sorted in H.
  apply Sorted_StronglySorted in H.
  2:{ intros a b c Hab Hbc. unfold byStartTimeDesc in *.
      exact (notAfter_trans _ _ _ Hab Hbc). }
  induction l1 as [|x l1 IH]; intros a b Ha Hb; [contradiction|].
  cbn [app] in H. inversion H as [|? ? Hs Hall]; subst.
  destruct Ha as [<-|Ha].
  - rewrite Forall_forall in Hall. apply Hall, in_or_app. now right.
  - now apply IH.
Qed.

(** X17. The limit keeps the most recent sessions: whenever [sort.Slice]
    has left the sessions in descending order of start time, what
    [DiscoverSessions] returns is the front of that order, in that
    order, and no session left out started after one that is returned. *)
Theorem limit_keeps_the_latest
        (filter : SessionFilter) (w : World) (entries : list DirEntry) :
  os_IsNotExist (os_Stat w (projectsDirOf w)) = false ->
  os_ReadDir w (projectsDirOf w) = Ok entries ->
  isSortedDesc
    (sortSessions (fst (walkProjects filter w (projectsDirOf w) entries)))
  = true ->
  exists dropped,
    sortSessions (fst (walkProjects filter w (projectsDirOf w) entries))
    = (fst (fst (DiscoverSessions filter w)) ++ dropped)%list
    /\ isSortedDesc (fst (fst (DiscoverSessions filter w))) = true
    /\ forall a b,
        In a (fst (fst (DiscoverSessions filter w))) -> In b dropped ->
        Time.After (StartTime b) (StartTime a) = false.
Proof.
  intros Hs Hr Hsorted. unfold DiscoverSessions. rewrite Hs, Hr. cbn [fst].
  set (sorted := sortSessions _) in *.
  destruct (applyLimit_prefix filter sorted) as [dropped Hd].
  exists dropped. split; [exact Hd|].
  rewrite Hd in Hsorted. split.
  - exact (isSortedDesc_prefix _ _ Hsorted).
  - exact (sorted_front_latest _ _ Hsorted).
Qed.

End RecentFacts.

(* ================================================================== *)
(** ** The beacon filter *)

Section BeaconFilterFacts.

Context {L : Library}.

Lemma keepSession_beacon_only (role rig path : string) (limit limit' : Z)
      (info : SessionInfo) :
  keepSession (mkSessionFilter true role rig path limit) info
  = IsGasTown info
    && keepSession (mkSessionFilter false role rig path limit') info.
Proof.
  unfold keepSession. cbn [GasTownOnly FilterRole andb].
  now destruct (IsGasTown info).
Qed.

Lemma walkFiles_beacon_only (role rig path : string) (limit limit' : Z)
      (w : World) (projectDir projectPath : string)
      (sessionFiles : list DirEntry) :
  walkFiles (mkSessionFilter true role rig path limit) w
            projectDir projectPath sessionFiles
  = (List.filter IsGasTown
       (fst (walkFiles (mkSessionFilter false role rig path limit') w
                       projectDir projectPath sessionFiles)),
     snd (walkFiles (mkSessionFilter false role rig path limit') w
                    projectDir projectPath sessionFiles)).
Proof.
  induction sessionFiles as [|sf rest IH]; [reflexivity|].
  cbn [walkFiles].
  destruct (negb (Strings.HasSuffix (Name sf) ".jsonl")); [exact IH|].
  destruct (Strings.HasPrefix (Name sf) "agent-"); [exact IH|].
  destruct (parseSession w (filepath_Join projectDir (Name sf)) projectPath)
    as [[info|e] evs].
  - rewrite (keepSession_beacon_only role rig path limit limit'), IH.
    destruct (IsGasTown info) eqn:Eg; cbn [andb];
      destruct (keepSession (mkSessionFilter false role rig path limit') info);
      cbn [fst snd List.filter]; rewrite ?Eg; reflexivity.
  - rewrite IH. reflexivity.
Qed.

(** X18. The beacon filter saves no reading: with the other fields of
    the filter the same, the walk for beacon sessions only reads the same
    directories and opens the same files as the walk for all sessions, and
    what it collects is what the other walk collects with the sessions
    without a beacon left out, in the same order. *)
Theorem beacon_filter_is_a_post_filter
        (role rig path : string) (limit limit' : Z)
        (w : World) (projectsDir : string) (entries : list DirEntry) :
  walkProjects (mkSessionFilter true role rig path limit) w projectsDir entries
  = (List.filter IsGasTown
       (fst (walkProjects (mkSessionFilter false role rig path limit') w
                          projectsDir entries)),
     snd (walkProjects (mkSessionFilter false role rig path limit') w
                       projectsDir entries)).
Proof.
  induction entries as [|entry rest IH]; [reflexivity|].
  cbn [walkProjects]. rewrite IH. cbn [fst snd].
  rewrite filter_app.
  assert (Hp : walkProject (mkSessionFilter true role rig path limit) w
                           projectsDir entry
               = (List.filter IsGasTown
                    (fst (walkProject (mkSessionFilter false role rig path limit')
                                      w projectsDir entry)),
                  snd (walkProject (mkSessionFilter false role rig path limit')
                                   w projectsDir entry))).
  { unfold walkProject.
    destruct (negb (IsDir entry)); [reflexivity|].
    change (keepProject (mkSessionFilter true role rig path limit))
      with (keepProject (mkSessionFilter false role rig path limit')).
    destruct (negb (keepProject _ (decodePath (Name entry)))); [reflexivity|].
    destruct (os_ReadDir w (filepath_Join projectsDir (Name entry)));
      [|reflexivity].
    rewrite (walkFiles_beacon_only role rig path limit limit'). reflexivity. }
  rewrite Hp. reflexivity.
Qed.

End BeaconFilterFacts.

(* ================================================================== *)
(** ** The further properties on the examples *)

Lemma decodePath_dash_is_slash_witness :
  decodePath ("my" ++ "-" ++ "app") = decodePath ("my" ++ "/" ++ "app").
Proof. exact (proj1 (decodePath_dash_is_slash "my" "app")). Defined.

Lemma ShortID_prefix_witness :
  (String.length (ID gusSession) <= 8)%nat /\ ShortID gusSession = ID gusSession.
Proof.
  assert (H : (String.length (ID gusSession) <= 8)%nat) by (cbn; lia).
  split; [exact H|].
  exact (proj2 (proj2 (proj2 (ShortID_prefix gusSession))) H).
Defined.

Lemma RigFromPath_first_gt_witness :
  ~ In "gt" (StringsSplit.Split "/Users/stevey" "/")
  /\ Strings.Contains "gastown" "/" = false
  /\ Path joeSession = "/Users/stevey" ++ "/gt/" ++ "gastown" ++ "/" ++ "crew/joe"
  /\ RigFromPath joeSession = "gastown"
  /\ Strings.Contains (Path joeSession) ("/" ++ "gastown" ++ "/") = true.
Proof.
  assert (Hgt : ~ In "gt" (StringsSplit.Split "/Users/stevey" "/")).
  { cbn. intuition discriminate. }
  split; [exact Hgt|]. split; [reflexivity|]. split; [reflexivity|].
  exact (proj2 (proj2 (proj2 (RigFromPath_first_gt joeSession)))
           "/Users/stevey" "gastown" "crew/joe" Hgt eq_refl eq_refl).
Defined.

Lemma inferRoleFromPath_last_role_wins_witness :
  isNamedRole "crew" = true
  /\ Strings.Contains "joe" "/" = false
  /\ plainPart "joe"
  /\ joePath = gusPath ++ "/" ++ "crew" ++ "/" ++ "joe"
  /\ inferRoleFromPath joePath = "crew" ++ "/" ++ "joe".
Proof.
  assert (Hp : plainPart "joe") by (split; reflexivity).
  split; [reflexivity|]. split; [reflexivity|]. split; [exact Hp|].
  split; [reflexivity|].
  exact (proj1 (proj2 (proj2 (inferRoleFromPath_last_role_wins joePath)))
           gusPath "crew" "joe" eq_refl eq_refl Hp eq_refl).
Defined.

Lemma parseSession_identity_witness :
  parseSession (L:=goLibrary) exampleWorld gusFile gusPath
  = (Ok gusSession, [EvOpen gusFile])
  /\ Path gusSession = gusPath
  /\ FilePath gusSession = gusFile.
Proof.
  assert (H : parseSession (L:=goLibrary) exampleWorld gusFile gusPath
              = (Ok gusSession, [EvOpen gusFile]))
    by (vm_compute; reflexivity).
  split; [exact H|].
  destruct (parseSession_identity (L:=goLibrary) _ _ _ _ _ H) as (Hp & Hf & _).
  exact (conj Hp Hf).
Defined.

Lemma scan_ignores_other_records_witness :
  Forall (otherRecord (L:=goLibrary)) [assistantText; assistantText]
  /\ scanLoop (L:=goLibrary) [summaryText; assistantText; assistantText] 0
              (newSession (L:=goLibrary) "/x/d6d8475f.jsonl" "/p")
     = (fst (body (L:=goLibrary) 1 summaryText
                  (newSession (L:=goLibrary) "/x/d6d8475f.jsonl" "/p")),
        Z.of_nat (List.length [summaryText; assistantText; assistantText])).
Proof.
  assert (Ha : otherRecord (L:=goLibrary) assistantText).
  { intros entry H. vm_compute in H. injection H as <-. discriminate. }
  assert (H : Forall (otherRecord (L:=goLibrary)) [assistantText; assistantText])
    by (repeat constructor; exact Ha).
  split; [exact H|].
  exact (proj1 (scan_ignores_other_records (L:=goLibrary)
                  "/x/d6d8475f.jsonl" "/p" summaryText
                  [assistantText; assistantText] H)).
Defined.

Lemma early_exit_loses_nothing_witness :
  (0 <= 0)%Z
  /\ ID (newSession (L:=goLibrary) "/x/d6d8475f.jsonl" "/p") <> ""
  /\ fst (scanLoop (L:=goLibrary) (sessionLines (beaconFile 30)) 0
                   (newSession (L:=goLibrary) "/x/d6d8475f.jsonl" "/p"))
     = scanAll (L:=goLibrary) (sessionLines (beaconFile 30)) 0
               (newSession (L:=goLibrary) "/x/d6d8475f.jsonl" "/p").
Proof.
  assert (Hi : ID (newSession (L:=goLibrary) "/x/d6d8475f.jsonl" "/p") <> "").
  { vm_compute. discriminate. }
  split; [lia|]. split; [exact Hi|].
  apply (early_exit_loses_nothing (L:=goLibrary)); [lia|exact Hi].
Defined.

Lemma walk_collects_exactly_witness :
  In gusSession
     (fst (walkProjects (L:=goLibrary) mostRecent exampleWorld homeProjects
                        [rigRootEntry; crewEntry]))
  /\ exists entry sessionFiles sf,
      In entry [rigRootEntry; crewEntry] /\ IsDir entry = true
      /\ keepProject mostRecent (decodePath (Name entry)) = true
      /\ os_ReadDir exampleWorld
                    (@filepath_Join goLibrary homeProjects (Name entry))
         = Ok sessionFiles
      /\ In sf sessionFiles /\ isSessionFile sf = true
      /\ fst (parseSession (L:=goLibrary) exampleWorld
                (@filepath_Join goLibrary
                   (@filepath_Join goLibrary homeProjects (Name entry))
                   (Name sf))
                (decodePath (Name entry))) = Ok gusSession
      /\ keepSession (L:=goLibrary) mostRecent gusSession = true.
Proof.
  assert (H : In gusSession
                 (fst (walkProjects (L:=goLibrary) mostRecent exampleWorld
                                    homeProjects [rigRootEntry; crewEntry]))).
  { vm_compute. left. reflexivity. }
  split; [exact H|].
  exact (proj1 (walk_collects_exactly (L:=goLibrary) mostRecent exampleWorld
                  homeProjects [rigRootEntry; crewEntry] gusSession) H).
Defined.

Lemma limit_keeps_the_front_witness :
  (0 < Limit mostRecent)%Z
  /\ (Z.of_nat (List.length
                  (fst (fst (DiscoverSessions (L:=goLibrary) mostRecent
                                              exampleWorld))))
      <= Limit mostRecent)%Z.
Proof.
  assert (H : (0 < Limit mostRecent)%Z) by (cbn; lia).
  split; [exact H|].
  exact (proj1 (limit_keeps_the_front (L:=goLibrary) mostRecent exampleWorld) H).
Defined.

Lemma beacon_shape_witness :
  gasTownPattern_FindStringSubmatch beaconFull
  = Some [beaconFull; "gastown/crew/gus"; "assigned:gt-abc12"; "2025-12-30T15:42"]
  /\ nth 1 [beaconFull; "gastown/crew/gus"; "assigned:gt-abc12";
            "2025-12-30T15:42"] "" <> "".
Proof.
  assert (H : gasTownPattern_FindStringSubmatch beaconFull
              = Some [beaconFull; "gastown/crew/gus"; "assigned:gt-abc12";
                      "2025-12-30T15:42"]) by (vm_compute; reflexivity).
  split; [exact H|].
  exact (proj1 (proj2 (proj2 (beacon_shape _ _ H)))).
Defined.

Lemma beacon_flag_iff_role_witness :
  parseSession (L:=goLibrary) exampleWorld gusFile gusPath
  = (Ok gusSession, [EvOpen gusFile])
  /\ (IsGasTown gusSession = true <-> Role gusSession <> "").
Proof.
  assert (H : parseSession (L:=goLibrary) exampleWorld gusFile gusPath
              = (Ok gusSession, [EvOpen gusFile]))
    by (vm_compute; reflexivity).
  split; [exact H|].
  exact (proj1 (beacon_flag_iff_role (L:=goLibrary) _ _ _ _ _ H)).
Defined.

Lemma discover_returns_matches_witness :
  (forall entries,
      os_ReadDir exampleWorld (projectsDirOf (L:=goLibrary) exampleWorld)
      = Ok entries ->
      Permutation
        (sortSessions (L:=goLibrary)
           (fst (walkProjects (L:=goLibrary) mostRecent exampleWorld
                   (projectsDirOf (L:=goLibrary) exampleWorld) entries)))
        (fst (walkProjects (L:=goLibrary) mostRecent exampleWorld
                (projectsDirOf (L:=goLibrary) exampleWorld) entries)))
  /\ In gusSession
        (fst (fst (DiscoverSessions (L:=goLibrary) mostRecent exampleWorld)))
  /\ keepSession (L:=goLibrary) mostRecent gusSession = true
  /\ Strings.Contains (Path gusSession) "-" = false.
Proof.
  assert (Hperm :
            forall entries,
              os_ReadDir exampleWorld (projectsDirOf (L:=goLibrary) exampleWorld)
              = Ok entries ->
              Permutation
                (sortSessions (L:=goLibrary)
                   (fst (walkProjects (L:=goLibrary) mostRecent exampleWorld
                           (projectsDirOf (L:=goLibrary) exampleWorld) entries)))
                (fst (walkProjects (L:=goLibrary) mostRecent exampleWorld
                        (projectsDirOf (L:=goLibrary) exampleWorld) entries))).
  { intros entries H. vm_compute in H. injection H as <-.
    replace (sortSessions (L:=goLibrary)
               (fst (walkProjects (L:=goLibrary) mostRecent exampleWorld
                       (projectsDirOf (L:=goLibrary) exampleWorld)
                       [ {| Name := "-Users-stevey-gt-gastown"; IsDir := true |};
                         {| Name := "-Users-stevey-gt-gastown-crew-joe";
                            IsDir := true |} ])))
      with (fst (walkProjects (L:=goLibrary) mostRecent exampleWorld
                   (projectsDirOf (L:=goLibrary) exampleWorld)
                   [ {| Name := "-Users-stevey-gt-gastown"; IsDir := true |};
                     {| Name := "-Users-stevey-gt-gastown-crew-joe";
                        IsDir := true |} ]))
      by (vm_compute; reflexivity).
    apply Permutation_refl. }
  assert (Hin : In gusSession
                   (fst (fst (DiscoverSessions (L:=goLibrary) mostRecent
                                               exampleWorld)))).
  { vm_compute. left. reflexivity. }
  split; [exact Hperm|]. split; [exact Hin|].
  destruct (discover_returns_matches (L:=goLibrary) mostRecent exampleWorld
              gusSession Hperm Hin) as (Hk & _ & Hd & _).
  exact (conj Hk Hd).
Defined.

Lemma cells_fit_columns_witness :
  (String.length "witness" <= roleWidth)%nat
  /\ clip roleWidth "witness" = "witness".
Proof.
  assert (H : (String.length "witness" <= roleWidth)%nat)
    by (unfold roleWidth; cbn; lia).
  split; [exact H|].
  exact (proj1 (proj2 (proj2 (proj2 (cells_fit_columns gusSession))))
           roleWidth "witness" H).
Defined.

Lemma seance_row_of_parsed_session_witness :
  parseSession (L:=goLibrary) exampleWorld joeFile joePath
  = (Ok joeSession, [EvOpen joeFile])
  /\ rowRole joeSession
     = clip roleWidth
            (if IsGasTown joeSession then Role joeSession
             else inferRoleFromPath joePath).
Proof.
  assert (H : parseSession (L:=goLibrary) exampleWorld joeFile joePath
              = (Ok joeSession, [EvOpen joeFile]))
    by (vm_compute; reflexivity).
  split; [exact H|].
  exact (proj1 (seance_row_of_parsed_session (L:=goLibrary) _ _ _ _ _ H)).
Defined.

Lemma seance_default_listing_witness :
  (forall entries,
      os_ReadDir exampleWorld (projectsDirOf (L:=goLibrary) exampleWorld)
      = Ok entries ->
      Permutation
        (sortSessions (L:=goLibrary)
           (fst (walkProjects (L:=goLibrary) (seanceFilter false "" "" 20)
                   exampleWorld
                   (projectsDirOf (L:=goLibrary) exampleWorld) entries)))
        (fst (walkProjects (L:=goLibrary) (seanceFilter false "" "" 20)
                exampleWorld
                (projectsDirOf (L:=goLibrary) exampleWorld) entries)))
  /\ In gusSession
        (fst (fst (DiscoverSessions (L:=goLibrary) (seanceFilter false "" "" 20)
                                    exampleWorld)))
  /\ IsGasTown gusSession = true
  /\ rowRole gusSession = clip roleWidth (Role gusSession).
Proof.
  assert (Hperm :
            forall entries,
              os_ReadDir exampleWorld (projectsDirOf (L:=goLibrary) exampleWorld)
              = Ok entries ->
              Permutation
                (sortSessions (L:=goLibrary)
                   (fst (walkProjects (L:=goLibrary)
                           (seanceFilter false "" "" 20) exampleWorld
                           (projectsDirOf (L:=goLibrary) exampleWorld) entries)))
                (fst (walkProjects (L:=goLibrary)
                        (seanceFilter false "" "" 20) exampleWorld
                        (projectsDirOf (L:=goLibrary) exampleWorld) entries))).
  { intros entries H. vm_compute in H. injection H as <-.
    replace (sortSessions (L:=goLibrary)
               (fst (walkProjects (L:=goLibrary) (seanceFilter false "" "" 20)
                       exampleWorld
                       (projectsDirOf (L:=goLibrary) exampleWorld)
                       [ {| Name := "-Users-stevey-gt-gastown"; IsDir := true |};
                         {| Name := "-Users-stevey-gt-gastown-crew-joe";
                            IsDir := true |} ])))
      with (fst (walkProjects (L:=goLibrary) (seanceFilter false "" "" 20)
                   exampleWorld
                   (projectsDirOf (L:=goLibrary) exampleWorld)
                   [ {| Name := "-Users-stevey-gt-gastown"; IsDir := true |};
                     {| Name := "-Users-stevey-gt-gastown-crew-joe";
                        IsDir := true |} ]))
      by (vm_compute; reflexivity).
    apply Permutation_refl. }
  assert (Hin : In gusSession
                   (fst (fst (DiscoverSessions (L:=goLibrary)
                                (seanceFilter false "" "" 20) exampleWorld)))).
  { vm_compute. left. reflexivity. }
  split; [exact Hperm|]. split; [exact Hin|].
  destruct (seance_default_listing (L:=goLibrary) "" "" 20 exampleWorld
              gusSession Hperm Hin) as (Hg & Hr & _).
  exact (conj Hg Hr).
Defined.

Lemma limit_keeps_the_latest_witness :
  os_IsNotExist (os_Stat exampleWorld (projectsDirOf (L:=goLibrary) exampleWorld))
  = false
  /\ os_ReadDir exampleWorld (projectsDirOf (L:=goLibrary) exampleWorld)
     = Ok [rigRootEntry; crewEntry]
  /\ isSortedDesc
       (sortSessions (L:=goLibrary)
          (fst (walkProjects (L:=goLibrary) mostRecent exampleWorld
                  (projectsDirOf (L:=goLibrary) exampleWorld)
                  [rigRootEntry; crewEntry]))) = true
  /\ exists dropped,
      sortSessions (L:=goLibrary)
        (fst (walkProjects (L:=goLibrary) mostRecent exampleWorld
                (projectsDirOf (L:=goLibrary) exampleWorld)
                [rigRootEntry; crewEntry]))
      = (fst (fst (DiscoverSessions (L:=goLibrary) mostRecent exampleWorld))
           ++ dropped)%list
      /\ isSortedDesc
           (fst (fst (DiscoverSessions (L:=goLibrary) mostRecent exampleWorld)))
         = true
      /\ forall a b,
          In a (fst (fst (DiscoverSessions (L:=goLibrary) mostRecent
                                           exampleWorld))) ->
          In b dropped ->
          Time.After (StartTime b) (StartTime a) = false.
Proof.
  assert (H1 : os_IsNotExist
                 (os_Stat exampleWorld
                          (projectsDirOf (L:=goLibrary) exampleWorld)) = false)
    by reflexivity.
  assert (H2 : os_ReadDir exampleWorld
                          (projectsDirOf (L:=goLibrary) exampleWorld)
               = Ok [rigRootEntry; crewEntry]) by (vm_compute; reflexivity).
  assert (H3 : isSortedDesc
                 (sortSessions (L:=goLibrary)
                    (fst (walkProjects (L:=goLibrary) mostRecent exampleWorld
                            (projectsDirOf (L:=goLibrary) exampleWorld)
                            [rigRootEntry; crewEntry]))) = true)
    by (vm_compute; reflexivity).
  split; [exact H1|]. split; [exact H2|]. split; [exact H3|].
  exact (limit_keeps_the_latest (L:=goLibrary) mostRecent exampleWorld
           [rigRootEntry; crewEntry] H1 H2 H3).
Defined.

(** A role need not be free of all white space: a beacon whose role is a
    no-break space is taken as it is, although [strings.TrimSpace] would
    leave nothing of that role. *)
Example beacon_role_can_be_a_no_break_space :
  matchBeacon ("[GAS TOWN] " ++ noBreakSpace) = Some (noBreakSpace, "")
  /\ beaconRole noBreakSpace
  /\ Unicode.IsSpace 160%Z = true
  /\ Strings.TrimSpace noBreakSpace = "".
Proof.
  split; [vm_compute; reflexivity|].
  split; [|split; reflexivity].
  split; [discriminate|]. vm_compute. repeat constructor.
Qed.
